(** * Progressive S3 upload plugin for miniwdl: a shallow embedding

    The development follows [miniwdl_s3upload.py].  Module-level dictionaries
    ([_uploaded_files], [_cached_files]) become fields of an explicit state,
    Python exceptions become the left summand of a result, and the external
    collaborators (file system, [s3parcp] subprocess, S3 client, the base
    [WDL.runtime.cache.CallCache]) are supplied through a [World] record. *)

From Stdlib Require Import ZArith String Ascii List Lia.
From stdpp Require Import base option list gmap strings pretty.

Local Open Scope Z_scope.

(** ** Python string helpers *)

Module Py.

(** [s.startswith(p)] *)
Fixpoint startswith (p s : string) : bool :=
  match p, s with
  | EmptyString, _ => true
  | String a p', String b s' => if Ascii.eqb a b then startswith p' s' else false
  | String _ _, EmptyString => false
  end.

(** [s.endswith("/")] for the one-character suffix the path code asks about *)
Fixpoint endswith_char (c : ascii) (s : string) : bool :=
  match s with
  | EmptyString => false
  | String a EmptyString => Ascii.eqb a c
  | String _ s' => endswith_char c s'
  end.

(** [s[1:]] *)
Definition tail (s : string) : string :=
  match s with
  | EmptyString => EmptyString
  | String _ s' => s'
  end.

(** [s.split(c)] for a one-character separator *)
Fixpoint split (c : ascii) (s : string) : list string :=
  match s with
  | EmptyString => [EmptyString]
  | String a s' =>
      if Ascii.eqb a c then EmptyString :: split c s'
      else match split c s' with
           | [] => [String a EmptyString]
           | h :: t => String a h :: t
           end
  end.

(** [s.split(c, n)]: at most [n] cuts *)
Fixpoint split_max (c : ascii) (s : string) (n : nat) : list string :=
  match n with
  | O => [s]
  | S n' =>
      match s with
      | EmptyString => [EmptyString]
      | String a s' =>
          if Ascii.eqb a c then EmptyString :: split_max c s' n'
          else match split_max c s' n with
               | [] => [String a EmptyString]
               | h :: t => String a h :: t
               end
      end
  end.

(** [sep.join(l)] *)
Fixpoint str_join (sep : string) (l : list string) : string :=
  match l with
  | [] => EmptyString
  | [x] => x
  | x :: rest => x +:+ sep +:+ str_join sep rest
  end.

Definition is_digit (a : ascii) : bool :=
  let n := nat_of_ascii a in (Nat.leb 48 n && Nat.leb n 57)%bool.

Fixpoint all_chars (f : ascii -> bool) (s : string) : bool :=
  match s with
  | EmptyString => true
  | String a s' => (f a && all_chars f s')%bool
  end.

(** [s.isdigit()] on ASCII text: non-empty and every character a digit.
    ([str.isdigit] also accepts digits outside ASCII; a statement that needs
    [isdigit] to be false assumes ASCII names.) *)
Definition isdigit (s : string) : bool :=
  match s with
  | EmptyString => false
  | _ => all_chars is_digit s
  end.

(** Whether the bytes [s] are well-formed UTF-8, read left to right:
    [pending] continuation bytes are still due, the next of them within
    [lo..hi].  The bounds after the lead bytes [E0], [ED], [F0] and [F4] rule
    out overlong forms, surrogates and code points past [U+10FFFF], as the
    strict decoder does. *)
Fixpoint utf8_from (pending lo hi : nat) (s : string) : bool :=
  match s with
  | EmptyString => Nat.eqb pending 0
  | String a s' =>
      let n := nat_of_ascii a in
      match pending with
      | O =>
          if Nat.leb n 127 then utf8_from 0 128 191 s'
          else if (Nat.leb 194 n && Nat.leb n 223)%bool then utf8_from 1 128 191 s'
          else if Nat.eqb n 224 then utf8_from 2 160 191 s'
          else if Nat.eqb n 237 then utf8_from 2 128 159 s'
          else if (Nat.leb 225 n && Nat.leb n 239)%bool then utf8_from 2 128 191 s'
          else if Nat.eqb n 240 then utf8_from 3 144 191 s'
          else if (Nat.leb 241 n && Nat.leb n 243)%bool then utf8_from 3 128 191 s'
          else if Nat.eqb n 244 then utf8_from 3 128 143 s'
          else false
      | S p =>
          if (Nat.leb lo n && Nat.leb n hi)%bool then utf8_from p 128 191 s' else false
      end
  end.

(** [b.decode("utf-8")]: the text of the bytes [b], or [None] where Python
    raises [UnicodeDecodeError].  Text is kept as its UTF-8 bytes, so the
    decoded text is [b] itself. *)
Definition decode_utf8 (b : string) : option string :=
  if utf8_from 0 128 191 b then Some b else None.

(** [needle in s] *)
Fixpoint contains (needle s : string) : bool :=
  (startswith needle s ||
   match s with
   | EmptyString => false
   | String _ s' => contains needle s'
   end)%bool.

End Py.

(** ** [os.path] on POSIX *)

Module OsPath.

Definition sep : ascii := "/"%char.

(** One step of [posixpath.join]. *)
Definition join2 (path b : string) : string :=
  if Py.startswith "/" b then b
  else if (String.eqb path "" || Py.endswith_char sep path)%bool then path +:+ b
  else path +:+ "/" +:+ b.

(** [os.path.join(a, *p)] *)
Definition join (a : string) (p : list string) : string :=
  fold_left join2 p a.

(** [os.path.basename(p)]: everything after the last slash *)
Definition basename (p : string) : string :=
  List.last (Py.split sep p) "".

(** The component work of [posixpath.normpath] on an absolute path:
    empty and [.] components vanish, [..] pops (and is dropped at the
    root). *)
Fixpoint norm_comps (acc : list string) (comps : list string) : list string :=
  match comps with
  | [] => acc
  | c :: rest =>
      if (String.eqb c "" || String.eqb c ".")%bool then norm_comps acc rest
      else if String.eqb c ".." then norm_comps (removelast acc) rest
      else norm_comps (acc ++ [c]) rest
  end.

(** [[x for x in abspath(p).split(sep) if x]] with working directory [cwd] *)
Definition abs_comps (cwd p : string) : list string :=
  norm_comps [] (Py.split sep (join2 cwd p)).

Fixpoint common_prefix_len (a b : list string) : nat :=
  match a, b with
  | x :: a', y :: b' => if String.eqb x y then S (common_prefix_len a' b') else O
  | _, _ => O
  end.

(** [os.path.relpath(path, start)] *)
Definition relpath (cwd path start : string) : string :=
  let start_list := abs_comps cwd start in
  let path_list := abs_comps cwd path in
  let i := common_prefix_len start_list path_list in
  let rel_list := repeat ".." (length start_list - i)%nat ++ drop i path_list in
  match rel_list with
  | [] => "."
  | r :: rest => join r rest
  end.

End OsPath.

(** ** The file system, as far as the plugin looks at it

    A table of directory entries keyed by canonical absolute path.  A regular
    entry names an inode, so two regular entries with the same
    [(st_dev, st_ino)] are hard links of one file object. *)

Definition Identity : Type := Z * Z.

Inductive Entry :=
| Reg (st_dev st_ino : Z)
| Dir (st_dev st_ino : Z)
| Symlink (target : string).

Record FS := {
  fs_table : list (string * Entry);
  fs_cwd : string;
  (** how many symbolic links one path resolution may expand *)
  fs_maxlinks : nat
}.

Module Os.

Fixpoint assoc (k : string) (l : list (string * Entry)) : option Entry :=
  match l with
  | [] => None
  | (k', e) :: rest => if String.eqb k k' then Some e else assoc k rest
  end.

(** [os.lstat] on a path whose directory part is already canonical *)
Definition entry_at (fs : FS) (p : string) : option Entry := assoc p (fs_table fs).

(** [posixpath.dirname] of a canonical path held in [_joinrealpath] *)
Definition parent (p : string) : string :=
  match removelast (Py.split OsPath.sep p) with
  | [] => ""
  | [r] => if String.eqb r "" then "/" else r
  | r :: rest => Py.str_join "/" (r :: rest)
  end.

(** [posixpath._joinrealpath(path, rest)]: [path] is resolved, [rest]
    are the components still to go.  A link's target is spliced in front of
    the remaining components; [fuel] bounds the number of links expanded
    (a symlink loop exhausts it). *)
Fixpoint joinrealpath (fs : FS) (fuel : nat) (path : string) (rest : list string)
  {struct fuel} : option string :=
  (fix go (path : string) (rest : list string) {struct rest} : option string :=
     match rest with
     | [] => Some path
     | name :: rest' =>
         if (String.eqb name "" || String.eqb name ".")%bool then go path rest'
         else if String.eqb name ".." then go (parent path) rest'
         else
           let newpath := OsPath.join2 path name in
           match entry_at fs newpath with
           | Some (Symlink target) =>
               match fuel with
               | O => None
               | S fuel' =>
                   joinrealpath fs fuel'
                     (if Py.startswith "/" target then "/" else path)
                     (Py.split OsPath.sep target ++ rest')
               end
           | _ => go newpath rest'
           end
     end) path rest.

(** [os.path.realpath(p)]; [None] when resolution does not end *)
Definition realpath (fs : FS) (p : string) : option string :=
  joinrealpath fs (fs_maxlinks fs)
    (if Py.startswith "/" p then "/" else fs_cwd fs)
    (Py.split OsPath.sep p).

(** [os.stat] of a canonical path: [(st_dev, st_ino)] *)
Definition stat_canonical (fs : FS) (p : string) : option Identity :=
  match entry_at fs p with
  | Some (Reg d i) => Some (d, i)
  | Some (Dir d i) => Some (d, i)
  | _ => None
  end.

Definition isdir (fs : FS) (p : string) : bool :=
  match realpath fs p with
  | Some rp => match entry_at fs rp with Some (Dir _ _) => true | _ => false end
  | None => false
  end.

Definition isfile (fs : FS) (p : string) : bool :=
  match realpath fs p with
  | Some rp => match entry_at fs rp with Some (Reg _ _) => true | _ => false end
  | None => false
  end.

(** [os.path.islink(p)]: the directory part is resolved, the last
    component is not followed *)
Definition islink (fs : FS) (p : string) : bool :=
  let comps := Py.split OsPath.sep p in
  match joinrealpath fs (fs_maxlinks fs)
          (if Py.startswith "/" p then "/" else fs_cwd fs) (removelast comps) with
  | Some d =>
      match entry_at fs (OsPath.join2 d (List.last comps "")) with
      | Some (Symlink _) => true
      | _ => false
      end
  | None => false
  end.

(** Names directly under the canonical directory [d], in table order. *)
Definition children (fs : FS) (d : string) : list string :=
  let pre := if Py.endswith_char OsPath.sep d then d else d +:+ "/" in
  omap (fun kv : string * Entry =>
          let k := kv.1 in
          if Py.startswith pre k then
            let name := String.substring (String.length pre)
                          (String.length k - String.length pre) k in
            if (String.eqb name "" || Py.contains "/" name)%bool then None else Some name
          else None)
       (fs_table fs).

(** [os.listdir(p)]; [None] stands for the [OSError] *)
Definition listdir (fs : FS) (p : string) : option (list string) :=
  match realpath fs p with
  | Some rp =>
      match entry_at fs rp with
      | Some (Dir _ _) => Some (children fs rp)
      | _ => None
      end
  | None => None
  end.

(** [os.walk(top)] top-down without following links below [top]:
    the list of [(dirpath, dirnames, filenames)] it yields. *)
Fixpoint walk (fs : FS) (depth : nat) (top : string)
  : list (string * list string * list string) :=
  match listdir fs top with
  | None => []
  | Some names =>
      let dirs := filter (fun n => isdir fs (OsPath.join2 top n) = true) names in
      let nondirs := filter (fun n => isdir fs (OsPath.join2 top n) = false) names in
      (top, dirs, nondirs) ::
      match depth with
      | O => []
      | S depth' =>
          flat_map (fun n =>
                      let new_path := OsPath.join2 top n in
                      if islink fs new_path then [] else walk fs depth' new_path)
                   dirs
      end
  end.

End Os.

(** [inode(link)]: [os.stat(os.path.realpath(link))] as [(st_dev, st_ino)];
    [None] stands for the [OSError] of a path that does not resolve. *)
Definition inode (fs : FS) (link : string) : option Identity :=
  match Os.realpath fs link with
  | Some rp => Os.stat_canonical fs rp
  | None => None
  end.

(** ** WDL values and [Value.rewrite_env_paths]

    [WDL.Value] is the engine's; the plugin only relies on which values are
    [File] or [Directory] and on the order in which the rewriting callback
    meets them.  Arrays, pairs, maps and structs are compounds with their
    children in traversal order. *)

#[local] Set Warnings "-register-all".

Inductive Value :=
| VScalar (repr : string)
| VFile (value : string)
| VDirectory (value : string)
| VCompound (children : list Value).

Definition Bindings : Type := list (string * Value).

(** ** Exceptions and results *)

Inductive Exn :=
| AssertionError (msg : string)
| ConfigError (option_name : string)
| ValueError
| IndexError
| NameError (name : string)
| OSError (path : string)
| RuntimeError (msg : string)        (* WDL.Error.RuntimeError *)
| UnicodeDecodeError (bytes : string)
| ClientError (code : string)        (* botocore.exceptions.ClientError *)
| TransportError (msg : string).     (* anything else the S3 client raises *)

Definition Result (A : Type) : Type := Exn + A.

Section Rewrite.
Context {S : Type}.
(** The callback gets the [.value] of a [File] or [Directory], may update
    what its closure captured, and returns the new path or raises. *)
Variable f : string -> S -> S * Result string.

Fixpoint rewrite_paths (v : Value) (s : S) {struct v} : S * Result Value :=
  match v with
  | VScalar r => (s, inr (VScalar r))
  | VFile p =>
      match f p s with
      | (s', inl e) => (s', inl e)
      | (s', inr q) => (s', inr (VFile q))
      end
  | VDirectory p =>
      match f p s with
      | (s', inl e) => (s', inl e)
      | (s', inr q) => (s', inr (VDirectory q))
      end
  | VCompound vs =>
      match (fix each (vs : list Value) (s : S) {struct vs} : S * Result (list Value) :=
               match vs with
               | [] => (s, inr [])
               | v :: vs' =>
                   match rewrite_paths v s with
                   | (s1, inl e) => (s1, inl e)
                   | (s1, inr v') =>
                       match each vs' s1 with
                       | (s2, inl e) => (s2, inl e)
                       | (s2, inr vs'') => (s2, inr (v' :: vs''))
                       end
                   end
               end) vs s with
      | (s', inl e) => (s', inl e)
      | (s', inr vs') => (s', inr (VCompound vs'))
      end
  end.

Fixpoint rewrite_env_paths (env : Bindings) (s : S) : S * Result Bindings :=
  match env with
  | [] => (s, inr [])
  | (name, v) :: env' =>
      match rewrite_paths v s with
      | (s1, inl e) => (s1, inl e)
      | (s1, inr v') =>
          match rewrite_env_paths env' s1 with
          | (s2, inl e) => (s2, inl e)
          | (s2, inr env'') => (s2, inr ((name, v') :: env''))
          end
      end
  end.

(** The callback run over a plain list of paths, stopping at the first
    exception. *)
Fixpoint run_paths (ps : list string) (s : S) : S * Result (list string) :=
  match ps with
  | [] => (s, inr [])
  | p :: ps' =>
      match f p s with
      | (s1, inl e) => (s1, inl e)
      | (s1, inr q) =>
          match run_paths ps' s1 with
          | (s2, inl e) => (s2, inl e)
          | (s2, inr qs) => (s2, inr (q :: qs))
          end
      end
  end.
End Rewrite.

(** The [File]/[Directory] paths of a value, in traversal order. *)
Fixpoint value_paths (v : Value) : list string :=
  match v with
  | VScalar _ => []
  | VFile p => [p]
  | VDirectory p => [p]
  | VCompound vs => flat_map value_paths vs
  end.

Definition env_paths (env : Bindings) : list string :=
  flat_map (fun b : string * Value => value_paths b.2) env.

(** A value with every path replaced through [g]. *)
Fixpoint map_paths (g : string -> string) (v : Value) : Value :=
  match v with
  | VScalar r => VScalar r
  | VFile p => VFile (g p)
  | VDirectory p => VDirectory (g p)
  | VCompound vs => VCompound (map (map_paths g) vs)
  end.

Definition map_env_paths (g : string -> string) (env : Bindings) : Bindings :=
  map (fun b : string * Value => (b.1, map_paths g b.2)) env.

(** ** Configuration, world and plugin state *)

Record Config := {
  (** [[s3_progressive_upload] uri_prefix] *)
  cfg_uri_prefix : option string;
  (** [[s3_progressive_upload] call_cache_get_uri_prefix] *)
  cfg_call_cache_get_uri_prefix : option string;
  (** [[call_cache] put] *)
  cfg_call_cache_put : bool;
  (** [[call_cache] backend] *)
  cfg_call_cache_backend : string;
  (** [[call_cache] dir] *)
  cfg_call_cache_dir : string
}.

Inductive Download :=
| Downloaded (body : string)
| DownloadClientError (code : string)
| DownloadFailed (msg : string).

Inductive Content :=
| Blob (body : string)
| Manifest (namespace : string) (outputs : Bindings).

(** What the plugin consults but does not own. *)
Record World := {
  w_fs : FS;
  (** [subprocess.run(cmd, stderr=PIPE)]: [(returncode, stderr)], the
      standard error as the bytes the tool wrote *)
  w_run : list string -> Z * string;
  (** [s3_client.download_file(bucket, key, _)] *)
  w_download : string -> string -> Download;
  (** [os.environ.get("WDL_OUTPUT_URI")] *)
  w_output_uri : option string;
  (** [cache.CallCache.get] of the base class, reading the local store *)
  w_super_get : gmap string Content -> string -> Bindings -> Bindings -> option Bindings
}.

Inductive Level := DEBUG | INFO | WARNING | ERROR.

Record LogRecord := {
  lr_level : Level;
  lr_msg : string;
  lr_fields : list (string * string)
}.

Inductive S3Call :=
| PutObject (bucket key : string) (body : Bindings)
| PutObjectTagging (bucket key : string) (tag value : string).

Record State := {
  (** [_uploaded_files] *)
  uploaded_files : gmap Identity string;
  (** [_cached_files] *)
  cached_files : gmap Identity (string * Bindings);
  (** requests sent to S3, oldest first *)
  s3_calls : list S3Call;
  (** command lines handed to [subprocess.run], oldest first *)
  commands : list (list string);
  (** records handed to the logger, oldest first *)
  log : list LogRecord;
  (** local files written *)
  files : gmap string Content
}.

Definition initial_state : State :=
  {| uploaded_files := ∅; cached_files := ∅; s3_calls := []; commands := [];
     log := []; files := ∅ |}.

Definition set_uploaded_files (u : gmap Identity string) (st : State) : State :=
  {| uploaded_files := u; cached_files := cached_files st; s3_calls := s3_calls st;
     commands := commands st; log := log st; files := files st |}.
Definition set_cached_files (c : gmap Identity (string * Bindings)) (st : State) : State :=
  {| uploaded_files := uploaded_files st; cached_files := c; s3_calls := s3_calls st;
     commands := commands st; log := log st; files := files st |}.
Definition add_s3_call (c : S3Call) (st : State) : State :=
  {| uploaded_files := uploaded_files st; cached_files := cached_files st;
     s3_calls := s3_calls st ++ [c];
     commands := commands st; log := log st; files := files st |}.
Definition add_command (c : list string) (st : State) : State :=
  {| uploaded_files := uploaded_files st; cached_files := cached_files st;
     s3_calls := s3_calls st; commands := commands st ++ [c];
     log := log st; files := files st |}.
Definition add_log (r : LogRecord) (st : State) : State :=
  {| uploaded_files := uploaded_files st; cached_files := cached_files st;
     s3_calls := s3_calls st; commands := commands st;
     log := log st ++ [r]; files := files st |}.
Definition write_file (fn : string) (c : Content) (st : State) : State :=
  {| uploaded_files := uploaded_files st; cached_files := cached_files st;
     s3_calls := s3_calls st; commands := commands st;
     log := log st; files := <[fn := c]> (files st) |}.

(** ** Statements: state passing with exceptions

    An exception leaves the state as the raising statement found it, the way
    a Python exception leaves module globals. *)

Definition M (A : Type) : Type := State -> State * Result A.

#[global] Instance M_ret : MRet M := fun A a st => (st, inr a).
#[global] Instance M_bind : MBind M := fun A B k m st =>
  match m st with
  | (st', inl e) => (st', inl e)
  | (st', inr a) => k a st'
  end.

Definition raise {A} (e : Exn) : M A := fun st => (st, inl e).
Definition lift {A} (r : Result A) : M A := fun st => (st, r).
Definition get_state : M State := fun st => (st, inr st).
Definition modify (g : State -> State) : M unit := fun st => (g st, inr tt).
Definition logger (lvl : Level) (msg : string) (fields : list (string * string)) : M unit :=
  modify (add_log {| lr_level := lvl; lr_msg := msg; lr_fields := fields |}).

(** ** The plugin *)

Section Plugin.
Variable world : World.
Variable cfg : Config.

Let fs := w_fs world.

(** [urllib.parse.urlparse(uri)] on plain [scheme://host/path] text:
    [(hostname, path)] by the split at the slashes.  This is what the
    library returns for a host of lower-case letters, digits, dots and dashes
    followed by visible ASCII text without [?] and [#] ([plain_s3_uri]
    below).  Elsewhere the library lower-cases the host, strips user info and
    port and cuts the path at a query or fragment; statements that depend on
    what [urlparse] returns assume plain text. *)
Definition urlparse (uri : string) : string * string :=
  match Py.split_max OsPath.sep uri 3 with
  | [_; _; netloc; rest] => (netloc, "/" +:+ rest)
  | [_; _; netloc] => (netloc, "")
  | _ => ("", uri)
  end.

(** [s3_object(uri)]: the [(bucket, key)] the object handle addresses *)
Definition s3_object (uri : string) : Result (string * string) :=
  if Py.startswith "s3://" uri then
    match drop 2 (Py.split_max OsPath.sep uri 3) with
    | [bucket; key] => inr (bucket, key)
    | _ => inl ValueError
    end
  else inl (AssertionError "").

Definition get_s3_put_prefix : Result string :=
  match cfg_uri_prefix cfg with
  | None => inl (ConfigError "uri_prefix")
  | Some s3prefix =>
      if Py.startswith "s3://" s3prefix then inr s3prefix
      else inl (AssertionError "MINIWDL__S3_PROGRESSIVE_UPLOAD__URI_PREFIX invalid")
  end.

Definition get_s3_get_prefix : Result string :=
  match cfg_call_cache_get_uri_prefix cfg with
  | None => get_s3_put_prefix
  | Some s3prefix =>
      if String.eqb s3prefix "" then get_s3_put_prefix
      else if Py.startswith "s3://" s3prefix then inr s3prefix
      else inl (AssertionError
                  "MINIWDL__S3_PROGRESSIVE_UPLOAD__CALL_CACHE_GET_URI_PREFIX invalid")
  end.

(** [flag_temporary(s3uri)] tags the object [urlparse] finds in the URI; on
    plain URI text that is the object [s3_object] addresses. *)
Definition flag_temporary (s3uri : string) : M unit :=
  let '(bucket, path) := urlparse s3uri in
  modify (add_s3_call (PutObjectTagging bucket (Py.tail path) "swipe_temporary" "true")).

Definition backend_marker : string := "s3_progressive_upload_call_cache_backend".

(** The closure [cache] of [cache_put]; its captured [missing] flag is the
    threaded state, the ledger is read from [uploaded]. *)
Definition cache_put_cache (uploaded : gmap Identity string)
    (value : string) (missing : bool) : bool * Result string :=
  if missing then (true, inr "")
  else
    match inode fs value with
    | None => (missing, inl (OSError value))
    | Some id =>
        match uploaded !! id with
        | None => (true, inr "")
        | Some uri => (false, inr uri)
        end
    end.

Definition cache_put (key : string) (outputs : Bindings) : M unit :=
  if negb (cfg_call_cache_put cfg &&
           String.eqb (cfg_call_cache_backend cfg) backend_marker) then mret tt
  else
    st ← get_state;
    match rewrite_env_paths (cache_put_cache (uploaded_files st)) outputs false with
    | (_, inl e) => raise e
    | (true, inr _) => mret tt
    | (false, inr remapped_outputs) =>
        s3prefix ← lift get_s3_put_prefix;
        let uri := OsPath.join s3prefix ["cache"; key +:+ ".json"] in
        obj ← lift (s3_object uri);
        modify (add_s3_call (PutObject obj.1 obj.2 remapped_outputs));;
        flag_temporary uri;;
        logger INFO "call cache insert" [("cache_file", uri)]
    end.

(** ** [class CallCache] *)

Definition CallCache_get (key : string) (inputs output_types : Bindings)
  : M (option Bindings) :=
  s3prefix ← lift get_s3_get_prefix;
  let '(bucket, prefix) := urlparse s3prefix in
  let key := Py.tail (OsPath.join prefix ["cache"; key +:+ ".json"]) in
  let abs_fn := OsPath.join (cfg_call_cache_dir cfg) [key +:+ ".json"] in
  match w_download world bucket key with
  | Downloaded body => modify (write_file abs_fn (Blob body))
  | DownloadClientError code =>
      if negb (String.eqb code "404") then raise (ClientError code) else mret tt
  | DownloadFailed msg => raise (TransportError msg)
  end;;
  st ← get_state;
  mret (w_super_get world (files st) key inputs output_types).

(** The closure [cache] of [CallCache.put]; the registry is the threaded
    state. *)
Definition CallCache_put_cache (key : string) (outputs : Bindings)
    (value : string) (cached : gmap Identity (string * Bindings))
  : gmap Identity (string * Bindings) * Result string :=
  match inode fs value with
  | None => (cached, inl (OSError value))
  | Some id => (<[id := (key, outputs)]> cached, inr "")
  end.

Definition CallCache_put (key : string) (outputs : Bindings) : M unit :=
  if negb (cfg_call_cache_put cfg) then mret tt
  else
    st ← get_state;
    match rewrite_env_paths (CallCache_put_cache key outputs) outputs (cached_files st) with
    | (cached, inl e) => modify (set_cached_files cached);; raise e
    | (cached, inr _) =>
        modify (set_cached_files cached);;
        cache_put key outputs
    end.

(** ** The copy tool *)

Definition s3cp (fn s3uri : string) : M unit :=
  let cmd := ["s3parcp"; fn; s3uri] in
  logger DEBUG (Py.str_join " " cmd) [];;
  modify (add_command cmd);;
  let rslt := w_run world cmd in
  if negb (rslt.1 =? 0) then
    (* the arguments of [logger.error] are evaluated first *)
    match Py.decode_utf8 rslt.2 with
    | None => raise (UnicodeDecodeError rslt.2)
    | Some stderr =>
        logger ERROR "failed uploading output file"
          [("cmd", Py.str_join " " cmd); ("exit_status", pretty rslt.1);
           ("stderr", stderr)];;
        raise (RuntimeError ("failed: " +:+ Py.str_join " " cmd))
    end
  else mret tt.

(** ** The task hook *)

Definition upload_file (abs_fn s3uri : string) : M unit :=
  s3cp abs_fn s3uri;;
  match inode fs abs_fn with
  | None => raise (OSError abs_fn)
  | Some id =>
      st ← get_state;
      modify (set_uploaded_files (<[id := s3uri]> (uploaded_files st)));;
      match cached_files st !! id with
      | Some (key, outputs) => cache_put key outputs
      | None => mret tt
      end
  end;;
  logger INFO "task output uploaded" [("file", abs_fn); ("uri", s3uri)].

(** [for x in xs: body(x)] *)
Fixpoint for_each {A} (xs : list A) (body : A -> M unit) : M unit :=
  match xs with
  | [] => mret tt
  | x :: xs' => body x;; for_each xs' body
  end.

Definition assert (b : bool) (msg : string) : M unit :=
  if b then mret tt else raise (AssertionError msg).

Definition listdir (p : string) : M (list string) :=
  match Os.listdir fs p with
  | Some names => mret names
  | None => raise (OSError p)
  end.

Definition not_hidden (names : list string) : list string :=
  filter (fun fn => Py.startswith "." fn = false) names.

(** The body of [for output in os.listdir(links_dir)]. *)
Definition task_output (s3prefix links_dir output : string) : M unit :=
  let abs_output := OsPath.join links_dir [output] in
  assert (Os.isdir fs abs_output) "";;
  names ← listdir abs_output;
  let output_contents := map (fun fn => OsPath.join abs_output [fn]) (not_hidden names) in
  assert (match output_contents with [] => false | _ => true end) "";;
  let first := hd "" output_contents in
  if ((length output_contents =? 1)%nat && Os.isdir fs first && Os.islink fs first)%bool then
    (* directory output *)
    match inode fs first with
    | None => raise (OSError first)
    | Some id =>
        st ← get_state;
        modify (set_uploaded_files
                  (<[id := OsPath.join s3prefix [OsPath.basename first] +:+ "/"]>
                     (uploaded_files st)))
    end;;
    for_each (Os.walk fs (length (fs_table fs)) first)
      (fun '(dn, subdirs, files) =>
         assert (String.eqb dn first || Py.startswith (first +:+ "/") dn)%bool dn;;
         for_each files (fun fn =>
           let abs_fn := OsPath.join dn [fn] in
           let s3uri :=
             OsPath.join s3prefix [OsPath.relpath (fs_cwd fs) abs_fn abs_output] in
           upload_file abs_fn s3uri))
  else if ((length output_contents =? 1)%nat && Os.isfile fs first)%bool then
    (* file output *)
    let basename := OsPath.basename first in
    let abs_fn := OsPath.join abs_output [basename] in
    let s3uri := OsPath.join s3prefix [basename] in
    upload_file abs_fn s3uri
  else
    (* file array output *)
    assert (forallb (fun abs_fn => Py.isdigit (OsPath.basename abs_fn)) output_contents) "";;
    for_each output_contents (fun index_dir =>
      fns0 ← listdir index_dir;
      let fns := not_hidden fns0 in
      assert (length fns =? 1)%nat "";;
      let abs_fn := OsPath.join index_dir [hd "" fns] in
      let s3uri := OsPath.join s3prefix [hd "" fns] in
      upload_file abs_fn s3uri).

(** [task], from the second [yield] to the last: what the hook does once
    the task has completed. *)
Definition task (run_id : list string) (run_dir : string) : M unit :=
  match cfg_uri_prefix cfg with
  | None =>
      logger DEBUG "skipping because MINIWDL__S3_PROGRESSIVE_UPLOAD__URI_PREFIX is unset" []
  | Some _ =>
      match List.last (map Some run_id) None with
      | None => raise IndexError
      | Some last_id =>
          if Py.startswith "download-" last_id then mret tt
          else
            s3prefix ← lift get_s3_put_prefix;
            let links_dir := OsPath.join run_dir ["out"] in
            outputs ← listdir links_dir;
            for_each outputs (task_output s3prefix links_dir)
      end
  end.

(** ** The workflow hook *)

(** The closure [rewriter] of [write_outputs_s3_json].  [fn] is the cell of
    the enclosing function's local variable of that name: [None] while it
    is unassigned.  The threaded state is the log. *)
Definition rewriter (uploaded : gmap Identity string) (fn : option string)
    (value : string) (lg : list LogRecord) : list LogRecord * Result string :=
  match inode fs value ≫= (fun id => uploaded !! id) with
  | Some uri => (lg, inr uri)
  | None =>
      let lg' := lg ++ [{| lr_level := WARNING;
                           lr_msg := "output file or directory wasn't uploaded to S3; keeping local path in outputs.s3.json";
                           lr_fields := [("path", value)] |}] in
      match fn with
      | None => (lg', inl (NameError "fn"))
      | Some fn => (lg', inr fn)
      end
  end.

Definition set_log (lg : list LogRecord) (st : State) : State :=
  {| uploaded_files := uploaded_files st; cached_files := cached_files st;
     s3_calls := s3_calls st; commands := commands st;
     log := lg; files := files st |}.

Definition write_outputs_s3_json (outputs : Bindings)
    (run_dir s3prefix namespace : string) : M unit :=
  st ← get_state;
  (* [fn] is assigned only further down *)
  match rewrite_env_paths (rewriter (uploaded_files st) None) outputs (log st) with
  | (lg, inl e) => modify (set_log lg);; raise e
  | (lg, inr outputs_s3) =>
      modify (set_log lg);;
      let fn := OsPath.join run_dir ["outputs.s3.json"] in
      modify (write_file fn (Manifest namespace outputs_s3));;
      s3cp fn (match w_output_uri world with
               | Some uri => uri
               | None => OsPath.join s3prefix ["outputs.s3.json"]
               end)
  end.

(** [workflow], after its first [yield]. *)
Definition workflow (run_id : list string) (run_dir name : string)
    (outputs : Bindings) : M unit :=
  match cfg_uri_prefix cfg with
  | Some _ =>
      s3prefix ← lift get_s3_put_prefix;
      write_outputs_s3_json outputs run_dir
        (OsPath.join s3prefix (List.tl run_id)) name
  | None => mret tt
  end.

End Plugin.

(** * Vocabulary of the statements *)

(** ** Rewriting *)

Fixpoint Value_nested_ind (P : Value -> Prop)
    (Hscalar : forall r, P (VScalar r))
    (Hfile : forall p, P (VFile p))
    (Hdir : forall p, P (VDirectory p))
    (Hcompound : forall vs, Forall P vs -> P (VCompound vs))
    (v : Value) {struct v} : P v :=
  match v with
  | VScalar r => Hscalar r
  | VFile p => Hfile p
  | VDirectory p => Hdir p
  | VCompound vs =>
      Hcompound vs
        ((fix all (vs : list Value) : Forall P vs :=
            match vs with
            | [] => @List.Forall_nil Value P
            | v :: vs' =>
                @List.Forall_cons Value P v vs'
                  (Value_nested_ind P Hscalar Hfile Hdir Hcompound v) (all vs')
            end) vs)
  end.

(** What a run leaves behind: the final state and the exception, if any. *)
Definition outcome {S A} (r : S * Result A) : S * option Exn :=
  (r.1, match r.2 with inl e => Some e | inr _ => None end).

(** The loop of [rewrite_paths] over the children of a compound. *)
Definition rewrite_each {S : Type} (f : string -> S -> S * Result string)
  : list Value -> S -> S * Result (list Value) :=
  fix each (vs : list Value) (s : S) {struct vs} : S * Result (list Value) :=
    match vs with
    | [] => (s, inr [])
    | v :: vs' =>
        match rewrite_paths f v s with
        | (s1, inl e) => (s1, inl e)
        | (s1, inr v') =>
            match each vs' s1 with
            | (s2, inl e) => (s2, inl e)
            | (s2, inr vs'') => (s2, inr (v' :: vs''))
            end
        end
    end.

(** ** Ledger and registry *)

(** Every path of the bindings names an existing file object. *)
Definition paths_exist (world : World) (env : Bindings) : Prop :=
  forall p, p ∈ env_paths env -> is_Some (inode (w_fs world) p).

(** The identity of [p] is in the ledger. *)
Definition resolved (world : World) (uploaded : gmap Identity string) (p : string) : bool :=
  match inode (w_fs world) p with
  | Some id => bool_decide (is_Some (uploaded !! id))
  | None => false
  end.

(** Every file and directory value of the bindings is in the ledger. *)
Definition all_resolved (world : World) (uploaded : gmap Identity string) (env : Bindings) : bool :=
  forallb (resolved world uploaded) (env_paths env).

(** The URI the ledger records for the file object behind [p]. *)
Definition resolve_uri (world : World) (uploaded : gmap Identity string) (p : string) : string :=
  default "" (inode (w_fs world) p ≫= (fun id => uploaded !! id)).

(** The state after a manifest for [key] went out. *)
Definition published (uri bucket objkey : string) (body : Bindings) (st : State) : State :=
  add_log {| lr_level := INFO; lr_msg := "call cache insert";
             lr_fields := [("cache_file", uri)] |}
    (add_s3_call (PutObjectTagging bucket objkey "swipe_temporary" "true")
       (add_s3_call (PutObject bucket objkey body) st)).

(** The command line of the copy tool. *)
Definition s3parcp_cmd (fn s3uri : string) : list string := ["s3parcp"; fn; s3uri].

(** What [s3cp] raises when [cmd] has exited with a non-zero status: the
    [RuntimeError] that carries the command line, unless the tool's standard
    error does not decode, in which case [decode] has raised before. *)
Definition copy_failure (world : World) (cmd : list string) : Exn :=
  match Py.decode_utf8 (w_run world cmd).2 with
  | Some _ => RuntimeError ("failed: " +:+ Py.str_join " " cmd)
  | None => UnicodeDecodeError (w_run world cmd).2
  end.

(** The registry after the closure of [CallCache.put] has seen [ps]. *)
Definition register_paths (world : World) (key : string) (outputs : Bindings) (ps : list string)
    (cached : gmap Identity (string * Bindings)) : gmap Identity (string * Bindings) :=
  fold_left (fun c p => match inode (w_fs world) p with
                        | Some id => <[id := (key, outputs)]> c
                        | None => c
                        end) ps cached.

(** One of the paths [ps] names the file object [id]. *)
Definition names (world : World) (ps : list string) (id : Identity) : bool :=
  existsb (fun p => bool_decide (inode (w_fs world) p = Some id)) ps.

(** The ledger after the uploads [ups] were recorded. *)
Definition record_uploads (fs : FS) (ups : list (string * string))
    (uploaded : gmap Identity string) : gmap Identity string :=
  fold_left (fun m u => match inode fs u.1 with
                        | Some id => <[id := u.2]> m
                        | None => m
                        end) ups uploaded.


(** The ledger has a URI for the file object behind [p]; a path that does not
    resolve has none. *)
Definition ledger_uri (world : World) (uploaded : gmap Identity string) (p : string)
  : option string :=
  inode (w_fs world) p ≫= (fun id => uploaded !! id).

Definition not_uploaded_warning (p : string) : LogRecord :=
  {| lr_level := WARNING;
     lr_msg := "output file or directory wasn't uploaded to S3; keeping local path in outputs.s3.json";
     lr_fields := [("path", p)] |}.

(** ** Statements and the state they keep *)

(** The statement [m] keeps the property [I] of the state, whether it
    returns or raises. *)
Definition preserves {A} (I : State -> Prop) (m : M A) : Prop :=
  forall st, I st -> I (m st).1.

(** The S3 requests sent so far are exactly [calls]. *)
Definition s3_calls_are (calls : list S3Call) (st : State) : Prop := s3_calls st = calls.

(** ** What the engine asks of the plugin *)

Inductive HookCall :=
| CachePut (key : string) (outputs : Bindings)
| CacheGet (key : string) (inputs output_types : Bindings)
| TaskDone (run_id : list string) (run_dir : string)
| WorkflowDone (run_id : list string) (run_dir name : string) (outputs : Bindings).

(** One call; an exception ends that call and the state stays as it left it. *)
Definition run_hook (world : World) (cfg : Config) (h : HookCall) (st : State) : State :=
  match h with
  | CachePut key outputs => (CallCache_put world cfg key outputs st).1
  | CacheGet key inputs output_types => (CallCache_get world cfg key inputs output_types st).1
  | TaskDone run_id run_dir => (task world cfg run_id run_dir st).1
  | WorkflowDone run_id run_dir name outputs =>
      (workflow world cfg run_id run_dir name outputs st).1
  end.

(** Hook calls one after the other. *)
Definition run_hooks (world : World) (cfg : Config) (hs : list HookCall) (st : State) : State :=
  fold_left (fun st h => run_hook world cfg h st) hs st.

(** The uploads of a list of [(abs_fn, s3uri)], one after the other. *)
Definition run_uploads (world : World) (cfg : Config) (ups : list (string * string)) : M unit :=
  for_each ups (fun u => upload_file world cfg u.1 u.2).

(** ** Cache lookup *)

(** The object key of the manifest for [key] under the get-prefix; the
    lookup rebinds [key] to it. *)
Definition remote_cache_key (s3prefix key : string) : string :=
  Py.tail (OsPath.join (urlparse s3prefix).2 ["cache"; key +:+ ".json"]).

(** Where [download_file] puts the manifest. *)
Definition local_manifest_path (cfg : Config) (s3prefix key : string) : string :=
  OsPath.join (cfg_call_cache_dir cfg) [remote_cache_key s3prefix key +:+ ".json"].

(** ** Path resolution *)

Module Resolve.

(** The target of a directory entry that is a symbolic link. *)
Definition link_target (e : option Entry) : option string :=
  match e with
  | Some (Symlink target) => Some target
  | _ => None
  end.

(** [resolves fs n path rest q]: from the resolved directory [path], the
    components [rest] lead to the canonical path [q], and exactly [n] symbolic
    links are followed on the way.  One rule per branch of
    [_joinrealpath]. *)
Inductive resolves (fs : FS) : nat -> string -> list string -> string -> Prop :=
| resolves_done path :
    resolves fs 0 path [] path
| resolves_skip n path name rest q :
    (String.eqb name "" || String.eqb name ".")%bool = true ->
    resolves fs n path rest q ->
    resolves fs n path (name :: rest) q
| resolves_up n path name rest q :
    (String.eqb name "" || String.eqb name ".")%bool = false ->
    String.eqb name ".." = true ->
    resolves fs n (Os.parent path) rest q ->
    resolves fs n path (name :: rest) q
| resolves_entry n path name rest q :
    (String.eqb name "" || String.eqb name ".")%bool = false ->
    String.eqb name ".." = false ->
    link_target (Os.entry_at fs (OsPath.join2 path name)) = None ->
    resolves fs n (OsPath.join2 path name) rest q ->
    resolves fs n path (name :: rest) q
| resolves_link n path name rest target q :
    (String.eqb name "" || String.eqb name ".")%bool = false ->
    String.eqb name ".." = false ->
    link_target (Os.entry_at fs (OsPath.join2 path name)) = Some target ->
    resolves fs n (if Py.startswith "/" target then "/" else path)
      (Py.split OsPath.sep target ++ rest) q ->
    resolves fs (S n) path (name :: rest) q.

(** Resolving the path [p] follows [n] symbolic links and ends at a regular
    directory entry of the file object [id]. *)
Definition reaches (fs : FS) (p : string) (n : nat) (id : Identity) : Prop :=
  exists q,
    resolves fs n (if Py.startswith "/" p then "/" else fs_cwd fs) (Py.split OsPath.sep p) q /\
    Os.entry_at fs q = Some (Reg id.1 id.2).

(** A path to a hard link of [id]: no symbolic link on the way. *)
Definition hard_link_to (fs : FS) (p : string) (id : Identity) : Prop := reaches fs p 0 id.

(** A path that gets to a hard link of [id] through [S n] symbolic links. *)
Definition sym_link_to (fs : FS) (p : string) (n : nat) (id : Identity) : Prop :=
  reaches fs p (S n) id.

End Resolve.

(** ** The task hook's uploads *)

(** A name the directory listing can return: not empty, no slash. *)
Definition entry_name (n : string) : Prop := n ≠ "" /\ Py.contains "/" n = false.

(** From [st] to [st'] exactly the uploads [ups] happened: their command
    lines ran in order, the ledger recorded them, nothing else moved. *)
Definition uploads_done (fs : FS) (ups : list (string * string)) (st st' : State) : Prop :=
  commands st' = commands st ++ map (fun u => s3parcp_cmd u.1 u.2) ups /\
  uploaded_files st' = record_uploads fs ups (uploaded_files st) /\
  cached_files st' = cached_files st /\
  s3_calls st' = s3_calls st.

(** The uploads of a directory-valued output: every file [os.walk] finds
    below [dir], to the prefix joined with its path relative to the output's
    subdirectory. *)
Definition dir_uploads (fs : FS) (s3prefix abs_output dir : string) : list (string * string) :=
  flat_map (fun item : string * list string * list string =>
              map (fun fn =>
                     let abs_fn := OsPath.join item.1.1 [fn] in
                     (abs_fn,
                      OsPath.join s3prefix [OsPath.relpath (fs_cwd fs) abs_fn abs_output]))
                  item.2)
           (Os.walk fs (length (fs_table fs)) dir).



(** Every upload of [ups] can go through: the copy tool succeeds and the
    local path names a file object. *)
Definition uploads_ok (world : World) (ups : list (string * string)) : Prop :=
  forall u, u ∈ ups ->
    (w_run world (s3parcp_cmd u.1 u.2)).1 = 0 /\ is_Some (inode (w_fs world) u.1).

(** ** A small world to run things in *)

Module Sample.

Definition fs : FS :=
  {| fs_table :=
       [("/", Dir 1 1); ("/run", Dir 1 2); ("/run/out", Dir 1 3);
        ("/run/out/bam", Dir 1 4);
        ("/run/out/bam/alignments", Symlink "/work/alignments");
        ("/work", Dir 1 5); ("/work/alignments", Dir 1 6);
        ("/work/alignments/a.bam", Reg 1 7); ("/work/alignments/b.bam", Reg 1 8);
        ("/run/out/reads", Dir 1 9);
        ("/run/out/reads/0", Dir 1 10); ("/run/out/reads/1", Dir 1 11);
        ("/run/out/reads/0/r1.fq", Symlink "/work/r1.fq");
        ("/run/out/reads/1/r2.fq", Reg 1 13);
        ("/work/r1.fq", Reg 1 12); ("/work/r1.hard", Reg 1 12); ("/work/r2.fq", Reg 1 13);
        ("/run/out/single", Dir 1 14);
        ("/run/out/single/x.txt", Symlink "../../../work/x.txt");
        ("/work/x.txt", Reg 1 15);
        ("/work/hard.txt", Reg 1 15)];
     fs_cwd := "/";
     fs_maxlinks := 40 |}.

(** A local store in the manner of the base class: the entry for [key] is
    the file [<dir>/<key>.json]. *)
Definition local_get (dir : string) (files : gmap string Content) (key : string)
    (inputs output_types : Bindings) : option Bindings :=
  match files !! OsPath.join dir [key +:+ ".json"] with
  | Some (Manifest _ outputs) => Some outputs
  | Some (Blob body) => Some [("cached", VScalar body)]
  | None => None
  end.

Definition world : World :=
  {| w_fs := fs;
     w_run := fun _ => (0, "");
     w_download := fun _ _ => DownloadClientError "404";
     w_output_uri := None;
     w_super_get := local_get "/cache" |}.

(** The same world with a copy tool that fails. *)
Definition world_failing : World :=
  {| w_fs := fs;
     w_run := fun _ => (1, "AccessDenied");
     w_download := fun _ _ => DownloadClientError "500";
     w_output_uri := None;
     w_super_get := w_super_get world |}.

(** The one byte [0xFF], which is no UTF-8. *)
Definition garbled : string := String (ascii_of_nat 255) EmptyString.

(** A copy tool that fails and writes [garbled] to its standard error. *)
Definition world_garbled : World :=
  {| w_fs := fs;
     w_run := fun _ => (1, garbled);
     w_download := w_download world;
     w_output_uri := None;
     w_super_get := w_super_get world |}.

Definition cfg : Config :=
  {| cfg_uri_prefix := Some "s3://bucket/pre";
     cfg_call_cache_get_uri_prefix := None;
     cfg_call_cache_put := true;
     cfg_call_cache_backend := backend_marker;
     cfg_call_cache_dir := "/cache" |}.

(** Cache writes enabled, another backend configured. *)
Definition cfg_other_backend : Config :=
  {| cfg_uri_prefix := Some "s3://bucket/pre";
     cfg_call_cache_get_uri_prefix := None;
     cfg_call_cache_put := true;
     cfg_call_cache_backend := "dir";
     cfg_call_cache_dir := "/cache" |}.

Definition x_outputs : Bindings := [("out", VFile "/work/x.txt")].


End Sample.

(** The state right after the insert of [Sample.x_outputs] under key [k]:
    the registry holds the entry for the one file object, nothing is
    uploaded yet. *)
Definition pending_x : State :=
  (CallCache_put Sample.world Sample.cfg "k" Sample.x_outputs initial_state).1.

(** The state after [/work/x.txt] was uploaded and nothing was inserted. *)
Definition uploaded_x : State :=
  (upload_file Sample.world Sample.cfg "/work/x.txt" "s3://bucket/pre/x.txt"
     initial_state).1.


(** A local store that already holds the manifest the lookup asks for. *)
Definition local_hit_state : State :=
  write_file "/cache/pre/cache/k.json.json" (Manifest "wf" Sample.x_outputs) initial_state.

(** The sample configuration with a prefix that is only a bucket. *)
Definition cfg_bucket_only : Config :=
  {| cfg_uri_prefix := Some "s3://bucket";
     cfg_call_cache_get_uri_prefix := None;
     cfg_call_cache_put := true;
     cfg_call_cache_backend := backend_marker;
     cfg_call_cache_dir := "/cache" |}.

(** What [CallCache.get] does once the remote asked for [objkey] in [bucket]
    has answered: the three cases of the [try] around [download_file], then the
    lookup of the base class. *)
Definition lookup_after_download (world : World) (cfg : Config) (s3prefix key : string)
    (bucket objkey : string) (inputs output_types : Bindings) (st : State)
  : State * Result (option Bindings) :=
  match w_download world bucket objkey with
  | Downloaded body =>
      let st' := write_file (local_manifest_path cfg s3prefix key) (Blob body) st in
      (st', inr (w_super_get world (files st') objkey inputs output_types))
  | DownloadClientError code =>
      if String.eqb code "404"
      then (st, inr (w_super_get world (files st) objkey inputs output_types))
      else (st, inl (ClientError code))
  | DownloadFailed msg => (st, inl (TransportError msg))
  end.

(** From [st] to [st'] neither the ledger nor the registry lost an
    identity. *)
Definition grows (st st' : State) : Prop :=
  (forall id, is_Some (uploaded_files st !! id) -> is_Some (uploaded_files st' !! id)) /\
  (forall id, is_Some (cached_files st !! id) -> is_Some (cached_files st' !! id)).

(** The statement [m] never loses an identity, whether it returns or
    raises. *)
Definition extends {A} (m : M A) : Prop := forall st, grows st (m st).1.

(** Text of ASCII characters only, on which [str.isdigit] is
    [Py.isdigit]. *)
Definition ascii_text (s : string) : bool :=
  Py.all_chars (fun a => Nat.ltb (nat_of_ascii a) 128) s.

(** An entry of [links_dir] the hook refuses: a path that is no directory, a
    directory without visible entries, or a directory whose visible entries
    (ASCII names) fit neither the directory nor the file shape and are not
    all named by digits. *)
Definition malformed (fs : FS) (links_dir output : string) : Prop :=
  let abs_output := OsPath.join links_dir [output] in
  Os.isdir fs abs_output = false \/
  exists names,
    let output_contents := map (fun fn => OsPath.join abs_output [fn]) (not_hidden names) in
    let first := hd "" output_contents in
    Os.isdir fs abs_output = true /\
    Os.listdir fs abs_output = Some names /\
    (output_contents = [] \/
     ((length output_contents =? 1)%nat && Os.isdir fs first && Os.islink fs first)%bool
       = false /\
     ((length output_contents =? 1)%nat && Os.isfile fs first)%bool = false /\
     forallb ascii_text (not_hidden names) = true /\
     forallb (fun abs_fn => Py.isdigit (OsPath.basename abs_fn)) output_contents = false).

(** A file system with a good output subdirectory, [a], listed before
    malformed ones: [empty] holds only a hidden file, [mixed] two files with
    names that are no digits, and [notdir] is a file. *)
Definition fs_malformed : FS :=
  {| fs_table :=
       [("/", Dir 1 1); ("/run", Dir 1 2); ("/run/out", Dir 1 3);
        ("/run/out/a", Dir 1 10); ("/run/out/a/x.txt", Reg 1 11);
        ("/run/out/empty", Dir 1 4); ("/run/out/empty/.keep", Reg 1 5);
        ("/run/out/mixed", Dir 1 6);
        ("/run/out/mixed/a.txt", Reg 1 7); ("/run/out/mixed/b.txt", Reg 1 8);
        ("/run/out/notdir", Reg 1 9)];
     fs_cwd := "/";
     fs_maxlinks := 40 |}.

Definition world_malformed : World :=
  {| w_fs := fs_malformed;
     w_run := w_run Sample.world;
     w_download := w_download Sample.world;
     w_output_uri := None;
     w_super_get := w_super_get Sample.world |}.

(** The sample configuration without a prefix. *)
Definition cfg_no_prefix : Config :=
  {| cfg_uri_prefix := None;
     cfg_call_cache_get_uri_prefix := None;
     cfg_call_cache_put := true;
     cfg_call_cache_backend := backend_marker;
     cfg_call_cache_dir := "/cache" |}.

(** The registry has no entry for any file object behind the uploads
    [ups]. *)
Definition unregistered (world : World) (st : State) (ups : list (string * string)) : Prop :=
  forall u id, u ∈ ups -> inode (w_fs world) u.1 = Some id -> cached_files st !! id = None.

(** Nothing stops the insert logic on the registry entry [(key, outputs)]:
    with both guards passed, the paths it names exist, the prefix is valid and
    the manifest URI addresses an object. *)
Definition insert_runs (world : World) (cfg : Config) (entry : string * Bindings) : Prop :=
  (cfg_call_cache_put cfg && String.eqb (cfg_call_cache_backend cfg) backend_marker)%bool
    = true ->
  paths_exist world entry.2 /\
  exists s3prefix bucket objkey,
    get_s3_put_prefix cfg = inr s3prefix /\
    s3_object (OsPath.join s3prefix ["cache"; entry.1 +:+ ".json"]) = inr (bucket, objkey).

(** The same of every entry of the registry: an upload that finds one of
    them does not raise in the insert logic. *)
Definition registry_runs (world : World) (cfg : Config) (st : State) : Prop :=
  forall id entry, cached_files st !! id = Some entry -> insert_runs world cfg entry.

(** From [st] to [st'] the uploads [ups] happened: their command lines ran
    in order and nothing else ran, the ledger recorded them, the registry is
    as it was. *)
Definition uploads_recorded (fs : FS) (ups : list (string * string)) (st st' : State)
  : Prop :=
  commands st' = commands st ++ map (fun u => s3parcp_cmd u.1 u.2) ups /\
  uploaded_files st' = record_uploads fs ups (uploaded_files st) /\
  cached_files st' = cached_files st.

(** Outputs naming a file that does not exist. *)
Definition gone_outputs : Bindings :=
  [("kept", VFile "/work/x.txt"); ("gone", VFile "/work/gone.txt");
   ("late", VFile "/work/r1.fq")].

(** The state after an insert that waits for the directory
    [/work/alignments] only. *)
Definition pending_directory : State :=
  (CallCache_put Sample.world Sample.cfg "kD" [("bam", VDirectory "/work/alignments")]
     initial_state).1.

(** The text on which [urllib.parse.urlparse] is the plain split that
    [urlparse] makes: a host of lower-case letters, digits, dots and dashes
    (what [hostname] returns unchanged), and after it visible ASCII characters
    other than [?] and [#] (no query, no fragment). *)
Definition host_char (a : ascii) : bool :=
  let n := nat_of_ascii a in
  ((Nat.leb 97 n && Nat.leb n 122) || Py.is_digit a || Nat.eqb n 45 || Nat.eqb n 46)%bool.

Definition host_name (s : string) : bool :=
  (negb (String.eqb s "") && Py.all_chars host_char s)%bool.

Definition url_char (a : ascii) : bool :=
  let n := nat_of_ascii a in
  (Nat.leb 33 n && Nat.leb n 126 && negb (Nat.eqb n 35) && negb (Nat.eqb n 63))%bool.

Definition url_text (s : string) : bool := Py.all_chars url_char s.

Definition plain_s3_uri (uri : string) : Prop :=
  exists bucket rest,
    uri = "s3://" +:+ bucket +:+ "/" +:+ rest /\
    host_name bucket = true /\ url_text rest = true.

(** * Facts about the embedding *)

(** ** Rewriting visits the paths in order *)

Section RewriteFacts.
Context {S : Type}.
Variable f : string -> S -> S * Result string.

Lemma rewrite_paths_compound vs s :
  rewrite_paths f (VCompound vs) s =
  match rewrite_each f vs s with
  | (s', inl e) => (s', inl e)
  | (s', inr vs') => (s', inr (VCompound vs'))
  end.
Proof. reflexivity. Qed.

Lemma outcome_run_paths_app a b s :
  outcome (run_paths f (a ++ b) s) =
  match outcome (run_paths f a s) with
  | (s1, Some e) => (s1, Some e)
  | (s1, None) => outcome (run_paths f b s1)
  end.
Proof.
  revert s. induction a as [|p a IH]; intros s; simpl.
  - reflexivity.
  - destruct (f p s) as [s1 [e|q]]; simpl; [reflexivity|].
    specialize (IH s1).
    destruct (run_paths f (a ++ b) s1) as [s2 [e|qs]],
             (run_paths f a s1) as [s3 [e'|qa]]; simpl in *;
      try exact IH; try (destruct (run_paths f b s3) as [s4 [e4|qb]]; exact IH).
Qed.

Lemma outcome_rewrite_paths v :
  forall s, outcome (rewrite_paths f v s) = outcome (run_paths f (value_paths v) s).
Proof.
  induction v as [r|p|p|vs IH] using Value_nested_ind; intros s.
  - reflexivity.
  - simpl. destruct (f p s) as [s1 [e|q]]; reflexivity.
  - simpl. destruct (f p s) as [s1 [e|q]]; reflexivity.
  - rewrite rewrite_paths_compound.
    assert (Hx : outcome (rewrite_each f vs s) =
                 outcome (run_paths f (flat_map value_paths vs) s)).
    { revert s. induction IH as [|v vs Hv _ IHvs]; intros s; [reflexivity|].
      cbn [flat_map]. rewrite outcome_run_paths_app, <- Hv.
      cbn [rewrite_each].
      destruct (rewrite_paths f v s) as [s1 [e|v']]; [reflexivity|].
      cbn [outcome fst snd]. rewrite <- IHvs.
      destruct (rewrite_each f vs s1) as [s2 [e|vs'']]; reflexivity. }
    cbn [value_paths]. rewrite <- Hx.
    destruct (rewrite_each f vs s) as [s1 [e|vs']]; reflexivity.
Qed.

Lemma outcome_rewrite_env_paths env :
  forall s, outcome (rewrite_env_paths f env s) = outcome (run_paths f (env_paths env) s).
Proof.
  induction env as [|[name v] env IH]; intros s; [reflexivity|].
  unfold env_paths. cbn [flat_map snd rewrite_env_paths].
  rewrite outcome_run_paths_app, <- outcome_rewrite_paths.
  destruct (rewrite_paths f v s) as [s1 [e|v']]; [reflexivity|].
  cbn [outcome fst snd]. fold (env_paths env). rewrite <- IH.
  destruct (rewrite_env_paths f env s1) as [s2 [e|env']]; reflexivity.
Qed.

(** A callback that, from [s], answers [g p] on every path without
    touching its state rewrites the bindings to [map_env_paths g]. *)
Lemma rewrite_paths_pure (g : string -> string) s v :
  (forall p, p ∈ value_paths v -> f p s = (s, inr (g p))) ->
  rewrite_paths f v s = (s, inr (map_paths g v)).
Proof.
  induction v as [r|p|p|vs IH] using Value_nested_ind; intros Hf.
  - reflexivity.
  - simpl. rewrite Hf by (simpl; left). reflexivity.
  - simpl. rewrite Hf by (simpl; left). reflexivity.
  - rewrite rewrite_paths_compound.
    assert (Hx : rewrite_each f vs s = (s, inr (map (map_paths g) vs))).
    { cbn [value_paths] in Hf.
      induction IH as [|v vs Hv _ IHvs]; [reflexivity|].
      cbn [rewrite_each]. cbn [flat_map] in Hf.
      rewrite Hv by (intros p Hp; apply Hf, elem_of_app; left; exact Hp).
      rewrite IHvs by (intros p Hp; apply Hf, elem_of_app; right; exact Hp).
      reflexivity. }
    rewrite Hx. reflexivity.
Qed.

Lemma rewrite_env_paths_pure (g : string -> string) s env :
  (forall p, p ∈ env_paths env -> f p s = (s, inr (g p))) ->
  rewrite_env_paths f env s = (s, inr (map_env_paths g env)).
Proof.
  induction env as [|[name v] env IH]; intros Hf; [reflexivity|].
  unfold env_paths in Hf. cbn [flat_map snd] in Hf.
  cbn [rewrite_env_paths].
  rewrite (rewrite_paths_pure g) by (intros p Hp; apply Hf, elem_of_app; left; exact Hp).
  rewrite IH by (intros p Hp; apply Hf, elem_of_app; right; exact Hp).
  reflexivity.
Qed.
End RewriteFacts.

(** ** Reading statements *)

#[global] Arguments OsPath.join : simpl never.
#[global] Arguments OsPath.join2 : simpl never.
#[global] Arguments s3_object : simpl never.
#[global] Arguments urlparse : simpl never.
#[global] Arguments inode : simpl never.
#[global] Arguments Py.str_join : simpl never.
#[global] Arguments String.append : simpl never.

Ltac unfold_m :=
  unfold mbind, mret, M_bind, M_ret, raise, lift, get_state, modify, logger in *.

(** ** The insert logic, [cache_put] *)

Section CachePutFacts.
Variable world : World.
Variable cfg : Config.
Let fs := w_fs world.

Lemma cache_put_guarded key outputs st :
  (cfg_call_cache_put cfg && String.eqb (cfg_call_cache_backend cfg) backend_marker)%bool
    = false ->
  cache_put world cfg key outputs st = (st, inr tt).
Proof. intros H. unfold cache_put. rewrite H. reflexivity. Qed.

Lemma run_cache_put_cache uploaded ps missing :
  (forall p, p ∈ ps -> is_Some (inode fs p)) ->
  outcome (run_paths (cache_put_cache world uploaded) ps missing) =
  ((missing || negb (forallb (resolved world uploaded) ps))%bool, None).
Proof.
  revert missing. induction ps as [|p ps IH]; intros missing Hex.
  - simpl. unfold outcome. simpl. f_equal. destruct missing; reflexivity.
  - assert (Hp : is_Some (inode fs p)) by (apply Hex; left).
    assert (Hps : forall q, q ∈ ps -> is_Some (inode fs q))
      by (intros q Hq; apply Hex; right; exact Hq).
    destruct Hp as [id Hid].
    cbn [run_paths forallb]. unfold cache_put_cache at 1, resolved at 1.
    fold fs. rewrite Hid.
    destruct missing.
    + specialize (IH true Hps).
      destruct (run_paths _ ps true) as [s2 [e|qs]]; unfold outcome in *; simpl in *;
        congruence.
    + destruct (uploaded !! id) as [uri|] eqn:Hup.
      * specialize (IH false Hps).
        rewrite bool_decide_eq_true_2 by eauto.
        destruct (run_paths _ ps false) as [s2 [e|qs]]; unfold outcome in *; simpl in *;
          congruence.
      * specialize (IH true Hps).
        rewrite bool_decide_eq_false_2 by (intros [? ?]; congruence).
        destruct (run_paths _ ps true) as [s2 [e|qs]]; unfold outcome in *; simpl in *;
          congruence.
Qed.

Lemma cache_put_cache_resolved uploaded p :
  resolved world uploaded p = true ->
  cache_put_cache world uploaded p false = (false, inr (resolve_uri world uploaded p)).
Proof.
  unfold resolved, cache_put_cache, resolve_uri. fold fs.
  destruct (inode fs p) as [id|]; [|discriminate].
  intros H. apply bool_decide_eq_true_1 in H. destruct H as [uri Huri].
  simpl. rewrite Huri. reflexivity.
Qed.

(** With both guards passed and a file object still outside the ledger,
    the insert logic leaves everything as it was. *)
Lemma cache_put_missing key outputs st :
  cfg_call_cache_put cfg = true ->
  cfg_call_cache_backend cfg = backend_marker ->
  paths_exist world outputs ->
  all_resolved world (uploaded_files st) outputs = false ->
  cache_put world cfg key outputs st = (st, inr tt).
Proof.
  intros Hput Hbk Hex Hmiss. unfold cache_put. rewrite Hput, Hbk. simpl.
  unfold_m. simpl.
  pose proof (outcome_rewrite_env_paths (cache_put_cache world (uploaded_files st))
                outputs false) as Ho.
  rewrite run_cache_put_cache in Ho by exact Hex.
  unfold all_resolved in Hmiss. rewrite Hmiss in Ho.
  destruct (rewrite_env_paths _ outputs false) as [m [e|r]];
    unfold outcome in Ho; simpl in Ho; inversion Ho; subst; reflexivity.
Qed.

(** With both guards passed and every file object in the ledger, one
    manifest goes out: the object, then its tag. *)
Lemma cache_put_resolved key outputs st s3prefix bucket objkey :
  cfg_call_cache_put cfg = true ->
  cfg_call_cache_backend cfg = backend_marker ->
  get_s3_put_prefix cfg = inr s3prefix ->
  s3_object (OsPath.join s3prefix ["cache"; key +:+ ".json"]) = inr (bucket, objkey) ->
  all_resolved world (uploaded_files st) outputs = true ->
  cache_put world cfg key outputs st =
  (published (OsPath.join s3prefix ["cache"; key +:+ ".json"]) bucket objkey
     (map_env_paths (resolve_uri world (uploaded_files st)) outputs) st, inr tt).
Proof.
  intros Hput Hbk Hpre Hobj Hall. unfold cache_put. rewrite Hput, Hbk. simpl.
  unfold_m. simpl.
  rewrite (rewrite_env_paths_pure _ (resolve_uri world (uploaded_files st))).
  2:{ intros p Hp. apply cache_put_cache_resolved.
      unfold all_resolved in Hall. rewrite forallb_forall in Hall.
      apply Hall, list_elem_of_In, Hp. }
  rewrite Hpre, Hobj. simpl.
  unfold flag_temporary, urlparse.
  unfold s3_object in Hobj.
  destruct (Py.startswith "s3://" _); [|discriminate].
  destruct (Py.split_max OsPath.sep _ 3) as [|a [|b [|c [|d [|? ?]]]]];
    simpl in Hobj; try discriminate.
  inversion Hobj; subst. reflexivity.
Qed.

(** The insert logic never touches the ledger or the registry. *)
Lemma cache_put_maps key outputs st :
  uploaded_files (cache_put world cfg key outputs st).1 = uploaded_files st /\
  cached_files (cache_put world cfg key outputs st).1 = cached_files st.
Proof.
  unfold cache_put.
  destruct (negb _); [split; reflexivity|].
  unfold_m. simpl.
  destruct (rewrite_env_paths _ outputs false) as [[|] [e|r]]; simpl;
    try (split; reflexivity).
  destruct (get_s3_put_prefix cfg) as [e|s3prefix]; simpl; [split; reflexivity|].
  destruct (s3_object _) as [e|[b k]]; simpl; [split; reflexivity|].
  unfold flag_temporary. destruct (urlparse _). split; reflexivity.
Qed.
End CachePutFacts.

(** ** The copy tool and the per-file upload step *)

Section UploadFacts.
Variable world : World.
Variable cfg : Config.
Let fs := w_fs world.

Lemma s3cp_ok fn s3uri st :
  (w_run world (s3parcp_cmd fn s3uri)).1 = 0 ->
  s3cp world fn s3uri st =
  (add_command (s3parcp_cmd fn s3uri)
     (add_log {| lr_level := DEBUG; lr_msg := Py.str_join " " (s3parcp_cmd fn s3uri);
                 lr_fields := [] |} st), inr tt).
Proof.
  intros H. unfold s3cp, s3parcp_cmd in *. unfold_m. simpl. rewrite H. reflexivity.
Qed.

Lemma s3cp_failed fn s3uri st :
  (w_run world (s3parcp_cmd fn s3uri)).1 ≠ 0 ->
  exists st',
    s3cp world fn s3uri st = (st', inl (copy_failure world (s3parcp_cmd fn s3uri))) /\
    uploaded_files st' = uploaded_files st /\
    cached_files st' = cached_files st /\
    s3_calls st' = s3_calls st /\
    commands st' = commands st ++ [s3parcp_cmd fn s3uri].
Proof.
  intros H. unfold s3cp, copy_failure, s3parcp_cmd in *. unfold_m. simpl.
  apply Z.eqb_neq in H. rewrite H. simpl.
  destruct (Py.decode_utf8 _); eexists; (split; [reflexivity|]); repeat split.
Qed.

Lemma s3cp_maps fn s3uri st :
  uploaded_files (s3cp world fn s3uri st).1 = uploaded_files st /\
  cached_files (s3cp world fn s3uri st).1 = cached_files st /\
  s3_calls (s3cp world fn s3uri st).1 = s3_calls st.
Proof.
  unfold s3cp. unfold_m. simpl.
  destruct (negb _); [destruct (Py.decode_utf8 _)|]; simpl; repeat split.
Qed.

(** A successful copy: the ledger write, then the registry check. *)
Lemma upload_file_ok abs_fn s3uri id st :
  (w_run world (s3parcp_cmd abs_fn s3uri)).1 = 0 ->
  inode fs abs_fn = Some id ->
  upload_file world cfg abs_fn s3uri st =
  let st0 := (s3cp world abs_fn s3uri st).1 in
  let st1 := set_uploaded_files (<[id := s3uri]> (uploaded_files st0)) st0 in
  (match cached_files st0 !! id with
   | Some (key, outputs) => cache_put world cfg key outputs
   | None => mret tt
   end;; logger INFO "task output uploaded" [("file", abs_fn); ("uri", s3uri)]) st1.
Proof.
  intros Hrun Hid. unfold upload_file. fold fs. rewrite Hid.
  unfold_m. rewrite (s3cp_ok _ _ _ Hrun). reflexivity.
Qed.

(** Whatever happens, the upload step leaves the registry as it found it. *)
Lemma upload_file_cached_files abs_fn s3uri st :
  cached_files (upload_file world cfg abs_fn s3uri st).1 = cached_files st.
Proof.
  unfold upload_file. unfold_m.
  pose proof (s3cp_maps abs_fn s3uri st) as (_ & Hc & _).
  destruct (s3cp world abs_fn s3uri st) as [st0 [e|[]]]; simpl in *; [exact Hc|].
  destruct (inode (w_fs world) abs_fn) as [id|]; simpl; [|exact Hc].
  destruct (cached_files st0 !! id) as [[key outputs]|]; simpl; [|exact Hc].
  pose proof (cache_put_maps world cfg key outputs
                (set_uploaded_files (<[id:=s3uri]> (uploaded_files st0)) st0)) as [_ Hc'].
  destruct (cache_put world cfg key outputs _) as [st2 [e|[]]]; simpl in *;
    rewrite Hc'; exact Hc.
Qed.

(** One upload with both guards passed, for a file object the registry has an
    entry for: the ledger gains the identity, and the entry's manifest goes
    out exactly when that made the entry complete. *)
Lemma upload_file_step abs_fn s3uri id key outputs st s3prefix bucket objkey :
  cfg_call_cache_put cfg = true ->
  cfg_call_cache_backend cfg = backend_marker ->
  get_s3_put_prefix cfg = inr s3prefix ->
  s3_object (OsPath.join s3prefix ["cache"; key +:+ ".json"]) = inr (bucket, objkey) ->
  paths_exist world outputs ->
  (w_run world (s3parcp_cmd abs_fn s3uri)).1 = 0 ->
  inode fs abs_fn = Some id ->
  cached_files st !! id = Some (key, outputs) ->
  let uploaded' := <[id := s3uri]> (uploaded_files st) in
  exists st',
    upload_file world cfg abs_fn s3uri st = (st', inr tt) /\
    uploaded_files st' = uploaded' /\
    cached_files st' = cached_files st /\
    s3_calls st' = s3_calls st ++
      (if all_resolved world uploaded' outputs
       then [PutObject bucket objkey (map_env_paths (resolve_uri world uploaded') outputs);
             PutObjectTagging bucket objkey "swipe_temporary" "true"]
       else []).
Proof.
  intros Hput Hbk Hpre Hobj Hex Hrun Hid Hreg uploaded'.
  rewrite (upload_file_ok _ _ id) by assumption.
  rewrite (s3cp_ok _ _ _ Hrun). cbn [fst]. simpl cached_files. rewrite Hreg.
  unfold_m. simpl uploaded_files. fold uploaded'.
  destruct (all_resolved world uploaded' outputs) eqn:Hall.
  - erewrite cache_put_resolved by (try eassumption; exact Hall).
    eexists. split; [reflexivity|]. simpl. rewrite <- app_assoc. repeat split.
  - rewrite cache_put_missing by (try assumption; exact Hall).
    eexists. split; [reflexivity|]. simpl. rewrite app_nil_r. repeat split.
Qed.
End UploadFacts.

(** ** [CallCache.put] registers what the bindings name *)

Section PutFacts.
Variable world : World.
Variable cfg : Config.
Let fs := w_fs world.

Lemma run_CallCache_put_cache key outputs ps cached :
  (forall p, p ∈ ps -> is_Some (inode fs p)) ->
  outcome (run_paths (CallCache_put_cache world key outputs) ps cached) =
  (register_paths world key outputs ps cached, None).
Proof.
  revert cached. induction ps as [|p ps IH]; intros cached Hex; [reflexivity|].
  destruct (Hex p) as [id Hid]; [left|].
  cbn [run_paths]. unfold CallCache_put_cache at 1. fold fs. rewrite Hid.
  specialize (IH (<[id := (key, outputs)]> cached)).
  unfold register_paths. cbn [fold_left]. fold fs. rewrite Hid.
  destruct (run_paths _ ps _) as [s2 [e|qs]]; unfold outcome in *; simpl in *;
    apply IH; intros q Hq; apply Hex; right; exact Hq.
Qed.

Lemma names_true ps id :
  names world ps id = true <-> exists p, p ∈ ps /\ inode fs p = Some id.
Proof.
  unfold names. rewrite existsb_exists. split.
  - intros (p & Hp & Hid). exists p. split; [apply list_elem_of_In, Hp|].
    apply bool_decide_eq_true_1 in Hid. exact Hid.
  - intros (p & Hp & Hid). exists p. split; [apply list_elem_of_In, Hp|].
    apply bool_decide_eq_true_2. exact Hid.
Qed.

Lemma register_paths_cons key outputs p ps cached :
  register_paths world key outputs (p :: ps) cached =
  register_paths world key outputs ps
    (match inode fs p with
     | Some id => <[id := (key, outputs)]> cached
     | None => cached
     end).
Proof. reflexivity. Qed.

Lemma register_paths_lookup key outputs ps cached id :
  register_paths world key outputs ps cached !! id =
  if names world ps id then Some (key, outputs) else cached !! id.
Proof.
  revert cached. induction ps as [|p ps IH]; intros cached; [reflexivity|].
  rewrite register_paths_cons, IH. clear IH. unfold names. cbn [existsb].
  fold (names world ps id). fold fs.
  destruct (names world ps id); [rewrite orb_true_r; reflexivity|].
  rewrite orb_false_r.
  destruct (inode fs p) as [idp|] eqn:Hp.
  - destruct (decide (idp = id)) as [->|Hne].
    + rewrite lookup_insert_eq, bool_decide_eq_true_2; reflexivity.
    + rewrite lookup_insert_ne by exact Hne.
      rewrite bool_decide_eq_false_2 by congruence. reflexivity.
  - rewrite bool_decide_eq_false_2 by congruence. reflexivity.
Qed.

(** With cache writes enabled the registry receives every file object the
    bindings name; then the insert logic runs. *)
Lemma CallCache_put_enabled key outputs st :
  cfg_call_cache_put cfg = true ->
  paths_exist world outputs ->
  CallCache_put world cfg key outputs st =
  cache_put world cfg key outputs
    (set_cached_files (register_paths world key outputs (env_paths outputs) (cached_files st)) st).
Proof.
  intros Hput Hex. unfold CallCache_put. rewrite Hput. simpl. unfold_m. simpl.
  pose proof (outcome_rewrite_env_paths (CallCache_put_cache world key outputs)
                outputs (cached_files st)) as Ho.
  rewrite run_CallCache_put_cache in Ho by exact Hex.
  destruct (rewrite_env_paths _ outputs (cached_files st)) as [c [e|r]];
    unfold outcome in Ho; simpl in Ho; inversion Ho; subst; reflexivity.
Qed.
End PutFacts.

(** ** Properties of the state a statement keeps *)

Section Preserves.
Context (I : State -> Prop).

Lemma preserves_ret {A} (a : A) : preserves I (mret a).
Proof. intros st H. exact H. Qed.

Lemma preserves_raise {A} e : preserves I (@raise A e).
Proof. intros st H. exact H. Qed.

Lemma preserves_lift {A} (r : Result A) : preserves I (lift r).
Proof. intros st H. exact H. Qed.

Lemma preserves_get_state : preserves I get_state.
Proof. intros st H. exact H. Qed.

Lemma preserves_bind {A B} (m : M A) (k : A -> M B) :
  preserves I m -> (forall a, preserves I (k a)) -> preserves I (m ≫= k).
Proof.
  intros Hm Hk st H. unfold_m. specialize (Hm st H).
  destruct (m st) as [st' [e|a]]; simpl in *; [exact Hm|]. apply Hk, Hm.
Qed.

Lemma preserves_modify (g : State -> State) :
  (forall st, I st -> I (g st)) -> preserves I (modify g).
Proof. intros Hg st H. apply Hg, H. Qed.

Lemma preserves_for_each {A} (xs : list A) (body : A -> M unit) :
  (forall x, preserves I (body x)) -> preserves I (for_each xs body).
Proof.
  intros Hb. induction xs as [|x xs IH]; simpl.
  - apply preserves_ret.
  - apply preserves_bind; [apply Hb|intros _; exact IH].
Qed.

Lemma preserves_assert b msg : preserves I (assert b msg).
Proof. destruct b; [apply preserves_ret|apply preserves_raise]. Qed.
End Preserves.

Ltac preserves_step :=
  first
    [ apply preserves_ret | apply preserves_raise | apply preserves_lift
    | apply preserves_get_state | apply preserves_assert
    | apply preserves_bind; [|intros ?]
    | apply preserves_for_each; intros ?
    | apply preserves_modify; intros ? ?; assumption
    | match goal with
      | |- preserves _ (match ?x with _ => _ end) => destruct x
      end ].

Section NoPublication.
Variable world : World.
Variable cfg : Config.
Variable calls : list S3Call.

Lemma preserves_logger lvl msg fields : preserves (s3_calls_are calls) (logger lvl msg fields).
Proof. apply preserves_modify. intros st H. exact H. Qed.

Lemma preserves_listdir p : preserves (s3_calls_are calls) (listdir world p).
Proof. unfold listdir. repeat preserves_step. Qed.

Lemma preserves_s3cp fn s3uri : preserves (s3_calls_are calls) (s3cp world fn s3uri).
Proof.
  intros st H. unfold s3_calls_are in *.
  pose proof (s3cp_maps world fn s3uri st) as (_ & _ & Hs). congruence.
Qed.

Hypothesis guard_fails :
  (cfg_call_cache_put cfg && String.eqb (cfg_call_cache_backend cfg) backend_marker)%bool
  = false.

Lemma preserves_cache_put key outputs :
  preserves (s3_calls_are calls) (cache_put world cfg key outputs).
Proof. intros st H. rewrite cache_put_guarded by exact guard_fails. exact H. Qed.

Lemma preserves_upload_file abs_fn s3uri :
  preserves (s3_calls_are calls) (upload_file world cfg abs_fn s3uri).
Proof.
  unfold upload_file.
  repeat first [apply preserves_logger | apply preserves_s3cp | apply preserves_cache_put
               | preserves_step].
Qed.

Lemma preserves_task_output s3prefix links_dir output :
  preserves (s3_calls_are calls) (task_output world cfg s3prefix links_dir output).
Proof.
  unfold task_output.
  repeat first [apply preserves_logger | apply preserves_listdir
               | apply preserves_upload_file | preserves_step].
Qed.

Lemma preserves_task run_id run_dir :
  preserves (s3_calls_are calls) (task world cfg run_id run_dir).
Proof.
  unfold task.
  repeat first [apply preserves_logger | apply preserves_listdir
               | apply preserves_task_output | preserves_step].
Qed.

Lemma preserves_CallCache_put key outputs :
  preserves (s3_calls_are calls) (CallCache_put world cfg key outputs).
Proof.
  unfold CallCache_put.
  repeat first [apply preserves_cache_put | preserves_step].
Qed.
End NoPublication.

Section AlwaysKept.
Variable world : World.
Variable cfg : Config.
Variable calls : list S3Call.

Lemma preserves_CallCache_get key inputs output_types :
  preserves (s3_calls_are calls) (CallCache_get world cfg key inputs output_types).
Proof.
  unfold CallCache_get.
  repeat first [preserves_step].
Qed.

Lemma preserves_workflow run_id run_dir name outputs :
  preserves (s3_calls_are calls) (workflow world cfg run_id run_dir name outputs).
Proof.
  unfold workflow, write_outputs_s3_json.
  repeat first [apply preserves_s3cp | preserves_step].
Qed.
End AlwaysKept.

(** * Properties of the plugin *)

Lemma startswith_app p s : Py.startswith p (p +:+ s) = true.
Proof.
  induction p as [|a p IH]; [reflexivity|].
  simpl. rewrite Ascii.eqb_refl. exact IH.
Qed.

Lemma contains_app_r needle p : Py.contains needle (p +:+ needle) = true.
Proof.
  induction p as [|a p IH].
  - change ("" +:+ needle) with needle.
    destruct needle as [|b n]; [reflexivity|].
    cbn [Py.contains].
    pose proof (startswith_app (String b n) "") as H.
    replace (String b n +:+ "") with (String b n) in H
      by (clear; induction (String b n) as [|c s IHs]; [reflexivity|];
          change (String c s +:+ "") with (String c (s +:+ "")); rewrite <- IHs; reflexivity).
    rewrite H. reflexivity.
  - change (String a p +:+ needle) with (String a (p +:+ needle)).
    cbn [Py.contains]. rewrite IH. apply orb_true_r.
Qed.

(** C5, as the code has it: when the copy tool exits with a non-zero
    status, the upload step raises after the one command line and leaves the
    ledger as it was: nothing is recorded for the file.  It raises the runtime
    error whose message carries the command line only if the tool's standard
    error decodes as UTF-8.  If it does not, [decode] raises
    [UnicodeDecodeError] while the arguments of the error log are evaluated,
    and the [raise] of the runtime error on the next line is not reached. *)
Theorem upload_file_copy_failure world cfg abs_fn s3uri st :
  let cmd := s3parcp_cmd abs_fn s3uri in
  (w_run world cmd).1 ≠ 0 ->
  exists st',
    uploaded_files st' = uploaded_files st /\
    commands st' = commands st ++ [cmd] /\
    match Py.decode_utf8 (w_run world cmd).2 with
    | Some _ =>
        exists msg,
          upload_file world cfg abs_fn s3uri st = (st', inl (RuntimeError msg)) /\
          Py.contains (Py.str_join " " cmd) msg = true
    | None =>
        upload_file world cfg abs_fn s3uri st
          = (st', inl (UnicodeDecodeError (w_run world cmd).2))
    end.
Proof.
  intros cmd Hrun.
  destruct (s3cp_failed world abs_fn s3uri st Hrun) as (st' & Hcp & Hup & _ & _ & Hcmd).
  exists st'. split; [exact Hup|]. split; [exact Hcmd|].
  assert (Hraise : upload_file world cfg abs_fn s3uri st
                   = (st', inl (copy_failure world cmd))).
  { unfold upload_file. unfold_m. rewrite Hcp. reflexivity. }
  unfold copy_failure in Hraise. fold cmd in Hraise |- *.
  destruct (Py.decode_utf8 (w_run world cmd).2) as [stderr|]; [|exact Hraise].
  exists ("failed: " +:+ Py.str_join " " cmd). split; [exact Hraise|].
  apply contains_app_r.
Qed.

Lemma upload_file_copy_failure_witness :
  (w_run Sample.world_garbled (s3parcp_cmd "/work/x.txt" "s3://bucket/pre/x.txt")).1 ≠ 0 /\
  Py.decode_utf8 Sample.garbled = None /\
  (exists st',
     uploaded_files st' = uploaded_files initial_state /\
     upload_file Sample.world_garbled Sample.cfg "/work/x.txt" "s3://bucket/pre/x.txt"
       initial_state = (st', inl (UnicodeDecodeError Sample.garbled))) /\
  (exists st' msg,
     uploaded_files st' = uploaded_files initial_state /\
     upload_file Sample.world_failing Sample.cfg "/work/x.txt" "s3://bucket/pre/x.txt"
       initial_state = (st', inl (RuntimeError msg)) /\
     Py.contains (Py.str_join " " (s3parcp_cmd "/work/x.txt" "s3://bucket/pre/x.txt")) msg
       = true).
Proof.
  split; [simpl; lia|]. split; [reflexivity|]. split.
  - destruct (upload_file_copy_failure Sample.world_garbled Sample.cfg
                "/work/x.txt" "s3://bucket/pre/x.txt" initial_state)
      as (st' & Hup & _ & Hraise); [simpl; lia|].
    exists st'. split; [exact Hup|exact Hraise].
  - destruct (upload_file_copy_failure Sample.world_failing Sample.cfg
                "/work/x.txt" "s3://bucket/pre/x.txt" initial_state)
      as (st' & Hup & _ & msg & Hraise & Hmsg); [simpl; lia|].
    exists st', msg. split; [exact Hup|]. split; [exact Hraise|exact Hmsg].
Defined.

(** C2 fails as stated: the upload step records the identity [(1, 15)] in
    the ledger while the registry has an entry for it, and the registry
    still has that entry when the step has returned. *)
Lemma upload_file_removes_pending_counterexample :
  let r := upload_file Sample.world Sample.cfg "/work/x.txt" "s3://bucket/pre/x.txt"
             pending_x in
  inode Sample.fs "/work/x.txt" = Some (1, 15) /\
  cached_files pending_x !! (1, 15) = Some ("k", Sample.x_outputs) /\
  r.2 = inr tt /\
  uploaded_files r.1 !! (1, 15) = Some "s3://bucket/pre/x.txt" /\
  cached_files r.1 !! (1, 15) ≠ None.
Proof. vm_compute. repeat split; discriminate. Qed.

(** C2, amended: when the upload step records an identity that has a
    registry entry, it reads that entry and runs the insert logic on it right
    after the ledger write; the registry itself is left exactly as it was, so
    the entry is still there afterwards. *)
Theorem upload_file_retrieves_pending_entry world cfg abs_fn s3uri id key outputs st :
  (w_run world (s3parcp_cmd abs_fn s3uri)).1 = 0 ->
  inode (w_fs world) abs_fn = Some id ->
  cached_files st !! id = Some (key, outputs) ->
  let st0 := (s3cp world abs_fn s3uri st).1 in
  let st1 := set_uploaded_files (<[id := s3uri]> (uploaded_files st)) st0 in
  let r := upload_file world cfg abs_fn s3uri st in
  r = (cache_put world cfg key outputs;;
       logger INFO "task output uploaded" [("file", abs_fn); ("uri", s3uri)]) st1 /\
  uploaded_files r.1 !! id = Some s3uri /\
  cached_files r.1 = cached_files st /\
  cached_files r.1 !! id = Some (key, outputs).
Proof.
  intros Hrun Hid Hreg st0 st1 r.
  assert (Hr : r = (cache_put world cfg key outputs;;
       logger INFO "task output uploaded" [("file", abs_fn); ("uri", s3uri)]) st1).
  { subst r st1 st0. rewrite (upload_file_ok world cfg abs_fn s3uri id) by assumption.
    rewrite (s3cp_ok _ _ _ _ Hrun). cbn [fst]. simpl cached_files. rewrite Hreg.
    reflexivity. }
  assert (Hc : cached_files r.1 = cached_files st)
    by apply upload_file_cached_files.
  split; [exact Hr|]. split; [|split; [exact Hc|rewrite Hc; exact Hreg]].
  rewrite Hr. unfold_m.
  pose proof (cache_put_maps world cfg key outputs st1) as [Hu _].
  destruct (cache_put world cfg key outputs st1) as [st2 [e|[]]]; simpl in *;
    rewrite Hu; subst st1; simpl; apply lookup_insert_eq.
Qed.

Lemma upload_file_retrieves_pending_entry_witness :
  (w_run Sample.world (s3parcp_cmd "/work/x.txt" "s3://bucket/pre/x.txt")).1 = 0 /\
  inode (w_fs Sample.world) "/work/x.txt" = Some (1, 15) /\
  cached_files pending_x !! (1, 15) = Some ("k", Sample.x_outputs) /\
  let st0 := (s3cp Sample.world "/work/x.txt" "s3://bucket/pre/x.txt" pending_x).1 in
  let st1 := set_uploaded_files
               (<[(1, 15) := "s3://bucket/pre/x.txt"]> (uploaded_files pending_x)) st0 in
  let r := upload_file Sample.world Sample.cfg "/work/x.txt" "s3://bucket/pre/x.txt"
             pending_x in
  r = (cache_put Sample.world Sample.cfg "k" Sample.x_outputs;;
       logger INFO "task output uploaded"
         [("file", "/work/x.txt"); ("uri", "s3://bucket/pre/x.txt")]) st1 /\
  uploaded_files r.1 !! (1, 15) = Some "s3://bucket/pre/x.txt" /\
  cached_files r.1 = cached_files pending_x /\
  cached_files r.1 !! (1, 15) = Some ("k", Sample.x_outputs).
Proof.
  assert (H1 : (w_run Sample.world (s3parcp_cmd "/work/x.txt" "s3://bucket/pre/x.txt")).1 = 0)
    by reflexivity.
  assert (H2 : inode (w_fs Sample.world) "/work/x.txt" = Some (1, 15))
    by (vm_compute; reflexivity).
  assert (H3 : cached_files pending_x !! (1, 15) = Some ("k", Sample.x_outputs))
    by (vm_compute; reflexivity).
  split; [exact H1|]. split; [exact H2|]. split; [exact H3|].
  exact (upload_file_retrieves_pending_entry Sample.world Sample.cfg
           "/work/x.txt" "s3://bucket/pre/x.txt" (1, 15) "k" Sample.x_outputs pending_x
           H1 H2 H3).
Defined.

(** C3 fails as stated: the ledger already has the identity [(1, 15)], the
    registry has no entry for it, and the insert creates one all the same. *)
Lemma put_registers_only_unresolved_counterexample :
  let r := CallCache_put Sample.world Sample.cfg "k" Sample.x_outputs uploaded_x in
  uploaded_files uploaded_x !! (1, 15) = Some "s3://bucket/pre/x.txt" /\
  cached_files uploaded_x !! (1, 15) = None /\
  r.2 = inr tt /\
  cached_files r.1 !! (1, 15) = Some ("k", Sample.x_outputs).
Proof. vm_compute. repeat split. Qed.

Section InsertFacts.
Variable world : World.
Variable cfg : Config.
Let fs := w_fs world.



Lemma resolve_uri_lookup uploaded p id uri :
  inode fs p = Some id -> uploaded !! id = Some uri -> resolve_uri world uploaded p = uri.
Proof.
  intros Hid Hup. unfold resolve_uri. fold fs. rewrite Hid. simpl. rewrite Hup. reflexivity.
Qed.

(** What [CallCache.put] does with both guards passed. *)
Lemma CallCache_put_open key outputs st s3prefix bucket objkey :
  cfg_call_cache_put cfg = true ->
  cfg_call_cache_backend cfg = backend_marker ->
  get_s3_put_prefix cfg = inr s3prefix ->
  s3_object (OsPath.join s3prefix ["cache"; key +:+ ".json"]) = inr (bucket, objkey) ->
  paths_exist world outputs ->
  exists st',
    CallCache_put world cfg key outputs st = (st', inr tt) /\
    uploaded_files st' = uploaded_files st /\
    cached_files st' = register_paths world key outputs (env_paths outputs) (cached_files st) /\
    s3_calls st' = s3_calls st ++
      (if all_resolved world (uploaded_files st) outputs
       then [PutObject bucket objkey
               (map_env_paths (resolve_uri world (uploaded_files st)) outputs);
             PutObjectTagging bucket objkey "swipe_temporary" "true"]
       else []).
Proof.
  intros Hput Hbk Hpre Hobj Hex.
  rewrite CallCache_put_enabled by assumption.
  destruct (all_resolved world (uploaded_files st) outputs) eqn:Hall.
  - erewrite cache_put_resolved by (try eassumption; exact Hall).
    eexists. split; [reflexivity|]. simpl. rewrite <- app_assoc. repeat split.
  - rewrite cache_put_missing by (try assumption; exact Hall).
    eexists. split; [reflexivity|]. simpl. rewrite app_nil_r. repeat split.
Qed.
End InsertFacts.

(** C3, amended: with cache writes enabled, the insert creates a registry
    entry [identity -> (key, bindings)] for every file or directory value of
    the bindings, whether or not its identity is already in the ledger, and
    leaves the other entries and the ledger alone, whatever the backend and
    the prefix are.  The values are remapped to their recorded URIs only in the
    manifest: with another backend nothing goes out, and with the
    progressive-upload backend (and a valid prefix, the manifest URI being
    plain URI text) the manifest goes out exactly when every value is in the
    ledger. *)
Theorem put_registers_every_value world cfg key outputs st :
  cfg_call_cache_put cfg = true ->
  paths_exist world outputs ->
  let r := CallCache_put world cfg key outputs st in
  (forall p id, p ∈ env_paths outputs -> inode (w_fs world) p = Some id ->
                cached_files r.1 !! id = Some (key, outputs)) /\
  (forall id, names world (env_paths outputs) id = false ->
              cached_files r.1 !! id = cached_files st !! id) /\
  uploaded_files r.1 = uploaded_files st /\
  (cfg_call_cache_backend cfg ≠ backend_marker ->
   r.2 = inr tt /\ s3_calls r.1 = s3_calls st) /\
  (forall s3prefix bucket objkey,
     cfg_call_cache_backend cfg = backend_marker ->
     get_s3_put_prefix cfg = inr s3prefix ->
     plain_s3_uri (OsPath.join s3prefix ["cache"; key +:+ ".json"]) ->
     s3_object (OsPath.join s3prefix ["cache"; key +:+ ".json"]) = inr (bucket, objkey) ->
     r.2 = inr tt /\
     s3_calls r.1 = s3_calls st ++
       (if all_resolved world (uploaded_files st) outputs
        then [PutObject bucket objkey
                (map_env_paths (resolve_uri world (uploaded_files st)) outputs);
              PutObjectTagging bucket objkey "swipe_temporary" "true"]
        else [])) /\
  (forall p id uri, inode (w_fs world) p = Some id -> uploaded_files st !! id = Some uri ->
                    resolve_uri world (uploaded_files st) p = uri).
Proof.
  intros Hput Hex r.
  pose proof (CallCache_put_enabled world cfg key outputs st Hput Hex) as Hr.
  set (st0 := set_cached_files
                (register_paths world key outputs (env_paths outputs) (cached_files st)) st)
    in Hr.
  destruct (cache_put_maps world cfg key outputs st0) as [Hup Hreg].
  fold r in Hr. rewrite <- Hr in Hup, Hreg. simpl in Hup, Hreg.
  split; [|split; [|split; [exact Hup|split; [|split]]]].
  - intros p id Hp Hid. rewrite Hreg, register_paths_lookup.
    replace (names world (env_paths outputs) id) with true; [reflexivity|].
    symmetry. apply names_true. eauto.
  - intros id Hn. rewrite Hreg, register_paths_lookup, Hn. reflexivity.
  - intros Hbk. rewrite Hr, cache_put_guarded; [split; reflexivity|].
    apply andb_false_iff. right. apply String.eqb_neq, Hbk.
  - intros s3prefix bucket objkey Hbk Hpre _ Hobj.
    destruct (CallCache_put_open world cfg key outputs st s3prefix bucket objkey)
      as (st' & Hr' & _ & _ & Hcalls); try assumption.
    subst r. rewrite Hr'. split; [reflexivity|exact Hcalls].
  - intros p id uri. apply resolve_uri_lookup.
Qed.

(** [paths_exist] by running [inode] on each path. *)
Lemma paths_exist_check world env :
  forallb (fun p => bool_decide (is_Some (inode (w_fs world) p))) (env_paths env) = true ->
  paths_exist world env.
Proof.
  intros H p Hp. rewrite forallb_forall in H.
  specialize (H p (proj1 (list_elem_of_In _ _) Hp)).
  apply bool_decide_eq_true_1 in H. exact H.
Qed.

Lemma put_registers_every_value_witness :
  cfg_call_cache_put Sample.cfg = true /\
  paths_exist Sample.world Sample.x_outputs /\
  cfg_call_cache_backend Sample.cfg = backend_marker /\
  plain_s3_uri (OsPath.join "s3://bucket/pre" ["cache"; "k" +:+ ".json"]) /\
  let r := CallCache_put Sample.world Sample.cfg "k" Sample.x_outputs uploaded_x in
  r.2 = inr tt /\
  (forall p id, p ∈ env_paths Sample.x_outputs -> inode (w_fs Sample.world) p = Some id ->
                cached_files r.1 !! id = Some ("k", Sample.x_outputs)) /\
  (forall id, names Sample.world (env_paths Sample.x_outputs) id = false ->
              cached_files r.1 !! id = cached_files uploaded_x !! id) /\
  uploaded_files r.1 = uploaded_files uploaded_x /\
  s3_calls r.1 = s3_calls uploaded_x ++
    (if all_resolved Sample.world (uploaded_files uploaded_x) Sample.x_outputs
     then [PutObject "bucket" "pre/cache/k.json"
             (map_env_paths (resolve_uri Sample.world (uploaded_files uploaded_x))
                Sample.x_outputs);
           PutObjectTagging "bucket" "pre/cache/k.json" "swipe_temporary" "true"]
     else []) /\
  (let r' := CallCache_put Sample.world Sample.cfg_other_backend "k" Sample.x_outputs
               uploaded_x in
   cached_files r'.1 !! (1, 15) = Some ("k", Sample.x_outputs) /\
   r'.2 = inr tt /\ s3_calls r'.1 = s3_calls uploaded_x).
Proof.
  assert (H1 : cfg_call_cache_put Sample.cfg = true) by reflexivity.
  assert (H2 : cfg_call_cache_backend Sample.cfg = backend_marker) by reflexivity.
  assert (H3 : get_s3_put_prefix Sample.cfg = inr "s3://bucket/pre") by reflexivity.
  assert (H3p : plain_s3_uri (OsPath.join "s3://bucket/pre" ["cache"; "k" +:+ ".json"])).
  { exists "bucket", "pre/cache/k.json". split; [vm_compute; reflexivity|].
    split; reflexivity. }
  assert (H4 : s3_object (OsPath.join "s3://bucket/pre" ["cache"; "k" +:+ ".json"])
               = inr ("bucket", "pre/cache/k.json")) by (vm_compute; reflexivity).
  assert (H5 : paths_exist Sample.world Sample.x_outputs)
    by (apply paths_exist_check; vm_compute; reflexivity).
  split; [exact H1|]. split; [exact H5|]. split; [exact H2|]. split; [exact H3p|].
  destruct (put_registers_every_value Sample.world Sample.cfg "k" Sample.x_outputs
              uploaded_x H1 H5) as (Hreg & Hother & Hup & _ & Hpub & _).
  destruct (Hpub "s3://bucket/pre" "bucket" "pre/cache/k.json" H2 H3 H3p H4)
    as [Hret Hcalls].
  destruct (put_registers_every_value Sample.world Sample.cfg_other_backend "k"
              Sample.x_outputs uploaded_x eq_refl H5) as (Hreg' & _ & _ & Hquiet & _).
  destruct Hquiet as [Hret' Hcalls']; [discriminate|].
  split; [exact Hret|]. split; [exact Hreg|]. split; [exact Hother|].
  split; [exact Hup|]. split; [exact Hcalls|].
  split; [|split; [exact Hret'|exact Hcalls']].
  apply (Hreg' "/work/x.txt"); [left|vm_compute; reflexivity].
Defined.

(** ** The two guards *)

Lemma register_paths_dom world key outputs ps cached :
  dom cached ⊆ dom (register_paths world key outputs ps cached).
Proof.
  intros id Hid. apply elem_of_dom in Hid. apply elem_of_dom.
  rewrite register_paths_lookup. destruct (names world ps id); [eauto|exact Hid].
Qed.

Lemma run_hooks_s3_calls world cfg hooks st :
  cfg_call_cache_backend cfg ≠ backend_marker ->
  s3_calls (run_hooks world cfg hooks st) = s3_calls st.
Proof.
  intros Hbk.
  assert (Hguard : (cfg_call_cache_put cfg &&
                   String.eqb (cfg_call_cache_backend cfg) backend_marker)%bool = false).
  { apply andb_false_iff. right. apply String.eqb_neq, Hbk. }
  revert st. induction hooks as [|h hooks IH]; intros st; [reflexivity|].
  unfold run_hooks in *. cbn [fold_left]. rewrite IH.
  destruct h as [key outputs|key inputs tys|run_id run_dir|run_id run_dir name outputs];
    cbn [run_hook].
  - apply (preserves_CallCache_put world cfg (s3_calls st) Hguard key outputs st).
    reflexivity.
  - apply (preserves_CallCache_get world cfg (s3_calls st) key inputs tys st). reflexivity.
  - apply (preserves_task world cfg (s3_calls st) Hguard run_id run_dir st). reflexivity.
  - apply (preserves_workflow world cfg (s3_calls st) run_id run_dir name outputs st).
    reflexivity.
Qed.

(** C10: with cache writes enabled, [CallCache.put] registers every file
    object the bindings name under [(key, bindings)] whatever backend is
    configured, so the registry only grows (strictly, when one of them was
    not registered before); a manifest goes out only if the backend marker is
    the progressive-upload one; and with another marker no sequence of cache
    inserts, cache lookups, task completions and workflow completions ever
    sends anything to S3. *)
Theorem registry_grows_without_publishing world cfg :
  cfg_call_cache_put cfg = true ->
  (forall key outputs st,
      paths_exist world outputs ->
      let r := CallCache_put world cfg key outputs st in
      (forall p id, p ∈ env_paths outputs -> inode (w_fs world) p = Some id ->
                    cached_files r.1 !! id = Some (key, outputs)) /\
      dom (cached_files st) ⊆ dom (cached_files r.1) /\
      (forall p id, p ∈ env_paths outputs -> inode (w_fs world) p = Some id ->
                    cached_files st !! id = None ->
                    (size (cached_files st) < size (cached_files r.1))%nat) /\
      (s3_calls r.1 ≠ s3_calls st -> cfg_call_cache_backend cfg = backend_marker)) /\
  (cfg_call_cache_backend cfg ≠ backend_marker ->
   forall hooks st, s3_calls (run_hooks world cfg hooks st) = s3_calls st).
Proof.
  intros Hput. split; [|intros Hbk hooks st; apply run_hooks_s3_calls, Hbk].
  intros key outputs st Hex r.
  assert (Hreg : cached_files r.1 =
                 register_paths world key outputs (env_paths outputs) (cached_files st)).
  { subst r. rewrite CallCache_put_enabled by assumption.
    apply (cache_put_maps world cfg key outputs). }
  assert (Hnamed : forall p id, p ∈ env_paths outputs -> inode (w_fs world) p = Some id ->
                                cached_files r.1 !! id = Some (key, outputs)).
  { intros p id Hp Hid. rewrite Hreg, register_paths_lookup.
    replace (names world (env_paths outputs) id) with true; [reflexivity|].
    symmetry. apply names_true. eauto. }
  assert (Hdom : dom (cached_files st) ⊆ dom (cached_files r.1))
    by (rewrite Hreg; apply register_paths_dom).
  split; [exact Hnamed|]. split; [exact Hdom|]. split.
  - intros p id Hp Hid Hnone.
    rewrite <- (size_dom (cached_files st)), <- (size_dom (cached_files r.1)).
    apply subset_size. split; [exact Hdom|].
    intros Hsub. specialize (Hsub id).
    rewrite !elem_of_dom in Hsub. rewrite (Hnamed p id Hp Hid), Hnone in Hsub.
    destruct Hsub as [? ?]; [eauto|discriminate].
  - intros Hne.
    destruct (decide (cfg_call_cache_backend cfg = backend_marker)) as [|Hbk]; [assumption|].
    exfalso. apply Hne. subst r.
    apply (preserves_CallCache_put world cfg (s3_calls st)); [|reflexivity].
    apply andb_false_iff. right. apply String.eqb_neq, Hbk.
Qed.

Lemma registry_grows_without_publishing_witness :
  cfg_call_cache_put Sample.cfg_other_backend = true /\
  (forall key outputs st,
      paths_exist Sample.world outputs ->
      let r := CallCache_put Sample.world Sample.cfg_other_backend key outputs st in
      (forall p id, p ∈ env_paths outputs -> inode (w_fs Sample.world) p = Some id ->
                    cached_files r.1 !! id = Some (key, outputs)) /\
      dom (cached_files st) ⊆ dom (cached_files r.1) /\
      (forall p id, p ∈ env_paths outputs -> inode (w_fs Sample.world) p = Some id ->
                    cached_files st !! id = None ->
                    (size (cached_files st) < size (cached_files r.1))%nat) /\
      (s3_calls r.1 ≠ s3_calls st ->
       cfg_call_cache_backend Sample.cfg_other_backend = backend_marker)) /\
  (cfg_call_cache_backend Sample.cfg_other_backend ≠ backend_marker ->
   forall hooks st,
     s3_calls (run_hooks Sample.world Sample.cfg_other_backend hooks st) = s3_calls st).
Proof.
  split; [reflexivity|].
  apply (registry_grows_without_publishing Sample.world Sample.cfg_other_backend).
  reflexivity.
Defined.

(** ** A pending insert and the uploads it waits for *)

Section PendingInsert.
Variable world : World.
Variable cfg : Config.
Let fs := w_fs world.



Lemma record_uploads_snoc ups u uploaded :
  record_uploads fs (ups ++ [u]) uploaded =
  match inode fs u.1 with
  | Some id => <[id := u.2]> (record_uploads fs ups uploaded)
  | None => record_uploads fs ups uploaded
  end.
Proof. unfold record_uploads. rewrite fold_left_app. reflexivity. Qed.

Lemma for_each_app {A} (a b : list A) (body : A -> M unit) st :
  for_each (a ++ b) body st =
  match for_each a body st with
  | (st', inl e) => (st', inl e)
  | (st', inr _) => for_each b body st'
  end.
Proof.
  revert st. induction a as [|x a IH]; intros st; [reflexivity|].
  cbn [app for_each]. unfold_m.
  destruct (body x st) as [st1 [e|[]]]; [reflexivity|]. apply IH.
Qed.

Hypothesis put_enabled : cfg_call_cache_put cfg = true.
Hypothesis backend_ours : cfg_call_cache_backend cfg = backend_marker.
Variables (key s3prefix bucket objkey : string) (outputs : Bindings).
Hypothesis prefix_ok : get_s3_put_prefix cfg = inr s3prefix.
Hypothesis object_ok :
  s3_object (OsPath.join s3prefix ["cache"; key +:+ ".json"]) = inr (bucket, objkey).
Hypothesis outputs_exist : paths_exist world outputs.

End PendingInsert.





(** ** The workflow manifest *)

Lemma run_rewriter_unresolved world uploaded ps lg :
  (exists p, p ∈ ps /\ ledger_uri world uploaded p = None) ->
  exists p0, p0 ∈ ps /\ ledger_uri world uploaded p0 = None /\
    outcome (run_paths (rewriter world uploaded None) ps lg) =
    (lg ++ [not_uploaded_warning p0], Some (NameError "fn")).
Proof.
  induction ps as [|p ps IH]; intros (q & Hq & Hnone); [inversion Hq|].
  cbn [run_paths]. unfold rewriter at 1. fold (ledger_uri world uploaded p).
  destruct (ledger_uri world uploaded p) as [uri|] eqn:Hp.
  - apply elem_of_cons in Hq as [->|Hq]; [congruence|].
    destruct IH as (p0 & Hp0 & Hn0 & Hrun); [eauto|].
    exists p0. split; [right; exact Hp0|]. split; [exact Hn0|].
    destruct (run_paths _ ps lg) as [lg' [e|qs]]; exact Hrun.
  - exists p. split; [left|]. split; [exact Hp|]. reflexivity.
Qed.

(** C4, as the code has it: when some file or directory value of the
    workflow outputs has no ledger entry, [write_outputs_s3_json] logs the
    warning for the first such value and then raises [NameError]: the
    callback returns [fn], a variable of the enclosing function that is
    assigned only after the rewriting.  No manifest is written and nothing is
    copied. *)
Theorem write_outputs_s3_json_unbound_fn world outputs run_dir s3prefix namespace st :
  (exists p, p ∈ env_paths outputs /\ ledger_uri world (uploaded_files st) p = None) ->
  exists p0 st',
    p0 ∈ env_paths outputs /\ ledger_uri world (uploaded_files st) p0 = None /\
    write_outputs_s3_json world outputs run_dir s3prefix namespace st
      = (st', inl (NameError "fn")) /\
    log st' = log st ++ [not_uploaded_warning p0] /\
    files st' = files st /\
    commands st' = commands st.
Proof.
  intros Hmiss.
  destruct (run_rewriter_unresolved world (uploaded_files st) (env_paths outputs) (log st)
              Hmiss) as (p0 & Hp0 & Hn0 & Hrun).
  rewrite <- outcome_rewrite_env_paths in Hrun.
  exists p0. unfold write_outputs_s3_json. unfold_m. cbn beta.
  destruct (rewrite_env_paths _ outputs (log st)) as [lg [e|r]];
    unfold outcome in Hrun; simpl in Hrun; inversion Hrun; subst.
  eexists. repeat split; try reflexivity; assumption.
Qed.

Lemma write_outputs_s3_json_unbound_fn_witness :
  (exists p, p ∈ env_paths Sample.x_outputs /\
             ledger_uri Sample.world (uploaded_files initial_state) p = None) /\
  exists p0 st',
    p0 ∈ env_paths Sample.x_outputs /\
    ledger_uri Sample.world (uploaded_files initial_state) p0 = None /\
    write_outputs_s3_json Sample.world Sample.x_outputs "/run" "s3://bucket/pre/wf" "wf"
      initial_state = (st', inl (NameError "fn")) /\
    log st' = log initial_state ++ [not_uploaded_warning p0] /\
    files st' = files initial_state /\
    commands st' = commands initial_state.
Proof.
  assert (H : exists p, p ∈ env_paths Sample.x_outputs /\
                        ledger_uri Sample.world (uploaded_files initial_state) p = None).
  { exists "/work/x.txt". split; [left|vm_compute; reflexivity]. }
  split; [exact H|].
  exact (write_outputs_s3_json_unbound_fn Sample.world Sample.x_outputs "/run"
           "s3://bucket/pre/wf" "wf" initial_state H).
Defined.

(** The workflow hook on the sample world, for an output no task uploaded. *)
Lemma workflow_hook_unbound_fn :
  let r := workflow Sample.world Sample.cfg ["wf"] "/run" "wf" Sample.x_outputs
             initial_state in
  r.2 = inl (NameError "fn") /\
  log r.1 = [not_uploaded_warning "/work/x.txt"] /\
  files r.1 = ∅ /\
  commands r.1 = [].
Proof. vm_compute. repeat split. Qed.

(** ** Cache lookup *)

Lemma CallCache_get_cases world cfg key inputs output_types st s3prefix :
  get_s3_get_prefix cfg = inr s3prefix ->
  CallCache_get world cfg key inputs output_types st =
  match w_download world (urlparse s3prefix).1 (remote_cache_key s3prefix key) with
  | Downloaded body =>
      let st' := write_file (local_manifest_path cfg s3prefix key) (Blob body) st in
      (st', inr (w_super_get world (files st') (remote_cache_key s3prefix key)
                   inputs output_types))
  | DownloadClientError code =>
      if String.eqb code "404"
      then (st, inr (w_super_get world (files st) (remote_cache_key s3prefix key)
                       inputs output_types))
      else (st, inl (ClientError code))
  | DownloadFailed msg => (st, inl (TransportError msg))
  end.
Proof.
  intros Hpre. unfold CallCache_get, remote_cache_key, local_manifest_path, remote_cache_key.
  unfold_m. rewrite Hpre. cbn [fst snd].
  destruct (urlparse s3prefix) as [bucket prefix]. cbn [fst snd].
  destruct (w_download world bucket _) as [body|code|msg]; [reflexivity| |reflexivity].
  destruct (String.eqb code "404"); reflexivity.
Qed.

(** C6 fails as stated: the local store holds an entry under the very key
    the lookup is called with, the remote has none, and the lookup misses: it
    asks the local store for another key. *)
Lemma CallCache_get_same_key_counterexample :
  let st := write_file "/cache/k.json" (Manifest "wf" Sample.x_outputs) initial_state in
  w_super_get Sample.world (files st) "k" [] [] = Some Sample.x_outputs /\
  w_download Sample.world "bucket" "pre/cache/k.json" = DownloadClientError "404" /\
  CallCache_get Sample.world Sample.cfg "k" [] [] st = (st, inr None) /\
  remote_cache_key "s3://bucket/pre" "k" = "pre/cache/k.json" /\
  remote_cache_key "s3://bucket/pre" "k" ≠ "k".
Proof. vm_compute. repeat split. discriminate. Qed.

(** C7: a [404] from the remote store is swallowed and the lookup answers
    what the local store answers, a hit or a miss, with the state untouched;
    a client error with any other code, and any other failure of the
    download, leaves the lookup as that exception. *)
Theorem CallCache_get_remote_errors world cfg key inputs output_types st s3prefix :
  get_s3_get_prefix cfg = inr s3prefix ->
  let download := w_download world (urlparse s3prefix).1 (remote_cache_key s3prefix key) in
  let r := CallCache_get world cfg key inputs output_types st in
  (download = DownloadClientError "404" ->
   r = (st, inr (w_super_get world (files st) (remote_cache_key s3prefix key)
                   inputs output_types))) /\
  (forall code, code ≠ "404" -> download = DownloadClientError code ->
                r = (st, inl (ClientError code))) /\
  (forall msg, download = DownloadFailed msg -> r = (st, inl (TransportError msg))).
Proof.
  intros Hpre download r. subst r download.
  rewrite (CallCache_get_cases _ _ _ _ _ _ _ Hpre).
  split; [|split].
  - intros ->. reflexivity.
  - intros code Hne ->. apply String.eqb_neq in Hne. rewrite Hne. reflexivity.
  - intros msg ->. reflexivity.
Qed.

Lemma CallCache_get_remote_errors_witness :
  get_s3_get_prefix Sample.cfg = inr "s3://bucket/pre" /\
  (let download := w_download Sample.world (urlparse "s3://bucket/pre").1
                     (remote_cache_key "s3://bucket/pre" "k") in
   let r := CallCache_get Sample.world Sample.cfg "k" [] [] local_hit_state in
   (download = DownloadClientError "404" ->
    r = (local_hit_state,
         inr (w_super_get Sample.world (files local_hit_state)
                (remote_cache_key "s3://bucket/pre" "k") [] []))) /\
   (forall code, code ≠ "404" -> download = DownloadClientError code ->
                 r = (local_hit_state, inl (ClientError code))) /\
   (forall msg, download = DownloadFailed msg ->
                r = (local_hit_state, inl (TransportError msg)))) /\
  CallCache_get Sample.world Sample.cfg "k" [] [] local_hit_state
    = (local_hit_state, inr (Some Sample.x_outputs)) /\
  CallCache_get Sample.world Sample.cfg "k" [] [] initial_state
    = (initial_state, inr None) /\
  CallCache_get Sample.world_failing Sample.cfg "k" [] [] local_hit_state
    = (local_hit_state, inl (ClientError "500")).
Proof.
  assert (H1 : get_s3_get_prefix Sample.cfg = inr "s3://bucket/pre") by reflexivity.
  split; [exact H1|]. split.
  - exact (CallCache_get_remote_errors Sample.world Sample.cfg "k" [] [] local_hit_state
             "s3://bucket/pre" H1).
  - vm_compute. repeat split.
Defined.

(** ** Path resolution *)

Module ResolveFacts.
Import Resolve.

Lemma joinrealpath_nil fs fuel path : Os.joinrealpath fs fuel path [] = Some path.
Proof. destruct fuel; reflexivity. Qed.

Lemma joinrealpath_cons fs fuel path name rest :
  Os.joinrealpath fs fuel path (name :: rest) =
  if (String.eqb name "" || String.eqb name ".")%bool then Os.joinrealpath fs fuel path rest
  else if String.eqb name ".." then Os.joinrealpath fs fuel (Os.parent path) rest
  else
    match Os.entry_at fs (OsPath.join2 path name) with
    | Some (Symlink target) =>
        match fuel with
        | O => None
        | S fuel' =>
            Os.joinrealpath fs fuel'
              (if Py.startswith "/" target then "/" else path)
              (Py.split OsPath.sep target ++ rest)
        end
    | _ => Os.joinrealpath fs fuel (OsPath.join2 path name) rest
    end.
Proof. destruct fuel; reflexivity. Qed.

(** With a budget of at least the links to follow, [_joinrealpath] returns
    the canonical path. *)
Lemma joinrealpath_resolves fs n path rest q :
  resolves fs n path rest q ->
  forall fuel, (n <= fuel)%nat -> Os.joinrealpath fs fuel path rest = Some q.
Proof.
  induction 1 as [path|n path name rest q Hskip _ IH|n path name rest q Hskip Hup _ IH
                 |n path name rest q Hskip Hup Hent _ IH
                 |n path name rest target q Hskip Hup Hent _ IH];
    intros fuel Hfuel.
  - apply joinrealpath_nil.
  - rewrite joinrealpath_cons, Hskip. apply IH, Hfuel.
  - rewrite joinrealpath_cons, Hskip, Hup. apply IH, Hfuel.
  - rewrite joinrealpath_cons, Hskip, Hup.
    destruct (Os.entry_at fs (OsPath.join2 path name)) as [[d i|d i|t]|];
      try discriminate; apply IH, Hfuel.
  - rewrite joinrealpath_cons, Hskip, Hup.
    destruct (Os.entry_at fs (OsPath.join2 path name)) as [[d i|d i|t]|];
      try discriminate.
    cbn [link_target] in Hent. inversion Hent; subst.
    destruct fuel as [|fuel]; [lia|]. apply IH. lia.
Qed.

(** The identity of a path is the inode of the entry it reaches. *)
Lemma inode_reaches fs p n id :
  reaches fs p n id -> (n <= fs_maxlinks fs)%nat -> inode fs p = Some id.
Proof.
  intros (q & Hres & Hentry) Hfuel. unfold inode, Os.realpath.
  rewrite (joinrealpath_resolves fs n _ _ q Hres _ Hfuel).
  unfold Os.stat_canonical. rewrite Hentry. destruct id; reflexivity.
Qed.

End ResolveFacts.

(** Builds the derivation of a concrete path resolution. *)
Ltac resolve_path :=
  repeat (cbv;
          first
            [ apply Resolve.resolves_done
            | eapply Resolve.resolves_skip; [reflexivity|]
            | eapply Resolve.resolves_up; [reflexivity|reflexivity|]
            | eapply Resolve.resolves_entry; [reflexivity|reflexivity|reflexivity|]
            | eapply Resolve.resolves_link; [reflexivity|reflexivity|reflexivity|] ]).

(** A successful upload step leaves the ledger with the file object mapped
    to the destination. *)
Lemma upload_file_records world cfg abs_fn s3uri id st :
  (w_run world (s3parcp_cmd abs_fn s3uri)).1 = 0 ->
  inode (w_fs world) abs_fn = Some id ->
  uploaded_files (upload_file world cfg abs_fn s3uri st).1
  = <[id := s3uri]> (uploaded_files st).
Proof.
  intros Hrun Hid. rewrite (upload_file_ok world cfg abs_fn s3uri id) by assumption.
  rewrite (s3cp_ok _ _ _ _ Hrun). cbn [fst]. unfold_m.
  destruct (cached_files _ !! id) as [[key outputs]|].
  - match goal with
    | |- context [cache_put world cfg key outputs ?s] =>
        pose proof (cache_put_maps world cfg key outputs s) as [Hu _];
        destruct (cache_put world cfg key outputs s) as [st2 [e|[]]]
    end; simpl in *; exact Hu.
  - reflexivity.
Qed.

(** C8: take two paths to one file object, one that gets to a hard link of
    it without following any symbolic link and one that gets to a hard link of
    it through symbolic links (within the link budget).  [inode] gives both
    the [(st_dev, st_ino)] of that object; so once the file is uploaded
    through either path, the ledger answers the recorded URI for both. *)
Theorem linked_paths_share_identity world cfg hard sym n id s3uri st :
  Resolve.hard_link_to (w_fs world) hard id ->
  Resolve.sym_link_to (w_fs world) sym n id ->
  (S n <= fs_maxlinks (w_fs world))%nat ->
  inode (w_fs world) hard = Some id /\
  inode (w_fs world) sym = Some id /\
  forall via,
    via = hard \/ via = sym ->
    (w_run world (s3parcp_cmd via s3uri)).1 = 0 ->
    let st' := (upload_file world cfg via s3uri st).1 in
    ledger_uri world (uploaded_files st') hard = Some s3uri /\
    ledger_uri world (uploaded_files st') sym = Some s3uri.
Proof.
  intros Hhard Hsym Hfuel.
  assert (Hh : inode (w_fs world) hard = Some id)
    by (apply (ResolveFacts.inode_reaches _ _ 0 _ Hhard); lia).
  assert (Hs : inode (w_fs world) sym = Some id)
    by (apply (ResolveFacts.inode_reaches _ _ (S n) _ Hsym); exact Hfuel).
  split; [exact Hh|]. split; [exact Hs|].
  intros via Hvia Hrun st'.
  assert (Hid : inode (w_fs world) via = Some id) by (destruct Hvia; subst; assumption).
  subst st'. rewrite (upload_file_records world cfg via s3uri id st Hrun Hid).
  unfold ledger_uri. rewrite Hh, Hs. simpl. rewrite lookup_insert_eq. split; reflexivity.
Qed.

(** [/work/hard.txt] is a second hard link of the file object [(1, 15)]. *)
Lemma sample_hard_link : Resolve.hard_link_to Sample.fs "/work/hard.txt" (1, 15).
Proof. eexists. split; [resolve_path|reflexivity]. Qed.

(** [/run/out/single/x.txt] is a symbolic link with the relative target
    [../../../work/x.txt], the first hard link of [(1, 15)]. *)
Lemma sample_sym_link : Resolve.sym_link_to Sample.fs "/run/out/single/x.txt" 0 (1, 15).
Proof. eexists. split; [resolve_path|reflexivity]. Qed.

Lemma linked_paths_share_identity_witness :
  Resolve.hard_link_to (w_fs Sample.world) "/work/hard.txt" (1, 15) /\
  Resolve.sym_link_to (w_fs Sample.world) "/run/out/single/x.txt" 0 (1, 15) /\
  (1 <= fs_maxlinks (w_fs Sample.world))%nat /\
  inode (w_fs Sample.world) "/work/hard.txt" = Some (1, 15) /\
  inode (w_fs Sample.world) "/run/out/single/x.txt" = Some (1, 15) /\
  forall via,
    via = "/work/hard.txt" \/ via = "/run/out/single/x.txt" ->
    (w_run Sample.world (s3parcp_cmd via "s3://bucket/pre/x.txt")).1 = 0 ->
    let st' := (upload_file Sample.world Sample.cfg via "s3://bucket/pre/x.txt"
                  initial_state).1 in
    ledger_uri Sample.world (uploaded_files st') "/work/hard.txt"
      = Some "s3://bucket/pre/x.txt" /\
    ledger_uri Sample.world (uploaded_files st') "/run/out/single/x.txt"
      = Some "s3://bucket/pre/x.txt".
Proof.
  assert (H0 : (1 <= fs_maxlinks (w_fs Sample.world))%nat) by (simpl; lia).
  split; [exact sample_hard_link|]. split; [exact sample_sym_link|]. split; [exact H0|].
  exact (linked_paths_share_identity Sample.world Sample.cfg
           "/work/hard.txt" "/run/out/single/x.txt" 0 (1, 15)
           "s3://bucket/pre/x.txt" initial_state
           sample_hard_link sample_sym_link H0).
Defined.

(** ** Strings in paths *)

Lemma append_cons a s t : String a s +:+ t = String a (s +:+ t).
Proof. reflexivity. Qed.

Lemma append_nil_l s : "" +:+ s = s.
Proof. reflexivity. Qed.

Lemma append_assoc a b c : (a +:+ b) +:+ c = a +:+ (b +:+ c).
Proof.
  induction a as [|x a IH]; [reflexivity|]. rewrite !append_cons, IH. reflexivity.
Qed.

Lemma startswith_app_l a b s :
  Py.startswith (a +:+ b) s = true -> Py.startswith a s = true.
Proof.
  revert s. induction a as [|c a IH]; intros s H; [reflexivity|].
  rewrite append_cons in H. destruct s as [|d s]; [discriminate|].
  cbn [Py.startswith] in *. destruct (Ascii.eqb c d); [apply IH, H|discriminate].
Qed.

Lemma startswith_app_same a b s :
  Py.startswith b s = true -> Py.startswith (a +:+ b) (a +:+ s) = true.
Proof.
  intros H. induction a as [|c a IH]; [exact H|].
  rewrite !append_cons. cbn [Py.startswith]. rewrite Ascii.eqb_refl. exact IH.
Qed.

Lemma entry_name_no_leading_slash n : entry_name n -> Py.startswith "/" n = false.
Proof.
  intros [_ H]. destruct n as [|a n]; [reflexivity|].
  cbn [Py.contains] in H. apply orb_false_iff in H as [H _]. exact H.
Qed.

Lemma entry_name_tail a n : entry_name (String a n) -> n = "" \/ entry_name n.
Proof.
  intros [_ H]. destruct n as [|b n]; [left; reflexivity|right].
  split; [discriminate|].
  cbn [Py.contains] in H. apply orb_false_iff in H as [_ H]. exact H.
Qed.

Lemma endswith_entry_name n : entry_name n -> Py.endswith_char OsPath.sep n = false.
Proof.
  induction n as [|a n IH]; intros Hn; [reflexivity|].
  destruct (entry_name_tail a n Hn) as [->|Hn'].
  - pose proof (entry_name_no_leading_slash _ Hn) as H.
    cbn [Py.startswith] in H. cbn [Py.endswith_char].
    destruct (Ascii.eqb "/" a) eqn:E; [discriminate|].
    rewrite Ascii.eqb_sym. exact E.
  - destruct n as [|b n]; [destruct Hn' as [Hne _]; congruence|].
    change (Py.endswith_char OsPath.sep (String a (String b n)))
      with (Py.endswith_char OsPath.sep (String b n)).
    apply IH, Hn'.
Qed.

Lemma endswith_app_entry_name p n :
  entry_name n -> Py.endswith_char OsPath.sep (p +:+ n) = false.
Proof.
  intros Hn. induction p as [|a p IH]; [apply endswith_entry_name, Hn|].
  rewrite append_cons.
  destruct (p +:+ n) as [|b r] eqn:E.
  - destruct p; [|discriminate]. rewrite append_nil_l in E. destruct Hn; congruence.
  - change (Py.endswith_char OsPath.sep (String a (String b r)))
      with (Py.endswith_char OsPath.sep (String b r)).
    exact IH.
Qed.

(** Joining an entry name below a directory path that is not empty and has
    no trailing slash. *)
Lemma join2_entry_name top n :
  top ≠ "" -> Py.endswith_char OsPath.sep top = false -> entry_name n ->
  OsPath.join2 top n = top +:+ "/" +:+ n.
Proof.
  intros Hne Hend Hn. unfold OsPath.join2.
  rewrite (entry_name_no_leading_slash n Hn), Hend.
  destruct top; [congruence|]. reflexivity.
Qed.

Lemma join2_entry_name_shape top n :
  top ≠ "" -> Py.endswith_char OsPath.sep top = false -> entry_name n ->
  OsPath.join2 top n ≠ "" /\
  Py.endswith_char OsPath.sep (OsPath.join2 top n) = false /\
  Py.startswith (top +:+ "/") (OsPath.join2 top n) = true.
Proof.
  intros Hne Hend Hn. rewrite (join2_entry_name top n Hne Hend Hn).
  split; [|split].
  - destruct top; [congruence|discriminate].
  - rewrite <- append_assoc. apply endswith_app_entry_name, Hn.
  - rewrite <- append_assoc. apply startswith_app.
Qed.

Lemma children_entry_name fs d n : n ∈ Os.children fs d -> entry_name n.
Proof.
  unfold Os.children. intros H. apply list_elem_of_omap in H.
  destruct H as ([k e] & _ & H). cbn [fst] in H.
  destruct (Py.startswith _ k); [|discriminate].
  destruct (String.eqb _ "" || Py.contains "/" _)%bool eqn:E; [discriminate|].
  inversion H; subst. apply orb_false_iff in E as [E1 E2].
  split; [apply String.eqb_neq, E1|exact E2].
Qed.

Lemma listdir_entry_name fs p names n :
  Os.listdir fs p = Some names -> n ∈ names -> entry_name n.
Proof.
  unfold Os.listdir. destruct (Os.realpath fs p) as [rp|]; [|discriminate].
  destruct (Os.entry_at fs rp) as [[| |]|]; try discriminate.
  intros H Hn. inversion H; subst. eapply children_entry_name, Hn.
Qed.

(** Every directory path [os.walk] yields is the top or lies below it. *)
Lemma walk_below fs depth :
  forall top item,
    top ≠ "" -> Py.endswith_char OsPath.sep top = false ->
    item ∈ Os.walk fs depth top ->
    (String.eqb item.1.1 top || Py.startswith (top +:+ "/") item.1.1)%bool = true.
Proof.
  induction depth as [|depth IH]; intros top item Hne Hend Hin.
  - cbn [Os.walk] in Hin. destruct (Os.listdir fs top); [|inversion Hin].
    apply list_elem_of_singleton in Hin as ->. cbn [fst]. rewrite String.eqb_refl.
    reflexivity.
  - cbn [Os.walk] in Hin. destruct (Os.listdir fs top) as [names|] eqn:Hls; [|inversion Hin].
    apply elem_of_cons in Hin as [->|Hin].
    { cbn [fst]. rewrite String.eqb_refl. reflexivity. }
    apply list_elem_of_In, in_flat_map in Hin. destruct Hin as (n & Hn & Hitem).
    apply list_elem_of_In, list_elem_of_filter in Hn as [_ Hn].
    pose proof (listdir_entry_name fs top names n Hls Hn) as Hname.
    destruct (join2_entry_name_shape top n Hne Hend Hname) as (H1 & H2 & H3).
    destruct (Os.islink fs (OsPath.join2 top n)); [inversion Hitem|].
    apply list_elem_of_In in Hitem.
    specialize (IH (OsPath.join2 top n) item H1 H2 Hitem).
    apply orb_true_iff in IH as [IH|IH]; apply orb_true_iff; right.
    + apply String.eqb_eq in IH. rewrite IH. exact H3.
    + apply (startswith_app_l (top +:+ "/") (n +:+ "/")).
      rewrite (join2_entry_name top n Hne Hend Hname) in IH.
      rewrite !append_assoc in *. exact IH.
Qed.

(** ** The task hook's uploads *)

Section TaskFacts.
Variable world : World.
Variable cfg : Config.
Let fs := w_fs world.

Lemma uploads_done_nil st : uploads_done fs [] st st.
Proof. unfold uploads_done. cbn [map]. rewrite app_nil_r. repeat split. Qed.

Lemma uploads_done_app a b st st1 st2 :
  uploads_done fs a st st1 -> uploads_done fs b st1 st2 -> uploads_done fs (a ++ b) st st2.
Proof.
  intros (Hc1 & Hu1 & Hr1 & Hs1) (Hc2 & Hu2 & Hr2 & Hs2). unfold uploads_done.
  rewrite Hc2, Hc1, Hu2, Hu1, Hr2, Hr1, Hs2, Hs1, map_app, app_assoc.
  unfold record_uploads. rewrite fold_left_app. repeat split.
Qed.

Lemma upload_file_plain abs_fn s3uri st :
  cached_files st = ∅ ->
  (w_run world (s3parcp_cmd abs_fn s3uri)).1 = 0 ->
  is_Some (inode fs abs_fn) ->
  exists st',
    upload_file world cfg abs_fn s3uri st = (st', inr tt) /\
    uploads_done fs [(abs_fn, s3uri)] st st'.
Proof.
  intros Hempty Hrun [id Hid].
  rewrite (upload_file_ok world cfg abs_fn s3uri id) by assumption.
  rewrite (s3cp_ok _ _ _ _ Hrun). cbn [fst]. simpl cached_files. rewrite Hempty.
  rewrite lookup_empty. unfold_m. eexists. split; [reflexivity|].
  unfold uploads_done, record_uploads. cbn. fold fs. rewrite Hid. repeat split.
Qed.

Lemma for_each_map {A B} (g : A -> B) (xs : list A) (body : B -> M unit) :
  for_each (map g xs) body = for_each xs (fun x => body (g x)).
Proof. induction xs as [|x xs IH]; [reflexivity|]. cbn [map for_each]. rewrite IH. reflexivity. Qed.

(** *** With inserts pending *)

Lemma uploads_recorded_nil st : uploads_recorded fs [] st st.
Proof. unfold uploads_recorded. cbn [map]. rewrite app_nil_r. repeat split. Qed.

Lemma uploads_recorded_app a b st st1 st2 :
  uploads_recorded fs a st st1 -> uploads_recorded fs b st1 st2 ->
  uploads_recorded fs (a ++ b) st st2.
Proof.
  intros (Hc1 & Hu1 & Hr1) (Hc2 & Hu2 & Hr2). unfold uploads_recorded.
  rewrite Hc2, Hc1, Hu2, Hu1, Hr2, Hr1, map_app, app_assoc.
  unfold record_uploads. rewrite fold_left_app. repeat split.
Qed.

Lemma registry_runs_same st st' :
  cached_files st' = cached_files st ->
  registry_runs world cfg st -> registry_runs world cfg st'.
Proof. intros Hc Hreg id entry Hentry. rewrite Hc in Hentry. exact (Hreg id entry Hentry). Qed.

Lemma unregistered_keeps st st' ups :
  cached_files st' = cached_files st ->
  unregistered world st ups -> unregistered world st' ups.
Proof. intros Hc Hun u id Hu Hid. rewrite Hc. exact (Hun u id Hu Hid). Qed.

Lemma unregistered_split st a b :
  unregistered world st (a ++ b) ->
  unregistered world st a /\ unregistered world st b.
Proof.
  intros Hun. split; intros u id Hu Hid; apply (Hun u id); try exact Hid;
    apply elem_of_app; [left|right]; exact Hu.
Qed.

(** The insert logic on an entry of a registry that runs: it returns, and
    moves neither the command lines nor the two maps. *)
Lemma cache_put_runs key outputs st :
  insert_runs world cfg (key, outputs) ->
  exists st',
    cache_put world cfg key outputs st = (st', inr tt) /\
    commands st' = commands st /\
    uploaded_files st' = uploaded_files st /\
    cached_files st' = cached_files st.
Proof.
  intros Hruns.
  destruct (cfg_call_cache_put cfg &&
            String.eqb (cfg_call_cache_backend cfg) backend_marker)%bool eqn:Hguard.
  - destruct (Hruns Hguard) as (Hex & s3prefix & bucket & objkey & Hpre & Hobj).
    cbn [fst snd] in *.
    apply andb_true_iff in Hguard as [Hput Hbk]. apply String.eqb_eq in Hbk.
    destruct (all_resolved world (uploaded_files st) outputs) eqn:Hall.
    + erewrite cache_put_resolved by eassumption.
      eexists. split; [reflexivity|]. repeat split.
    + rewrite cache_put_missing by assumption.
      eexists. split; [reflexivity|]. repeat split.
  - rewrite cache_put_guarded by exact Hguard.
    eexists. split; [reflexivity|]. repeat split.
Qed.

(** One upload when the registry runs. *)
Lemma upload_file_runs abs_fn s3uri st :
  registry_runs world cfg st ->
  (w_run world (s3parcp_cmd abs_fn s3uri)).1 = 0 ->
  is_Some (inode fs abs_fn) ->
  exists st',
    upload_file world cfg abs_fn s3uri st = (st', inr tt) /\
    uploads_recorded fs [(abs_fn, s3uri)] st st' /\
    (unregistered world st [(abs_fn, s3uri)] -> s3_calls st' = s3_calls st).
Proof.
  intros Hreg Hrun [id Hid].
  rewrite (upload_file_ok world cfg abs_fn s3uri id) by assumption.
  rewrite (s3cp_ok _ _ _ _ Hrun). cbn [fst]. simpl cached_files.
  destruct (cached_files st !! id) as [[key outputs]|] eqn:Hentry.
  2:{ unfold_m. eexists. split; [reflexivity|]. split; [|intros _; reflexivity].
      unfold uploads_recorded, record_uploads. cbn. fold fs. rewrite Hid. repeat split. }
  unfold_m.
  match goal with
  | |- context [cache_put world cfg key outputs ?s] =>
      destruct (cache_put_runs key outputs s (Hreg id (key, outputs) Hentry))
        as (st2 & Hcp & Hc & Hu & Hr); rewrite Hcp
  end.
  eexists. split; [reflexivity|]. split.
  - unfold uploads_recorded, record_uploads. cbn. fold fs.
    rewrite Hid, Hc, Hu, Hr. repeat split.
  - intros Hun. rewrite (Hun (abs_fn, s3uri) id) in Hentry;
      [discriminate|left|exact Hid].
Qed.

Lemma run_uploads_runs ups :
  forall st,
    registry_runs world cfg st -> uploads_ok world ups ->
    exists st',
      run_uploads world cfg ups st = (st', inr tt) /\
      uploads_recorded fs ups st st' /\
      (unregistered world st ups -> s3_calls st' = s3_calls st).
Proof.
  induction ups as [|u ups IH]; intros st Hreg Hok.
  - exists st. split; [reflexivity|]. split; [apply uploads_recorded_nil|reflexivity].
  - destruct (Hok u) as [Hrun Hid]; [left|].
    destruct (upload_file_runs u.1 u.2 st Hreg Hrun Hid) as (st1 & Hup & Hdone1 & Hs1).
    pose proof Hdone1 as (_ & _ & Hr1).
    destruct (IH st1) as (st' & Hrest & Hdone & Hs).
    { exact (registry_runs_same st st1 Hr1 Hreg). }
    { intros v Hv. apply Hok. right. exact Hv. }
    exists st'. split; [|split].
    + unfold run_uploads in *. cbn [for_each]. unfold_m. rewrite Hup. exact Hrest.
    + replace u with (u.1, u.2) at 1 by (destruct u; reflexivity).
      apply (uploads_recorded_app [(u.1, u.2)] ups st st1 st'); assumption.
    + intros Hun. rewrite Hs, Hs1; [reflexivity| |].
      * intros v id Hv Hi. apply list_elem_of_singleton in Hv. subst v.
        apply (Hun u id); [left|exact Hi].
      * apply (unregistered_keeps st st1 _ Hr1).
        intros v id Hv Hi. apply (Hun v id); [right; exact Hv|exact Hi].
Qed.


(** *** What a run that returns has done *)

Lemma s3cp_returns fn s3uri st st' :
  s3cp world fn s3uri st = (st', inr tt) ->
  (w_run world (s3parcp_cmd fn s3uri)).1 = 0.
Proof.
  unfold s3cp, s3parcp_cmd. unfold_m. simpl.
  destruct ((w_run world ["s3parcp"; fn; s3uri]).1 =? 0) eqn:E;
    [intros _; apply Z.eqb_eq, E|].
  simpl. destruct (Py.decode_utf8 _); discriminate.
Qed.

Lemma cache_put_commands key outputs st :
  commands (cache_put world cfg key outputs st).1 = commands st.
Proof.
  unfold cache_put.
  destruct (negb _); [reflexivity|].
  unfold_m. simpl.
  destruct (rewrite_env_paths _ outputs false) as [[|] [e|r]]; simpl; try reflexivity.
  destruct (get_s3_put_prefix cfg) as [e|s3prefix]; simpl; [reflexivity|].
  destruct (s3_object _) as [e|[b k]]; simpl; [reflexivity|].
  unfold flag_temporary. destruct (urlparse _). reflexivity.
Qed.

(** An upload that returns has run its command line and recorded the file,
    whatever the registry holds. *)
Lemma upload_file_returns abs_fn s3uri st st' :
  upload_file world cfg abs_fn s3uri st = (st', inr tt) ->
  uploads_recorded fs [(abs_fn, s3uri)] st st'.
Proof.
  intros H.
  destruct (s3cp world abs_fn s3uri st) as [st0 res] eqn:Hcp.
  assert (Hres : res = inr tt).
  { unfold upload_file in H. unfold_m. rewrite Hcp in H.
    destruct res as [e|[]]; [discriminate|reflexivity]. }
  subst res. pose proof (s3cp_returns _ _ _ _ Hcp) as Hrun.
  destruct (inode fs abs_fn) as [id|] eqn:Hid.
  2:{ unfold upload_file in H. unfold_m. rewrite Hcp in H. fold fs in H. rewrite Hid in H.
      discriminate. }
  rewrite (upload_file_ok world cfg abs_fn s3uri id st Hrun Hid) in H.
  rewrite (s3cp_ok _ _ _ _ Hrun) in H. cbn [fst] in H. simpl cached_files in H.
  unfold uploads_recorded, record_uploads. cbn [fold_left map fst snd]. fold fs. rewrite Hid.
  destruct (cached_files st !! id) as [[key outputs]|].
  - unfold_m.
    match type of H with
    | context [cache_put world cfg key outputs ?s] =>
        pose proof (cache_put_maps world cfg key outputs s) as [Hu Hr];
        pose proof (cache_put_commands key outputs s) as Hc;
        destruct (cache_put world cfg key outputs s) as [st2 [e|[]]]
    end; [discriminate|].
    inversion H; subst st'. simpl in *. rewrite Hc, Hu, Hr. repeat split.
  - unfold_m. inversion H; subst st'. repeat split.
Qed.

Lemma run_uploads_returns ups :
  forall st st',
    run_uploads world cfg ups st = (st', inr tt) -> uploads_recorded fs ups st st'.
Proof.
  induction ups as [|u ups IH]; intros st st' H.
  - inversion H; subst. apply uploads_recorded_nil.
  - unfold run_uploads in H. cbn [for_each] in H. unfold_m.
    destruct (upload_file world cfg u.1 u.2 st) as [st1 [e|[]]] eqn:Hup; [discriminate|].
    replace u with (u.1, u.2) at 1 by (destruct u; reflexivity).
    apply (uploads_recorded_app [(u.1, u.2)] ups st st1 st').
    + exact (upload_file_returns _ _ _ _ Hup).
    + apply IH. exact H.
Qed.



End TaskFacts.

Lemma join2_ends_with_name top n :
  entry_name n ->
  OsPath.join2 top n ≠ "" /\ Py.endswith_char OsPath.sep (OsPath.join2 top n) = false.
Proof.
  intros Hn. unfold OsPath.join2. rewrite (entry_name_no_leading_slash n Hn).
  assert (Hne : forall p, p +:+ n ≠ "").
  { intros p. destruct p; [rewrite append_nil_l; apply Hn|discriminate]. }
  destruct (String.eqb top "" || Py.endswith_char OsPath.sep top)%bool.
  - split; [apply Hne|apply endswith_app_entry_name, Hn].
  - rewrite <- append_assoc. split; [apply Hne|apply endswith_app_entry_name, Hn].
Qed.


(** [uploads_ok] by running the copy tool and [inode] on each upload. *)
Lemma uploads_ok_check world ups :
  forallb (fun u : string * string =>
             ((w_run world (s3parcp_cmd u.1 u.2)).1 =? 0) &&
             bool_decide (is_Some (inode (w_fs world) u.1))) ups = true ->
  uploads_ok world ups.
Proof.
  intros H u Hu. rewrite forallb_forall in H.
  specialize (H u (proj1 (list_elem_of_In _ _) Hu)).
  apply andb_true_iff in H as [H1 H2]. split; [apply Z.eqb_eq, H1|].
  apply bool_decide_eq_true_1 in H2. exact H2.
Qed.

(** [unregistered] by a look at the registry for each upload. *)
Lemma unregistered_by_lookup world st ups :
  forallb (fun u : string * string =>
             match inode (w_fs world) u.1 with
             | Some id => match cached_files st !! id with None => true | Some _ => false end
             | None => true
             end) ups = true ->
  unregistered world st ups.
Proof.
  intros H u id Hu Hid. rewrite forallb_forall in H.
  specialize (H u (proj1 (list_elem_of_In _ _) Hu)). rewrite Hid in H.
  destruct (cached_files st !! id); [discriminate|reflexivity].
Qed.

(** The registry of [pending_x] runs: its one entry is the insert of
    [Sample.x_outputs] under the key [k]. *)
Lemma pending_x_runs : registry_runs Sample.world Sample.cfg pending_x.
Proof.
  assert (Hmap : cached_files pending_x = {[ (1, 15) := ("k", Sample.x_outputs) ]})
    by (vm_compute; reflexivity).
  intros id entry H. rewrite Hmap in H. apply lookup_singleton_Some in H as [_ <-].
  intros _. split; [apply paths_exist_check; vm_compute; reflexivity|].
  exists "s3://bucket/pre", "bucket", "pre/cache/k.json". split; vm_compute; reflexivity.
Qed.


(** The whole task hook on the sample run directory: a directory output
    ([bam]), an array output ([reads]) and a file output ([single]). *)
Lemma task_sample_destinations :
  let r := task Sample.world Sample.cfg ["wf"; "call-align"] "/run" initial_state in
  r.2 = inr tt /\
  commands r.1 =
    [["s3parcp"; "/run/out/bam/alignments/a.bam"; "s3://bucket/pre/alignments/a.bam"];
     ["s3parcp"; "/run/out/bam/alignments/b.bam"; "s3://bucket/pre/alignments/b.bam"];
     ["s3parcp"; "/run/out/reads/0/r1.fq"; "s3://bucket/pre/r1.fq"];
     ["s3parcp"; "/run/out/reads/1/r2.fq"; "s3://bucket/pre/r2.fq"];
     ["s3parcp"; "/run/out/single/x.txt"; "s3://bucket/pre/x.txt"]] /\
  uploaded_files r.1 !! (1, 6) = Some "s3://bucket/pre/alignments/" /\
  uploaded_files r.1 !! (1, 7) = Some "s3://bucket/pre/alignments/a.bam" /\
  uploaded_files r.1 !! (1, 8) = Some "s3://bucket/pre/alignments/b.bam" /\
  uploaded_files r.1 !! (1, 12) = Some "s3://bucket/pre/r1.fq" /\
  uploaded_files r.1 !! (1, 13) = Some "s3://bucket/pre/r2.fq" /\
  uploaded_files r.1 !! (1, 15) = Some "s3://bucket/pre/x.txt" /\
  size (uploaded_files r.1) = 6%nat.
Proof. vm_compute. repeat split. Qed.

(** An array output on the sample run directory, by evaluation. *)
Lemma array_sample_destinations :
  exists st',
    task_output Sample.world Sample.cfg "s3://bucket/pre" "/run/out" "reads" initial_state
      = (st', inr tt) /\
    uploads_done Sample.fs
      [("/run/out/reads/0/r1.fq", "s3://bucket/pre/r1.fq");
       ("/run/out/reads/1/r2.fq", "s3://bucket/pre/r2.fq")]
      initial_state st'.
Proof.
  eexists. split; [vm_compute; reflexivity|].
  unfold uploads_done. vm_compute. repeat split.
Qed.

(** * Further properties *)

(** ** What the insert logic can send *)

Section PublicationFacts.
Variable world : World.
Variable cfg : Config.

Lemma run_cache_put_cache_stays_missing uploaded ps :
  (run_paths (cache_put_cache world uploaded) ps true).1 = true.
Proof.
  induction ps as [|p ps IH]; [reflexivity|].
  cbn [run_paths cache_put_cache].
  destruct (run_paths (cache_put_cache world uploaded) ps true) as [m [e|qs]];
    simpl in *; exact IH.
Qed.

Lemma run_cache_put_cache_complete uploaded ps :
  outcome (run_paths (cache_put_cache world uploaded) ps false) = (false, None) ->
  forallb (resolved world uploaded) ps = true.
Proof.
  induction ps as [|p ps IH]; intros H; [reflexivity|].
  cbn [run_paths forallb] in *. unfold cache_put_cache at 1 in H. unfold resolved at 1.
  destruct (inode (w_fs world) p) as [id|]; [|discriminate].
  destruct (uploaded !! id) as [uri|] eqn:Hup.
  - rewrite bool_decide_eq_true_2 by eauto. cbn [andb]. apply IH.
    destruct (run_paths _ ps false) as [m [e|qs]]; exact H.
  - pose proof (run_cache_put_cache_stays_missing uploaded ps) as Ht.
    destruct (run_paths _ ps true) as [m [e|qs]]; unfold outcome in H; simpl in *;
      congruence.
Qed.

(** The callback of [cache_put] ends with [missing] unset only when every
    value was found in the ledger, and then the bindings it returns are the
    outputs with each path replaced by its ledger URI. *)
Lemma rewrite_cache_put_cache_complete uploaded outputs remapped :
  rewrite_env_paths (cache_put_cache world uploaded) outputs false = (false, inr remapped) ->
  all_resolved world uploaded outputs = true /\
  remapped = map_env_paths (resolve_uri world uploaded) outputs.
Proof.
  intros H.
  assert (Hall : all_resolved world uploaded outputs = true).
  { apply run_cache_put_cache_complete. rewrite <- outcome_rewrite_env_paths, H.
    reflexivity. }
  split; [exact Hall|].
  rewrite (rewrite_env_paths_pure _ (resolve_uri world uploaded)) in H.
  - inversion H. reflexivity.
  - intros p Hp. apply cache_put_cache_resolved.
    unfold all_resolved in Hall. rewrite forallb_forall in Hall.
    apply Hall, list_elem_of_In, Hp.
Qed.

(** X1: whatever the configuration, the ledger and the bindings, one run of
    the insert logic either sends nothing to S3 or sends exactly one
    manifest, followed by nothing but the temporary tag.  It sends the manifest
    only with cache writes enabled, the progressive-upload backend configured
    and every file and directory value of the bindings in the ledger; the
    manifest is the bindings with each such value replaced by the URI the
    ledger records for it. *)
Theorem cache_put_sends_only_complete_manifests key outputs st :
  let r := cache_put world cfg key outputs st in
  s3_calls r.1 = s3_calls st \/
  exists s3prefix bucket objkey tagging,
    cfg_call_cache_put cfg = true /\
    cfg_call_cache_backend cfg = backend_marker /\
    get_s3_put_prefix cfg = inr s3prefix /\
    s3_object (OsPath.join s3prefix ["cache"; key +:+ ".json"]) = inr (bucket, objkey) /\
    (forall p, p ∈ env_paths outputs ->
       exists id, inode (w_fs world) p = Some id /\
                  uploaded_files st !! id = Some (resolve_uri world (uploaded_files st) p)) /\
    s3_calls r.1 = s3_calls st ++
      PutObject bucket objkey
        (map_env_paths (resolve_uri world (uploaded_files st)) outputs) :: tagging /\
    (forall c, c ∈ tagging ->
       exists b k, c = PutObjectTagging b k "swipe_temporary" "true").
Proof.
  intros r. subst r.
  destruct (cfg_call_cache_put cfg &&
            String.eqb (cfg_call_cache_backend cfg) backend_marker)%bool eqn:Hguard.
  2:{ left. rewrite cache_put_guarded by exact Hguard. reflexivity. }
  apply andb_true_iff in Hguard as [Hput Hbk]. apply String.eqb_eq in Hbk.
  destruct (rewrite_env_paths (cache_put_cache world (uploaded_files st)) outputs false)
    as [[|] [e|remapped]] eqn:Hrw;
    try (left; unfold cache_put; rewrite Hput, Hbk; simpl; unfold_m; simpl; rewrite Hrw;
         reflexivity).
  destruct (rewrite_cache_put_cache_complete _ _ _ Hrw) as [Hall _].
  destruct (get_s3_put_prefix cfg) as [e|s3prefix] eqn:Hpre.
  { left. unfold cache_put. rewrite Hput, Hbk. simpl. unfold_m. simpl. rewrite Hrw, Hpre.
    reflexivity. }
  destruct (s3_object (OsPath.join s3prefix ["cache"; key +:+ ".json"]))
    as [e|[bucket objkey]] eqn:Hobj.
  { left. unfold cache_put. rewrite Hput, Hbk. simpl. unfold_m. simpl.
    rewrite Hrw, Hpre. simpl. rewrite Hobj. reflexivity. }
  right.
  exists s3prefix, bucket, objkey, [PutObjectTagging bucket objkey "swipe_temporary" "true"].
  rewrite (cache_put_resolved world cfg key outputs st s3prefix bucket objkey)
    by assumption.
  split; [exact Hput|]. split; [exact Hbk|]. split; [reflexivity|].
  split; [exact Hobj|]. split; [|split].
  - intros p Hp. unfold all_resolved in Hall. rewrite forallb_forall in Hall.
    specialize (Hall p (proj1 (list_elem_of_In _ _) Hp)).
    unfold resolved in Hall. unfold resolve_uri.
    destruct (inode (w_fs world) p) as [id|]; [|discriminate].
    apply bool_decide_eq_true_1 in Hall. destruct Hall as [uri Huri].
    exists id. split; [reflexivity|]. simpl. rewrite Huri. reflexivity.
  - simpl. rewrite <- app_assoc. reflexivity.
  - intros c Hc. apply list_elem_of_singleton in Hc. eauto.
Qed.

(** X2: a cache key that starts with a slash cannot be inserted: with both
    guards passed, a valid prefix and every value in the ledger,
    [os.path.join] drops the prefix in favour of the absolute last component,
    the assertion of [s3_object] fails, and nothing is sent or changed. *)
Theorem cache_put_key_leading_slash key outputs st s3prefix :
  cfg_call_cache_put cfg = true ->
  cfg_call_cache_backend cfg = backend_marker ->
  get_s3_put_prefix cfg = inr s3prefix ->
  all_resolved world (uploaded_files st) outputs = true ->
  Py.startswith "/" key = true ->
  OsPath.join s3prefix ["cache"; key +:+ ".json"] = key +:+ ".json" /\
  cache_put world cfg key outputs st = (st, inl (AssertionError "")).
Proof.
  intros Hput Hbk Hpre Hall Hkey.
  destruct key as [|a key]; [discriminate|].
  cbn [Py.startswith] in Hkey.
  destruct (Ascii.eqb "/" a) eqn:Ha; [|discriminate].
  apply Ascii.eqb_eq in Ha. subst a.
  assert (Hjoin : OsPath.join s3prefix ["cache"; String "/" key +:+ ".json"]
                  = String "/" key +:+ ".json").
  { unfold OsPath.join. cbn [fold_left]. unfold OsPath.join2 at 1.
    rewrite append_cons. reflexivity. }
  split; [exact Hjoin|].
  unfold cache_put. rewrite Hput, Hbk. simpl. unfold_m. simpl.
  rewrite (rewrite_env_paths_pure _ (resolve_uri world (uploaded_files st))).
  2:{ intros p Hp. apply cache_put_cache_resolved.
      unfold all_resolved in Hall. rewrite forallb_forall in Hall.
      apply Hall, list_elem_of_In, Hp. }
  rewrite Hpre. simpl. reflexivity.
Qed.
End PublicationFacts.

Lemma cache_put_key_leading_slash_witness :
  cfg_call_cache_put Sample.cfg = true /\
  cfg_call_cache_backend Sample.cfg = backend_marker /\
  get_s3_put_prefix Sample.cfg = inr "s3://bucket/pre" /\
  all_resolved Sample.world (uploaded_files uploaded_x) Sample.x_outputs = true /\
  Py.startswith "/" "/abs" = true /\
  OsPath.join "s3://bucket/pre" ["cache"; "/abs" +:+ ".json"] = "/abs" +:+ ".json" /\
  cache_put Sample.world Sample.cfg "/abs" Sample.x_outputs uploaded_x
    = (uploaded_x, inl (AssertionError "")).
Proof.
  assert (H1 : cfg_call_cache_put Sample.cfg = true) by reflexivity.
  assert (H2 : cfg_call_cache_backend Sample.cfg = backend_marker) by reflexivity.
  assert (H3 : get_s3_put_prefix Sample.cfg = inr "s3://bucket/pre") by reflexivity.
  assert (H4 : all_resolved Sample.world (uploaded_files uploaded_x) Sample.x_outputs = true)
    by (vm_compute; reflexivity).
  assert (H5 : Py.startswith "/" "/abs" = true) by reflexivity.
  split; [exact H1|]. split; [exact H2|]. split; [exact H3|]. split; [exact H4|].
  split; [exact H5|].
  exact (cache_put_key_leading_slash Sample.world Sample.cfg "/abs" Sample.x_outputs
           uploaded_x "s3://bucket/pre" H1 H2 H3 H4 H5).
Defined.

(** ** Where insert and lookup find the manifest *)

Lemma no_slash_head a b : Py.contains "/" (String a b) = false ->
  Ascii.eqb a OsPath.sep = false /\ Py.contains "/" b = false.
Proof.
  intros H. cbn [Py.contains Py.startswith] in H. apply orb_false_iff in H as [H1 H2].
  split; [|exact H2]. rewrite Ascii.eqb_sym. unfold OsPath.sep.
  destruct (Ascii.eqb "/" a); [discriminate|reflexivity].
Qed.

Lemma split_max_zero c s : Py.split_max c s 0 = [s].
Proof. destruct s; reflexivity. Qed.

Lemma split_max_one b rest :
  Py.contains "/" b = false ->
  Py.split_max OsPath.sep (b +:+ "/" +:+ rest) 1 = [b; rest].
Proof.
  induction b as [|a b IH]; intros H.
  - rewrite append_nil_l, append_cons, append_nil_l.
    cbn [Py.split_max Ascii.eqb Bool.eqb OsPath.sep]. rewrite split_max_zero. reflexivity.
  - destruct (no_slash_head a b H) as [Ha Hb].
    rewrite append_cons. cbn [Py.split_max]. rewrite Ha, (IH Hb). reflexivity.
Qed.

Lemma split_max_one_whole b :
  Py.contains "/" b = false -> Py.split_max OsPath.sep b 1 = [b].
Proof.
  induction b as [|a b IH]; intros H; [reflexivity|].
  destruct (no_slash_head a b H) as [Ha Hb].
  cbn [Py.split_max]. rewrite Ha, (IH Hb). reflexivity.
Qed.

Lemma split_max_s3 x :
  Py.split_max OsPath.sep ("s3://" +:+ x) 3 = "s3:" :: "" :: Py.split_max OsPath.sep x 1.
Proof.
  rewrite !append_cons, append_nil_l.
  cbn [Py.split_max Ascii.eqb Bool.eqb OsPath.sep].
  destruct (Py.split_max "/" x 1); reflexivity.
Qed.

Lemma endswith_app_nonempty c p s :
  s ≠ "" -> Py.endswith_char c (p +:+ s) = Py.endswith_char c s.
Proof.
  intros Hs. induction p as [|a p IH]; [reflexivity|].
  rewrite append_cons.
  destruct (p +:+ s) as [|b r] eqn:E.
  - destruct p; [rewrite append_nil_l in E; congruence|discriminate].
  - change (Py.endswith_char c (String a (String b r)))
      with (Py.endswith_char c (String b r)).
    exact IH.
Qed.

Lemma eqb_app_nonempty p s : s ≠ "" -> String.eqb (p +:+ s) "" = false.
Proof.
  intros Hs. apply String.eqb_neq. destruct p; [rewrite append_nil_l; exact Hs|discriminate].
Qed.

(** Joining below [p +:+ s] only looks at [s], as long as [s] is not empty
    and the component is relative. *)
Lemma join2_app_l p s x :
  s ≠ "" -> Py.startswith "/" x = false ->
  OsPath.join2 (p +:+ s) x = p +:+ OsPath.join2 s x.
Proof.
  intros Hs Hx. unfold OsPath.join2. rewrite Hx.
  rewrite (endswith_app_nonempty _ p s Hs), (eqb_app_nonempty p s Hs).
  replace (String.eqb s "") with false
    by (symmetry; apply String.eqb_neq; exact Hs).
  cbn [orb]. destruct (Py.endswith_char OsPath.sep s); rewrite ?append_assoc; reflexivity.
Qed.

Lemma join2_absolute s x :
  Py.startswith "/" s = true -> Py.startswith "/" x = false ->
  OsPath.join2 s x ≠ "" /\ Py.startswith "/" (OsPath.join2 s x) = true.
Proof.
  intros Hs Hx. unfold OsPath.join2. rewrite Hx.
  destruct s as [|a s]; [discriminate|].
  destruct (String.eqb (String a s) "" || Py.endswith_char OsPath.sep (String a s))%bool;
    rewrite append_cons; (split; [discriminate|exact Hs]).
Qed.

Lemma startswith_json key :
  Py.startswith "/" key = false -> Py.startswith "/" (key +:+ ".json") = false.
Proof. destruct key; intros H; [reflexivity|exact H]. Qed.

Lemma absolute_tail s : Py.startswith "/" s = true -> s = "/" +:+ Py.tail s.
Proof.
  destruct s as [|a s]; [discriminate|]. cbn [Py.startswith].
  destruct (Ascii.eqb "/" a) eqn:E; [|discriminate]. apply Ascii.eqb_eq in E. subst a.
  reflexivity.
Qed.

(** The manifest URI under a prefix with a path: the bucket, and as object
    key the key a lookup under the same prefix downloads. *)
Lemma manifest_object_with_path bucket path key :
  Py.contains "/" bucket = false ->
  Py.startswith "/" key = false ->
  let s3prefix := "s3://" +:+ bucket +:+ "/" +:+ path in
  urlparse s3prefix = (bucket, "/" +:+ path) /\
  s3_object (OsPath.join s3prefix ["cache"; key +:+ ".json"])
  = inr (bucket, remote_cache_key s3prefix key).
Proof.
  intros Hb Hk s3prefix.
  assert (Hurl : urlparse s3prefix = (bucket, "/" +:+ path)).
  { unfold urlparse, s3prefix. rewrite split_max_s3, (split_max_one bucket path Hb).
    reflexivity. }
  split; [exact Hurl|].
  unfold remote_cache_key. rewrite Hurl. cbn [snd].
  set (J := OsPath.join ("/" +:+ path) ["cache"; key +:+ ".json"]).
  assert (Hs : "/" +:+ path ≠ "") by discriminate.
  destruct (join2_absolute ("/" +:+ path) "cache" eq_refl eq_refl) as [Hne1 Habs1].
  destruct (join2_absolute _ (key +:+ ".json") Habs1 (startswith_json key Hk))
    as [_ HabsJ].
  fold (OsPath.join ("/" +:+ path) ["cache"; key +:+ ".json"]) in HabsJ. fold J in HabsJ.
  assert (Huri : OsPath.join s3prefix ["cache"; key +:+ ".json"]
                 = "s3://" +:+ bucket +:+ "/" +:+ Py.tail J).
  { unfold s3prefix. rewrite <- (absolute_tail J HabsJ).
    replace ("s3://" +:+ bucket +:+ "/" +:+ path)
      with (("s3://" +:+ bucket) +:+ ("/" +:+ path)) by apply append_assoc.
    unfold OsPath.join. cbn [fold_left].
    rewrite (join2_app_l _ _ "cache" Hs eq_refl).
    rewrite (join2_app_l _ _ (key +:+ ".json") Hne1 (startswith_json key Hk)).
    rewrite append_assoc. reflexivity. }
  rewrite Huri. unfold s3_object. rewrite startswith_app.
  rewrite split_max_s3, (split_max_one bucket _ Hb). reflexivity.
Qed.

(** The same under a prefix that is only a bucket. *)
Lemma manifest_object_bucket_only bucket key :
  entry_name bucket ->
  Py.startswith "/" key = false ->
  let s3prefix := "s3://" +:+ bucket in
  urlparse s3prefix = (bucket, "") /\
  s3_object (OsPath.join s3prefix ["cache"; key +:+ ".json"])
  = inr (bucket, "cache/" +:+ key +:+ ".json") /\
  remote_cache_key s3prefix key = "ache/" +:+ key +:+ ".json".
Proof.
  intros Hb Hk s3prefix. destruct Hb as [Hbne Hbs].
  assert (Hurl : urlparse s3prefix = (bucket, "")).
  { unfold urlparse, s3prefix. rewrite split_max_s3, (split_max_one_whole bucket Hbs).
    reflexivity. }
  split; [exact Hurl|]. split.
  - assert (Huri : OsPath.join s3prefix ["cache"; key +:+ ".json"]
                   = "s3://" +:+ bucket +:+ "/" +:+ "cache/" +:+ key +:+ ".json").
    { unfold OsPath.join, s3prefix. cbn [fold_left].
      rewrite (join2_app_l "s3://" bucket "cache" Hbne eq_refl).
      rewrite (join2_entry_name bucket "cache" Hbne
                 (endswith_entry_name bucket (conj Hbne Hbs)))
        by (split; [discriminate|reflexivity]).
      replace ("s3://" +:+ bucket +:+ "/" +:+ "cache")
        with (("s3://" +:+ bucket +:+ "/") +:+ "cache")
        by (rewrite !append_assoc; reflexivity).
      rewrite (join2_app_l _ "cache" (key +:+ ".json")) by
        (try discriminate; apply startswith_json, Hk).
      unfold OsPath.join2 at 1. rewrite (startswith_json key Hk).
      cbn [String.eqb orb Py.endswith_char Ascii.eqb Bool.eqb OsPath.sep].
      rewrite !append_assoc. reflexivity. }
    rewrite Huri. unfold s3_object. rewrite startswith_app.
    rewrite split_max_s3, (split_max_one bucket _ Hbs). reflexivity.
  - unfold remote_cache_key. rewrite Hurl. cbn [snd].
    unfold OsPath.join. cbn [fold_left].
    unfold OsPath.join2. rewrite (startswith_json key Hk).
    cbn [Py.startswith String.eqb orb Py.endswith_char Ascii.eqb Bool.eqb OsPath.sep].
    rewrite !append_cons, append_nil_l. reflexivity.
Qed.

Lemma put_prefix_valid cfg x :
  cfg_uri_prefix cfg = Some ("s3://" +:+ x) -> get_s3_put_prefix cfg = inr ("s3://" +:+ x).
Proof. intros H. unfold get_s3_put_prefix. rewrite H, startswith_app. reflexivity. Qed.

Lemma get_prefix_defaults cfg :
  cfg_call_cache_get_uri_prefix cfg = None -> get_s3_get_prefix cfg = get_s3_put_prefix cfg.
Proof. intros H. unfold get_s3_get_prefix. rewrite H. reflexivity. Qed.

Lemma host_char_no_slash a : host_char a = true -> Ascii.eqb "/" a = false.
Proof.
  destruct a as [[] [] [] [] [] [] [] []]; intros H; first [reflexivity|discriminate H].
Qed.

(** A host name is not empty and has no slash. *)
Lemma host_name_entry_name bucket : host_name bucket = true -> entry_name bucket.
Proof.
  unfold host_name. intros H. apply andb_true_iff in H as [Hne Hall].
  split; [intros ->; discriminate Hne|]. clear Hne.
  induction bucket as [|a b IH]; [reflexivity|].
  cbn [Py.all_chars] in Hall. apply andb_true_iff in Hall as [Ha Hb].
  cbn [Py.contains Py.startswith]. rewrite (host_char_no_slash a Ha). exact (IH Hb).
Qed.

Lemma join2_plain top b :
  top ≠ "" -> Py.endswith_char OsPath.sep top = false -> Py.startswith "/" b = false ->
  OsPath.join2 top b = top +:+ "/" +:+ b.
Proof.
  intros Hne Hend Hb. unfold OsPath.join2. rewrite Hb, Hend.
  destruct top; [congruence|]. reflexivity.
Qed.

(** The rebound key under a prefix with a path. *)
Lemma remote_cache_key_with_path bucket path key :
  host_name bucket = true ->
  path ≠ "" -> Py.endswith_char OsPath.sep path = false ->
  Py.startswith "/" key = false ->
  remote_cache_key ("s3://" +:+ bucket +:+ "/" +:+ path) key
  = path +:+ "/cache/" +:+ key +:+ ".json".
Proof.
  intros Hhost Hne Hend Hk.
  destruct (host_name_entry_name bucket Hhost) as [_ Hb].
  destruct (manifest_object_with_path bucket path key Hb Hk) as [Hurl _].
  unfold remote_cache_key. rewrite Hurl. cbn [snd]. unfold OsPath.join. cbn [fold_left].
  assert (H1 : OsPath.join2 ("/" +:+ path) "cache" = "/" +:+ path +:+ "/cache").
  { rewrite join2_plain; [|discriminate| |reflexivity].
    - rewrite append_assoc. reflexivity.
    - rewrite (endswith_app_nonempty _ "/" path Hne). exact Hend. }
  rewrite H1.
  rewrite join2_plain.
  - change ("/" +:+ path +:+ "/cache") with (String "/" (path +:+ "/cache")).
    rewrite append_cons. cbn [Py.tail]. rewrite append_assoc. reflexivity.
  - discriminate.
  - replace ("/" +:+ path +:+ "/cache") with (("/" +:+ path) +:+ "/cache")
      by apply append_assoc.
    rewrite endswith_app_nonempty by discriminate. reflexivity.
  - apply startswith_json, Hk.
Qed.

(** C6, amended: when the pre-fetch does not raise, the lookup answers what
    the local store's own lookup answers for the key rebound to the remote
    object key (the key of the object the pre-fetch asks for), with the inputs
    and output types it was called with.  Under a get-prefix
    [s3://<bucket>/<path>] of plain URI text the rebound key is
    [<path>/cache/<key>.json].  Before the local lookup the remote tier has at
    most written the downloaded manifest into the local store, at
    [<dir>/<rebound key>.json]; the ledger, the registry and S3 are
    untouched. *)
Theorem CallCache_get_delegates world cfg key inputs output_types st s3prefix :
  get_s3_get_prefix cfg = inr s3prefix ->
  (w_download world (urlparse s3prefix).1 (remote_cache_key s3prefix key)
     = DownloadClientError "404" \/
   exists body, w_download world (urlparse s3prefix).1 (remote_cache_key s3prefix key)
                = Downloaded body) ->
  let r := CallCache_get world cfg key inputs output_types st in
  r.2 = inr (w_super_get world (files r.1) (remote_cache_key s3prefix key)
               inputs output_types) /\
  files r.1 =
    match w_download world (urlparse s3prefix).1 (remote_cache_key s3prefix key) with
    | Downloaded body => <[local_manifest_path cfg s3prefix key := Blob body]> (files st)
    | _ => files st
    end /\
  uploaded_files r.1 = uploaded_files st /\
  cached_files r.1 = cached_files st /\
  s3_calls r.1 = s3_calls st /\
  (forall bucket path,
     s3prefix = "s3://" +:+ bucket +:+ "/" +:+ path ->
     host_name bucket = true -> url_text path = true ->
     path ≠ "" -> Py.endswith_char OsPath.sep path = false ->
     Py.startswith "/" key = false ->
     remote_cache_key s3prefix key = path +:+ "/cache/" +:+ key +:+ ".json").
Proof.
  intros Hpre Hdl r. subst r. rewrite (CallCache_get_cases _ _ _ _ _ _ _ Hpre).
  split; [|split; [|split; [|split; [|split]]]].
  1-5: destruct Hdl as [Hdl|[body Hdl]]; rewrite Hdl; reflexivity.
  intros bucket path -> Hhost _ Hne Hend Hk.
  exact (remote_cache_key_with_path bucket path key Hhost Hne Hend Hk).
Qed.

Lemma CallCache_get_delegates_witness :
  get_s3_get_prefix Sample.cfg = inr "s3://bucket/pre" /\
  w_download Sample.world "bucket" "pre/cache/k.json" = DownloadClientError "404" /\
  let r := CallCache_get Sample.world Sample.cfg "k" [] [] local_hit_state in
  remote_cache_key "s3://bucket/pre" "k" = "pre/cache/k.json" /\
  r.2 = inr (w_super_get Sample.world (files r.1) "pre/cache/k.json" [] []) /\
  r.2 = inr (Some Sample.x_outputs) /\
  files r.1 = files local_hit_state /\
  s3_calls r.1 = s3_calls local_hit_state.
Proof.
  assert (H1 : get_s3_get_prefix Sample.cfg = inr "s3://bucket/pre") by reflexivity.
  split; [exact H1|]. split; [reflexivity|].
  destruct (CallCache_get_delegates Sample.world Sample.cfg "k" [] [] local_hit_state
              "s3://bucket/pre" H1) as (Hr & Hf & _ & _ & Hs & Hpath);
    [left; reflexivity|].
  assert (Hk : remote_cache_key "s3://bucket/pre" "k" = "pre/cache/k.json").
  { apply (Hpath "bucket" "pre"); first [reflexivity|discriminate]. }
  rewrite Hk in Hr. split; [exact Hk|]. split; [exact Hr|].
  split; [rewrite Hr; vm_compute; reflexivity|]. split; [exact Hf|exact Hs].
Defined.

(** X3: insert and lookup meet at one object.  With a put-prefix
    [s3://<bucket>/<path>] of plain URI text, no separate get-prefix and a key
    that does not start with a slash, a complete insert writes the manifest
    to the object [<bucket>, <path>/cache/<key>.json], tags that object, and a
    lookup of the same key downloads exactly that object before it asks the
    local store. *)
Theorem insert_and_lookup_same_object
    world cfg bucket path key outputs inputs output_types st st2 :
  host_name bucket = true ->
  url_text path = true ->
  url_text key = true ->
  Py.startswith "/" key = false ->
  let s3prefix := "s3://" +:+ bucket +:+ "/" +:+ path in
  cfg_uri_prefix cfg = Some s3prefix ->
  cfg_call_cache_get_uri_prefix cfg = None ->
  cfg_call_cache_put cfg = true ->
  cfg_call_cache_backend cfg = backend_marker ->
  all_resolved world (uploaded_files st) outputs = true ->
  let objkey := remote_cache_key s3prefix key in
  s3_calls (cache_put world cfg key outputs st).1 = s3_calls st ++
    [PutObject bucket objkey
       (map_env_paths (resolve_uri world (uploaded_files st)) outputs);
     PutObjectTagging bucket objkey "swipe_temporary" "true"] /\
  CallCache_get world cfg key inputs output_types st2 =
    lookup_after_download world cfg s3prefix key bucket objkey inputs output_types st2.
Proof.
  intros Hhost _ _ Hk s3prefix Hpre Hget Hput Hbk Hall objkey.
  destruct (host_name_entry_name bucket Hhost) as [_ Hb].
  destruct (manifest_object_with_path bucket path key Hb Hk) as [Hurl Hobj].
  fold s3prefix in Hurl, Hobj. fold objkey in Hobj.
  pose proof (put_prefix_valid cfg _ Hpre) as Hpp. fold s3prefix in Hpp.
  split.
  - rewrite (cache_put_resolved world cfg key outputs st s3prefix bucket objkey)
      by assumption.
    simpl. rewrite <- app_assoc. reflexivity.
  - rewrite (CallCache_get_cases world cfg key inputs output_types st2 s3prefix)
      by (rewrite get_prefix_defaults by exact Hget; exact Hpp).
    rewrite Hurl. reflexivity.
Qed.

Lemma insert_and_lookup_same_object_witness :
  host_name "bucket" = true /\
  url_text "pre" = true /\
  url_text "k" = true /\
  Py.startswith "/" "k" = false /\
  cfg_uri_prefix Sample.cfg = Some ("s3://" +:+ "bucket" +:+ "/" +:+ "pre") /\
  cfg_call_cache_get_uri_prefix Sample.cfg = None /\
  cfg_call_cache_put Sample.cfg = true /\
  cfg_call_cache_backend Sample.cfg = backend_marker /\
  all_resolved Sample.world (uploaded_files uploaded_x) Sample.x_outputs = true /\
  let s3prefix := "s3://" +:+ "bucket" +:+ "/" +:+ "pre" in
  let objkey := remote_cache_key s3prefix "k" in
  s3_calls (cache_put Sample.world Sample.cfg "k" Sample.x_outputs uploaded_x).1
    = s3_calls uploaded_x ++
      [PutObject "bucket" objkey
         (map_env_paths (resolve_uri Sample.world (uploaded_files uploaded_x))
            Sample.x_outputs);
       PutObjectTagging "bucket" objkey "swipe_temporary" "true"] /\
  CallCache_get Sample.world Sample.cfg "k" [] [] initial_state =
    lookup_after_download Sample.world Sample.cfg s3prefix "k" "bucket" objkey [] []
      initial_state.
Proof.
  assert (H1 : host_name "bucket" = true) by reflexivity.
  assert (H1p : url_text "pre" = true) by reflexivity.
  assert (H1k : url_text "k" = true) by reflexivity.
  assert (H2 : Py.startswith "/" "k" = false) by reflexivity.
  assert (H3 : cfg_uri_prefix Sample.cfg = Some ("s3://" +:+ "bucket" +:+ "/" +:+ "pre"))
    by reflexivity.
  assert (H4 : cfg_call_cache_get_uri_prefix Sample.cfg = None) by reflexivity.
  assert (H5 : cfg_call_cache_put Sample.cfg = true) by reflexivity.
  assert (H6 : cfg_call_cache_backend Sample.cfg = backend_marker) by reflexivity.
  assert (H7 : all_resolved Sample.world (uploaded_files uploaded_x) Sample.x_outputs = true)
    by (vm_compute; reflexivity).
  split; [exact H1|]. split; [exact H1p|]. split; [exact H1k|].
  split; [exact H2|]. split; [exact H3|]. split; [exact H4|].
  split; [exact H5|]. split; [exact H6|]. split; [exact H7|].
  exact (insert_and_lookup_same_object Sample.world Sample.cfg "bucket" "pre" "k"
           Sample.x_outputs [] [] uploaded_x initial_state H1 H1p H1k H2 H3 H4 H5 H6 H7).
Defined.

(** X4: with a put-prefix that is only a bucket, [s3://<bucket>] in plain
    URI text, and no separate get-prefix, insert and lookup miss each other.  The insert writes
    the manifest to the object key [cache/<key>.json]; the lookup joins the
    empty path of the prefix with [cache], drops the first character of the
    result, and downloads [ache/<key>.json]. *)
Theorem bucket_only_prefix_lookup_misses
    world cfg bucket key outputs inputs output_types st st2 :
  host_name bucket = true ->
  url_text key = true ->
  Py.startswith "/" key = false ->
  let s3prefix := "s3://" +:+ bucket in
  cfg_uri_prefix cfg = Some s3prefix ->
  cfg_call_cache_get_uri_prefix cfg = None ->
  cfg_call_cache_put cfg = true ->
  cfg_call_cache_backend cfg = backend_marker ->
  all_resolved world (uploaded_files st) outputs = true ->
  s3_calls (cache_put world cfg key outputs st).1 = s3_calls st ++
    [PutObject bucket ("cache/" +:+ key +:+ ".json")
       (map_env_paths (resolve_uri world (uploaded_files st)) outputs);
     PutObjectTagging bucket ("cache/" +:+ key +:+ ".json") "swipe_temporary" "true"] /\
  CallCache_get world cfg key inputs output_types st2 =
    lookup_after_download world cfg s3prefix key bucket ("ache/" +:+ key +:+ ".json")
      inputs output_types st2.
Proof.
  intros Hhost _ Hk s3prefix Hpre Hget Hput Hbk Hall.
  pose proof (host_name_entry_name bucket Hhost) as Hb.
  destruct (manifest_object_bucket_only bucket key Hb Hk) as (Hurl & Hobj & Hkey).
  fold s3prefix in Hurl, Hobj, Hkey.
  pose proof (put_prefix_valid cfg _ Hpre) as Hpp. fold s3prefix in Hpp.
  split.
  - rewrite (cache_put_resolved world cfg key outputs st s3prefix bucket
               ("cache/" +:+ key +:+ ".json")) by assumption.
    simpl. rewrite <- app_assoc. reflexivity.
  - rewrite (CallCache_get_cases world cfg key inputs output_types st2 s3prefix)
      by (rewrite get_prefix_defaults by exact Hget; exact Hpp).
    rewrite Hurl, Hkey. reflexivity.
Qed.

Lemma bucket_only_prefix_lookup_misses_witness :
  host_name "bucket" = true /\
  url_text "k" = true /\
  Py.startswith "/" "k" = false /\
  cfg_uri_prefix cfg_bucket_only = Some ("s3://" +:+ "bucket") /\
  cfg_call_cache_get_uri_prefix cfg_bucket_only = None /\
  cfg_call_cache_put cfg_bucket_only = true /\
  cfg_call_cache_backend cfg_bucket_only = backend_marker /\
  all_resolved Sample.world (uploaded_files uploaded_x) Sample.x_outputs = true /\
  s3_calls (cache_put Sample.world cfg_bucket_only "k" Sample.x_outputs uploaded_x).1
    = s3_calls uploaded_x ++
      [PutObject "bucket" ("cache/" +:+ "k" +:+ ".json")
         (map_env_paths (resolve_uri Sample.world (uploaded_files uploaded_x))
            Sample.x_outputs);
       PutObjectTagging "bucket" ("cache/" +:+ "k" +:+ ".json") "swipe_temporary" "true"] /\
  CallCache_get Sample.world cfg_bucket_only "k" [] [] initial_state =
    lookup_after_download Sample.world cfg_bucket_only ("s3://" +:+ "bucket") "k" "bucket"
      ("ache/" +:+ "k" +:+ ".json") [] [] initial_state.
Proof.
  assert (H1 : host_name "bucket" = true) by reflexivity.
  assert (H1k : url_text "k" = true) by reflexivity.
  assert (H2 : Py.startswith "/" "k" = false) by reflexivity.
  assert (H3 : cfg_uri_prefix cfg_bucket_only = Some ("s3://" +:+ "bucket")) by reflexivity.
  assert (H4 : cfg_call_cache_get_uri_prefix cfg_bucket_only = None) by reflexivity.
  assert (H5 : cfg_call_cache_put cfg_bucket_only = true) by reflexivity.
  assert (H6 : cfg_call_cache_backend cfg_bucket_only = backend_marker) by reflexivity.
  assert (H7 : all_resolved Sample.world (uploaded_files uploaded_x) Sample.x_outputs = true)
    by (vm_compute; reflexivity).
  split; [exact H1|]. split; [exact H1k|]. split; [exact H2|]. split; [exact H3|].
  split; [exact H4|]. split; [exact H5|]. split; [exact H6|]. split; [exact H7|].
  exact (bucket_only_prefix_lookup_misses Sample.world cfg_bucket_only "bucket" "k"
           Sample.x_outputs [] [] uploaded_x initial_state H1 H1k H2 H3 H4 H5 H6 H7).
Defined.

(** ** The other shapes and exits of the task hook *)

Lemma split_nonempty c s : Py.split c s ≠ [].
Proof.
  destruct s as [|a s]; [discriminate|]. cbn [Py.split].
  destruct (Ascii.eqb a c); [discriminate|]. destruct (Py.split c s); discriminate.
Qed.

Lemma split_app_sep c q s :
  Py.split c (q +:+ String c s) = Py.split c q ++ Py.split c s.
Proof.
  induction q as [|a q IH].
  - rewrite append_nil_l. cbn [Py.split]. rewrite Ascii.eqb_refl. reflexivity.
  - rewrite append_cons. cbn [Py.split]. rewrite IH.
    destruct (Ascii.eqb a c); [reflexivity|].
    destruct (Py.split c q) as [|h t] eqn:E; [exact (False_ind _ (split_nonempty c q E))|].
    reflexivity.
Qed.

Lemma split_entry_name n : entry_name n -> Py.split OsPath.sep n = [n].
Proof.
  induction n as [|a n IH]; intros Hn; [destruct Hn; congruence|].
  destruct (no_slash_head a n (proj2 Hn)) as [Ha Hc].
  cbn [Py.split]. rewrite Ha.
  destruct (entry_name_tail a n Hn) as [->|Hn']; [reflexivity|].
  rewrite (IH Hn'). reflexivity.
Qed.

Lemma endswith_char_snoc c s :
  Py.endswith_char c s = true -> exists q, s = q +:+ String c "".
Proof.
  induction s as [|a s IH]; intros H; [discriminate|].
  destruct s as [|b s].
  - cbn [Py.endswith_char] in H. apply Ascii.eqb_eq in H. subst a. exists "". reflexivity.
  - change (Py.endswith_char c (String a (String b s)))
      with (Py.endswith_char c (String b s)) in H.
    destruct (IH H) as [q Hq]. exists (String a q). rewrite append_cons, <- Hq. reflexivity.
Qed.

(** The base name of an entry joined below a directory is the entry's name. *)
Lemma basename_join2 top n : entry_name n -> OsPath.basename (OsPath.join2 top n) = n.
Proof.
  intros Hn. unfold OsPath.basename, OsPath.join2.
  rewrite (entry_name_no_leading_slash n Hn).
  assert (Hsep : forall q, List.last (Py.split OsPath.sep (q +:+ String OsPath.sep n)) "" = n).
  { intros q. rewrite split_app_sep, (split_entry_name n Hn). apply last_last. }
  destruct (String.eqb top "") eqn:Etop.
  - apply String.eqb_eq in Etop. subst top. cbn [orb]. rewrite append_nil_l.
    rewrite (split_entry_name n Hn). reflexivity.
  - cbn [orb]. destruct (Py.endswith_char OsPath.sep top) eqn:Eend.
    + destruct (endswith_char_snoc _ _ Eend) as [q ->].
      rewrite append_assoc, append_cons, append_nil_l. apply Hsep.
    + change (top +:+ "/" +:+ n) with (top +:+ String OsPath.sep n). apply Hsep.
Qed.

Lemma put_prefix_configured cfg s3prefix :
  get_s3_put_prefix cfg = inr s3prefix -> cfg_uri_prefix cfg = Some s3prefix.
Proof.
  unfold get_s3_put_prefix. destruct (cfg_uri_prefix cfg) as [p|]; [|discriminate].
  destruct (Py.startswith "s3://" p); [|discriminate]. intros H. inversion H. reflexivity.
Qed.

Section TaskShapes.
Variable world : World.
Variable cfg : Config.
Let fs := w_fs world.

(** X5: a file-valued output.  When the output's subdirectory has a single
    visible entry that is a regular file (and not a linked directory), the
    hook runs one copy, from that entry to [<prefix>/<entry name>], records
    it in the ledger, and does nothing else. *)
Theorem file_output_destination s3prefix links_dir output names f st :
  let abs_output := OsPath.join links_dir [output] in
  let first := OsPath.join abs_output [f] in
  cached_files st = ∅ ->
  Os.isdir fs abs_output = true ->
  Os.listdir fs abs_output = Some names ->
  not_hidden names = [f] ->
  (Os.isdir fs first && Os.islink fs first)%bool = false ->
  Os.isfile fs first = true ->
  uploads_ok world [(first, OsPath.join s3prefix [f])] ->
  exists st',
    task_output world cfg s3prefix links_dir output st = (st', inr tt) /\
    uploads_done fs [(first, OsPath.join s3prefix [f])] st st'.
Proof.
  intros abs_output first Hempty Hisdir Hls Hvis Hnotdir Hfile Hok.
  assert (Hf : entry_name f).
  { apply (listdir_entry_name fs abs_output names f Hls).
    assert (Hin : f ∈ not_hidden names) by (rewrite Hvis; left).
    unfold not_hidden in Hin. apply list_elem_of_filter in Hin as [_ Hin]. exact Hin. }
  assert (Hbase : OsPath.basename first = f) by apply (basename_join2 abs_output f Hf).
  destruct (Hok (first, OsPath.join s3prefix [f])) as [Hrun Hid]; [left|].
  cbn [fst snd] in Hrun, Hid.
  destruct (upload_file_plain world cfg first (OsPath.join s3prefix [f]) st Hempty Hrun Hid)
    as (st' & Hup & Hdone).
  exists st'. split; [|exact Hdone].
  unfold task_output. fold fs. fold abs_output. rewrite Hisdir.
  unfold listdir. fold fs. rewrite Hls. unfold assert. unfold_m.
  rewrite Hvis. cbn [map hd length Nat.eqb andb].
  change (OsPath.join abs_output [f]) with first.
  rewrite Hfile. cbn [andb].
  replace (Os.isdir fs first && Os.islink fs first)%bool with false.
  rewrite Hbase. exact Hup.
Qed.

(** The work on a malformed entry raises and leaves the state as it found
    it. *)
Lemma task_output_malformed s3prefix links_dir output st :
  malformed fs links_dir output ->
  exists msg,
    task_output world cfg s3prefix links_dir output st = (st, inl (AssertionError msg)).
Proof.
  intros [Hnot|(names & Hisdir & Hls & Hshape)].
  - unfold task_output. fold fs. rewrite Hnot. eexists. reflexivity.
  - unfold task_output. fold fs. rewrite Hisdir.
    unfold listdir. fold fs. rewrite Hls. unfold assert. unfold_m.
    destruct Hshape as [Hempty|(Hnotdir & Hnotfile & _ & Hdigits)].
    + rewrite Hempty. eexists. reflexivity.
    + destruct (map _ (not_hidden names)) as [|c cs] eqn:Hoc.
      * eexists. reflexivity.
      * rewrite Hnotdir, Hnotfile, Hdigits. eexists. reflexivity.
Qed.

(** X6: the task hook stops at the first malformed entry of the run's [out]
    directory with an assertion error.  The entries listed before it have been
    handled; for the malformed one and for those listed after it nothing is
    copied or recorded: the state is the one the earlier entries left. *)
Theorem malformed_output_is_refused
    run_id ids last_id run_dir s3prefix handled bad later st st1 :
  let links_dir := OsPath.join run_dir ["out"] in
  get_s3_put_prefix cfg = inr s3prefix ->
  run_id = ids ++ [last_id] ->
  Py.startswith "download-" last_id = false ->
  Os.listdir fs links_dir = Some (handled ++ bad :: later) ->
  for_each handled (task_output world cfg s3prefix links_dir) st = (st1, inr tt) ->
  malformed fs links_dir bad ->
  exists msg, task world cfg run_id run_dir st = (st1, inl (AssertionError msg)).
Proof.
  intros links_dir Hpre -> Hdl Hls Hhandled Hbad.
  destruct (task_output_malformed s3prefix links_dir bad st1 Hbad) as [msg Hraise].
  exists msg. unfold task. rewrite (put_prefix_configured cfg s3prefix Hpre).
  rewrite map_app. cbn [map]. rewrite last_last, Hdl.
  unfold_m. rewrite Hpre. cbn beta iota.
  unfold listdir. fold fs. fold links_dir. rewrite Hls. unfold_m. cbn beta iota.
  rewrite for_each_app, Hhandled. cbn [for_each]. unfold_m. rewrite Hraise. reflexivity.
Qed.

(** The exits of the task hook.  Without a configured prefix it only
    logs that it skips; for a run whose last id starts with [download-] it
    does nothing at all; and an empty run id is an [IndexError].  In none of
    the three is the run directory looked at. *)
Theorem task_exits run_id run_dir st :
  (cfg_uri_prefix cfg = None ->
   exists record,
     task world cfg run_id run_dir st = (add_log record st, inr tt) /\
     lr_level record = DEBUG) /\
  (forall s3prefix last_id ids,
     cfg_uri_prefix cfg = Some s3prefix ->
     run_id = ids ++ [last_id] ->
     Py.startswith "download-" last_id = true ->
     task world cfg run_id run_dir st = (st, inr tt)) /\
  (forall s3prefix,
     cfg_uri_prefix cfg = Some s3prefix ->
     run_id = [] ->
     task world cfg run_id run_dir st = (st, inl IndexError)).
Proof.
  split; [|split].
  - intros Hnone. unfold task. rewrite Hnone. eexists. split; reflexivity.
  - intros s3prefix last_id ids Hpre -> Hdl. unfold task. rewrite Hpre.
    rewrite map_app. cbn [map]. rewrite last_last, Hdl. reflexivity.
  - intros s3prefix Hpre ->. unfold task. rewrite Hpre. reflexivity.
Qed.
End TaskShapes.

Lemma file_output_destination_witness :
  cached_files initial_state = ∅ /\
  Os.isdir Sample.fs "/run/out/single" = true /\
  Os.listdir Sample.fs "/run/out/single" = Some ["x.txt"] /\
  not_hidden ["x.txt"] = ["x.txt"] /\
  (Os.isdir Sample.fs "/run/out/single/x.txt" &&
   Os.islink Sample.fs "/run/out/single/x.txt")%bool = false /\
  Os.isfile Sample.fs "/run/out/single/x.txt" = true /\
  uploads_ok Sample.world [("/run/out/single/x.txt", "s3://bucket/pre/x.txt")] /\
  exists st',
    task_output Sample.world Sample.cfg "s3://bucket/pre" "/run/out" "single" initial_state
      = (st', inr tt) /\
    uploads_done Sample.fs [("/run/out/single/x.txt", "s3://bucket/pre/x.txt")]
      initial_state st'.
Proof.
  assert (H1 : cached_files initial_state = ∅) by reflexivity.
  assert (H2 : Os.isdir Sample.fs "/run/out/single" = true) by (vm_compute; reflexivity).
  assert (H3 : Os.listdir Sample.fs "/run/out/single" = Some ["x.txt"])
    by (vm_compute; reflexivity).
  assert (H4 : not_hidden ["x.txt"] = ["x.txt"]) by (vm_compute; reflexivity).
  assert (H5 : (Os.isdir Sample.fs "/run/out/single/x.txt" &&
                Os.islink Sample.fs "/run/out/single/x.txt")%bool = false)
    by (vm_compute; reflexivity).
  assert (H6 : Os.isfile Sample.fs "/run/out/single/x.txt" = true)
    by (vm_compute; reflexivity).
  assert (H7 : uploads_ok Sample.world [("/run/out/single/x.txt", "s3://bucket/pre/x.txt")])
    by (apply uploads_ok_check; vm_compute; reflexivity).
  split; [exact H1|]. split; [exact H2|]. split; [exact H3|]. split; [exact H4|].
  split; [exact H5|]. split; [exact H6|]. split; [exact H7|].
  exact (file_output_destination Sample.world Sample.cfg "s3://bucket/pre" "/run/out"
           "single" ["x.txt"] "x.txt" initial_state H1 H2 H3 H4 H5 H6 H7).
Defined.

(** On [fs_malformed] the hook uploads the file of [a] and stops at
    [empty]; [mixed] and [notdir] are malformed in the two other ways. *)
Lemma malformed_output_is_refused_witness :
  Os.listdir fs_malformed "/run/out" = Some ["a"; "empty"; "mixed"; "notdir"] /\
  malformed fs_malformed "/run/out" "empty" /\
  malformed fs_malformed "/run/out" "mixed" /\
  malformed fs_malformed "/run/out" "notdir" /\
  exists st1 msg,
    for_each ["a"] (task_output world_malformed Sample.cfg "s3://bucket/pre" "/run/out")
      initial_state = (st1, inr tt) /\
    commands st1 = [s3parcp_cmd "/run/out/a/x.txt" "s3://bucket/pre/x.txt"] /\
    task world_malformed Sample.cfg ["wf"; "call-t"] "/run" initial_state
      = (st1, inl (AssertionError msg)).
Proof.
  assert (Hls : Os.listdir fs_malformed "/run/out" = Some ["a"; "empty"; "mixed"; "notdir"])
    by (vm_compute; reflexivity).
  assert (Hempty : malformed fs_malformed "/run/out" "empty").
  { right. exists [".keep"]. split; [vm_compute; reflexivity|].
    split; [vm_compute; reflexivity|]. left. reflexivity. }
  assert (Hmixed : malformed fs_malformed "/run/out" "mixed").
  { right. exists ["a.txt"; "b.txt"]. split; [vm_compute; reflexivity|].
    split; [vm_compute; reflexivity|]. right. repeat split; vm_compute; reflexivity. }
  assert (Hnotdir : malformed fs_malformed "/run/out" "notdir")
    by (left; vm_compute; reflexivity).
  split; [exact Hls|]. split; [exact Hempty|]. split; [exact Hmixed|].
  split; [exact Hnotdir|].
  destruct (for_each ["a"] (task_output world_malformed Sample.cfg "s3://bucket/pre"
                              "/run/out") initial_state) as [st1 res] eqn:Hhandled.
  assert (Hres : res = inr tt /\
                 commands st1 = [s3parcp_cmd "/run/out/a/x.txt" "s3://bucket/pre/x.txt"]).
  { vm_compute in Hhandled. inversion Hhandled. split; reflexivity. }
  destruct Hres as [-> Hcmd].
  destruct (malformed_output_is_refused world_malformed Sample.cfg ["wf"; "call-t"] ["wf"]
              "call-t" "/run" "s3://bucket/pre" ["a"] "empty" ["mixed"; "notdir"]
              initial_state st1) as [msg Hraise];
    [reflexivity|reflexivity|reflexivity|exact Hls|exact Hhandled|exact Hempty|].
  exists st1, msg. split; [reflexivity|]. split; [exact Hcmd|exact Hraise].
Defined.

Lemma task_exits_witness :
  (exists record,
     task Sample.world cfg_no_prefix ["wf"; "call-t"] "/run" initial_state
       = (add_log record initial_state, inr tt) /\
     lr_level record = DEBUG) /\
  task Sample.world Sample.cfg ["wf"; "download-x"] "/run" initial_state
    = (initial_state, inr tt) /\
  task Sample.world Sample.cfg [] "/run" initial_state = (initial_state, inl IndexError).
Proof.
  split; [|split].
  - apply (proj1 (task_exits Sample.world cfg_no_prefix ["wf"; "call-t"] "/run"
                    initial_state)).
    reflexivity.
  - apply (proj1 (proj2 (task_exits Sample.world Sample.cfg ["wf"; "download-x"] "/run"
                           initial_state)) "s3://bucket/pre" "download-x" ["wf"]);
      reflexivity.
  - apply (proj2 (proj2 (task_exits Sample.world Sample.cfg [] "/run" initial_state))
             "s3://bucket/pre"); reflexivity.
Defined.

(** ** Ledger and registry never lose an identity *)

Lemma grows_refl st : grows st st.
Proof. split; intros id H; exact H. Qed.

Lemma grows_trans st1 st2 st3 : grows st1 st2 -> grows st2 st3 -> grows st1 st3.
Proof. intros [H1 H2] [H3 H4]. split; intros id H; [apply H3, H1, H|apply H4, H2, H]. Qed.

(** States with the same two maps. *)
Lemma grows_same_maps st st' :
  uploaded_files st' = uploaded_files st -> cached_files st' = cached_files st ->
  grows st st'.
Proof. intros Hu Hc. split; intros id H; [rewrite Hu|rewrite Hc]; exact H. Qed.

Lemma grows_insert_uploaded st st0 id uri :
  uploaded_files st0 = uploaded_files st -> cached_files st0 = cached_files st ->
  grows st (set_uploaded_files (<[id := uri]> (uploaded_files st0)) st0).
Proof.
  intros Hu Hc. split; intros id' H; simpl.
  - rewrite Hu. destruct (decide (id = id')) as [->|Hne].
    + rewrite lookup_insert_eq. eauto.
    + rewrite lookup_insert_ne by exact Hne. exact H.
  - rewrite Hc. exact H.
Qed.

Section Extends.
Variable world : World.
Variable cfg : Config.

Lemma extends_ret {A} (a : A) : extends (mret a).
Proof. intros st. apply grows_refl. Qed.

Lemma extends_raise {A} e : extends (@raise A e).
Proof. intros st. apply grows_refl. Qed.

Lemma extends_lift {A} (r : Result A) : extends (lift r).
Proof. intros st. apply grows_refl. Qed.

Lemma extends_assert b msg : extends (assert b msg).
Proof. destruct b; [apply extends_ret|apply extends_raise]. Qed.

Lemma extends_logger lvl msg fields : extends (logger lvl msg fields).
Proof. intros st. apply grows_same_maps; reflexivity. Qed.

Lemma extends_at_bind {A B} (m : M A) (k : A -> M B) st :
  grows st (m st).1 -> (forall a, extends (k a)) -> grows st ((m ≫= k) st).1.
Proof.
  intros Hm Hk. unfold_m. destruct (m st) as [st' [e|a]]; simpl in *; [exact Hm|].
  eapply grows_trans; [exact Hm|apply Hk].
Qed.

Lemma extends_bind {A B} (m : M A) (k : A -> M B) :
  extends m -> (forall a, extends (k a)) -> extends (m ≫= k).
Proof. intros Hm Hk st. apply extends_at_bind; [apply Hm|exact Hk]. Qed.

Lemma extends_for_each {A} (xs : list A) (body : A -> M unit) :
  (forall x, extends (body x)) -> extends (for_each xs body).
Proof.
  intros Hb. induction xs as [|x xs IH]; simpl.
  - apply extends_ret.
  - apply extends_bind; [apply Hb|intros _; exact IH].
Qed.

Lemma extends_listdir p : extends (listdir world p).
Proof. unfold listdir. destruct (Os.listdir _ p); [apply extends_ret|apply extends_raise]. Qed.

Lemma extends_s3cp fn s3uri : extends (s3cp world fn s3uri).
Proof.
  intros st. pose proof (s3cp_maps world fn s3uri st) as (Hu & Hc & _).
  apply grows_same_maps; assumption.
Qed.

Lemma extends_cache_put key outputs : extends (cache_put world cfg key outputs).
Proof.
  intros st. pose proof (cache_put_maps world cfg key outputs st) as [Hu Hc].
  apply grows_same_maps; assumption.
Qed.

Lemma extends_upload_file abs_fn s3uri : extends (upload_file world cfg abs_fn s3uri).
Proof.
  unfold upload_file. apply extends_bind; [apply extends_s3cp|intros _].
  apply extends_bind; [|intros _; apply extends_logger].
  destruct (inode (w_fs world) abs_fn) as [id|]; [|apply extends_raise].
  intros st. change ((get_state ≫= _) st) with
    ((modify (set_uploaded_files (<[id := s3uri]> (uploaded_files st))) ≫=
      (fun _ => match cached_files st !! id with
                | Some (key, outputs) => cache_put world cfg key outputs
                | None => mret tt
                end)) st).
  apply extends_at_bind; [apply grows_insert_uploaded; reflexivity|intros _].
  destruct (cached_files st !! id) as [[key outputs]|];
    [apply extends_cache_put|apply extends_ret].
Qed.

Lemma extends_task_output s3prefix links_dir output :
  extends (task_output world cfg s3prefix links_dir output).
Proof.
  unfold task_output.
  apply extends_bind; [apply extends_assert|intros _].
  apply extends_bind; [apply extends_listdir|intros names].
  apply extends_bind; [apply extends_assert|intros _]. cbv zeta.
  destruct (_ && _ && _)%bool.
  - apply extends_bind.
    + destruct (inode _ _) as [id|]; [|apply extends_raise].
      intros st. apply grows_insert_uploaded; reflexivity.
    + intros _. apply extends_for_each. intros [[dn subdirs] files].
      apply extends_bind; [apply extends_assert|intros _].
      apply extends_for_each. intros fn. apply extends_upload_file.
  - destruct (_ && _)%bool; [apply extends_upload_file|].
    apply extends_bind; [apply extends_assert|intros _].
    apply extends_for_each. intros index_dir.
    apply extends_bind; [apply extends_listdir|intros fns0].
    apply extends_bind; [apply extends_assert|intros _]. apply extends_upload_file.
Qed.

Lemma extends_task run_id run_dir : extends (task world cfg run_id run_dir).
Proof.
  unfold task. destruct (cfg_uri_prefix cfg); [|apply extends_logger].
  destruct (List.last _ _) as [last_id|]; [|apply extends_raise].
  destruct (Py.startswith _ _); [apply extends_ret|].
  apply extends_bind; [apply extends_lift|intros s3prefix].
  apply extends_bind; [apply extends_listdir|intros outputs].
  apply extends_for_each. intros output. apply extends_task_output.
Qed.

(** The registry the callback of [CallCache.put] leaves behind holds every
    identity it started with, also when the callback raised. *)
Lemma run_CallCache_put_cache_keeps key outputs ps cached id :
  is_Some (cached !! id) ->
  is_Some ((run_paths (CallCache_put_cache world key outputs) ps cached).1 !! id).
Proof.
  revert cached. induction ps as [|p ps IH]; intros cached H; [exact H|].
  cbn [run_paths]. unfold CallCache_put_cache at 1.
  destruct (inode (w_fs world) p) as [idp|]; [|exact H].
  specialize (IH (<[idp := (key, outputs)]> cached)).
  destruct (run_paths _ ps _) as [c [e|qs]]; simpl in *; apply IH;
    (destruct (decide (idp = id)) as [->|Hne];
     [rewrite lookup_insert_eq; eauto|rewrite lookup_insert_ne by exact Hne; exact H]).
Qed.

Lemma extends_CallCache_put key outputs : extends (CallCache_put world cfg key outputs).
Proof.
  unfold CallCache_put. destruct (negb _); [apply extends_ret|].
  intros st.
  pose proof (outcome_rewrite_env_paths (CallCache_put_cache world key outputs) outputs
                (cached_files st)) as Ho.
  assert (Hkeep : forall id, is_Some (cached_files st !! id) ->
            is_Some ((rewrite_env_paths (CallCache_put_cache world key outputs) outputs
                        (cached_files st)).1 !! id)).
  { intros id H. replace (rewrite_env_paths _ outputs (cached_files st)).1
      with (run_paths (CallCache_put_cache world key outputs) (env_paths outputs)
              (cached_files st)).1
      by (unfold outcome in Ho; inversion Ho; reflexivity).
    apply run_CallCache_put_cache_keeps, H. }
  unfold_m. cbn beta.
  destruct (rewrite_env_paths _ outputs (cached_files st)) as [cached [e|r]];
    cbn [fst] in Hkeep.
  - split; intros id H; simpl; [exact H|apply Hkeep, H].
  - eapply grows_trans; [|apply extends_cache_put].
    split; intros id H; simpl; [exact H|apply Hkeep, H].
Qed.

Lemma extends_CallCache_get key inputs output_types :
  extends (CallCache_get world cfg key inputs output_types).
Proof.
  unfold CallCache_get. apply extends_bind; [apply extends_lift|intros s3prefix].
  destruct (urlparse s3prefix) as [bucket prefix].
  apply extends_bind.
  - destruct (w_download _ _ _) as [body|code|msg].
    + intros st. apply grows_same_maps; reflexivity.
    + destruct (negb _); [apply extends_raise|apply extends_ret].
    + apply extends_raise.
  - intros _ st. apply grows_refl.
Qed.

Lemma extends_workflow run_id run_dir name outputs :
  extends (workflow world cfg run_id run_dir name outputs).
Proof.
  unfold workflow. destruct (cfg_uri_prefix cfg); [|apply extends_ret].
  apply extends_bind; [apply extends_lift|intros s3prefix].
  unfold write_outputs_s3_json. intros st. unfold_m. cbn beta.
  destruct (rewrite_env_paths _ outputs (log st)) as [lg [e|r]]; cbn.
  - apply grows_same_maps; reflexivity.
  - match goal with
    | |- grows st (s3cp world ?fn ?uri ?s).1 =>
        eapply grows_trans; [|apply (extends_s3cp fn uri s)]
    end.
    apply grows_same_maps; reflexivity.
Qed.

(** X7: over any sequence of cache inserts, cache lookups, task completions
    and workflow completions, failed ones included, the ledger and the
    registry only grow: an identity that has an entry keeps having one. *)
Theorem ledger_and_registry_only_grow hooks st :
  grows st (run_hooks world cfg hooks st).
Proof.
  revert st. induction hooks as [|h hooks IH]; intros st; [apply grows_refl|].
  unfold run_hooks in *. cbn [fold_left].
  eapply grows_trans; [|apply IH].
  destruct h as [key outputs|key inputs tys|run_id run_dir|run_id run_dir name outputs];
    cbn [run_hook].
  - apply extends_CallCache_put.
  - apply extends_CallCache_get.
  - apply extends_task.
  - apply extends_workflow.
Qed.
End Extends.

(** ** The workflow manifest when everything was uploaded *)

Lemma value_paths_map_paths g v : value_paths (map_paths g v) = map g (value_paths v).
Proof.
  induction v as [r|p|p|vs IH] using Value_nested_ind; try reflexivity.
  cbn [map_paths value_paths].
  induction IH as [|v vs Hv _ IHvs]; [reflexivity|].
  cbn [map flat_map]. rewrite map_app, Hv, IHvs. reflexivity.
Qed.

Lemma env_paths_map_env_paths g env :
  env_paths (map_env_paths g env) = map g (env_paths env).
Proof.
  induction env as [|[name v] env IH]; [reflexivity|].
  unfold env_paths, map_env_paths in *. cbn [map flat_map fst snd].
  rewrite map_app, value_paths_map_paths, IH. reflexivity.
Qed.

(** X8: the workflow hook when every file and directory value of the outputs
    has a ledger entry.  The manifest it writes to
    [<run_dir>/outputs.s3.json] is the outputs with each such value replaced by
    its ledger URI, so every path in it is a recorded URI; no warning is
    logged; and exactly one copy is run, from that file to [WDL_OUTPUT_URI] if
    set and else to [<prefix>/<run_id[1:]>/outputs.s3.json].  The hook
    returns if that copy succeeds.  If it exits with a non-zero status the
    hook raises what [s3cp] raises: the runtime error with the command line,
    or [UnicodeDecodeError] when the tool's standard error does not decode.
    The local file is written either way. *)
Theorem workflow_manifest_all_uploaded world cfg run_id run_dir name outputs st s3prefix :
  get_s3_put_prefix cfg = inr s3prefix ->
  (forall p, p ∈ env_paths outputs ->
             is_Some (ledger_uri world (uploaded_files st) p)) ->
  let fn := OsPath.join run_dir ["outputs.s3.json"] in
  let dest := match w_output_uri world with
              | Some uri => uri
              | None => OsPath.join (OsPath.join s3prefix (List.tl run_id))
                          ["outputs.s3.json"]
              end in
  let manifest := map_env_paths (resolve_uri world (uploaded_files st)) outputs in
  let r := workflow world cfg run_id run_dir name outputs st in
  files r.1 = <[fn := Manifest name manifest]> (files st) /\
  commands r.1 = commands st ++ [s3parcp_cmd fn dest] /\
  (forall q, q ∈ env_paths manifest -> exists id, uploaded_files st !! id = Some q) /\
  (forall record, record ∈ log r.1 -> record ∈ log st \/ lr_level record ≠ WARNING) /\
  r.2 = (if (w_run world (s3parcp_cmd fn dest)).1 =? 0 then inr tt
         else inl (copy_failure world (s3parcp_cmd fn dest))) /\
  uploaded_files r.1 = uploaded_files st.
Proof.
  intros Hpre Hall fn dest manifest r.
  assert (Hrw : rewrite_env_paths (rewriter world (uploaded_files st) None) outputs (log st)
                = (log st, inr manifest)).
  { apply rewrite_env_paths_pure. intros p Hp. destruct (Hall p Hp) as [uri Huri].
    unfold rewriter, resolve_uri. unfold ledger_uri in Huri. rewrite Huri. reflexivity. }
  assert (Hpaths : forall q, q ∈ env_paths manifest ->
                             exists id, uploaded_files st !! id = Some q).
  { intros q Hq. unfold manifest in Hq. rewrite env_paths_map_env_paths in Hq.
    apply list_elem_of_fmap in Hq. destruct Hq as (p & -> & Hp).
    destruct (Hall p Hp) as [uri Huri]. unfold ledger_uri in Huri. unfold resolve_uri.
    destruct (inode (w_fs world) p) as [id|]; [|discriminate]. simpl in *.
    exists id. rewrite Huri. reflexivity. }
  subst r. unfold workflow. rewrite (put_prefix_configured cfg s3prefix Hpre).
  unfold_m. rewrite Hpre. cbn beta iota.
  unfold write_outputs_s3_json. unfold_m. cbn beta. rewrite Hrw. cbn beta iota.
  fold fn. fold dest. unfold s3cp, copy_failure, s3parcp_cmd. unfold_m.
  cbn beta iota zeta.
  split; [|split; [|split; [exact Hpaths|]]].
  - destruct (negb _); [destruct (Py.decode_utf8 _)|]; reflexivity.
  - destruct (negb _); [destruct (Py.decode_utf8 _)|]; reflexivity.
  - split; [|split].
    + intros record Hrec.
      destruct ((w_run world ["s3parcp"; fn; dest]).1 =? 0);
        [|destruct (Py.decode_utf8 _)]; cbn in Hrec.
      * apply elem_of_app in Hrec as [Hrec|Hrec]; [left; exact Hrec|right].
        apply list_elem_of_singleton in Hrec. subst record. discriminate.
      * apply elem_of_app in Hrec as [Hrec|Hrec];
          [|right; apply list_elem_of_singleton in Hrec; subst record; discriminate].
        apply elem_of_app in Hrec as [Hrec|Hrec]; [left; exact Hrec|right].
        apply list_elem_of_singleton in Hrec. subst record. discriminate.
      * apply elem_of_app in Hrec as [Hrec|Hrec]; [left; exact Hrec|right].
        apply list_elem_of_singleton in Hrec. subst record. discriminate.
    + destruct ((w_run world ["s3parcp"; fn; dest]).1 =? 0);
        [|destruct (Py.decode_utf8 _)]; reflexivity.
    + destruct ((w_run world ["s3parcp"; fn; dest]).1 =? 0);
        [|destruct (Py.decode_utf8 _)]; reflexivity.
Qed.

(** The hook of a sub-workflow [wf/call-sub] once [/work/x.txt] is
    uploaded. *)
Lemma workflow_manifest_all_uploaded_witness :
  get_s3_put_prefix Sample.cfg = inr "s3://bucket/pre" /\
  (forall p, p ∈ env_paths Sample.x_outputs ->
             is_Some (ledger_uri Sample.world (uploaded_files uploaded_x) p)) /\
  let r := workflow Sample.world Sample.cfg ["wf"; "call-sub"] "/run" "sub"
             Sample.x_outputs uploaded_x in
  files r.1 = <["/run/outputs.s3.json" :=
                  Manifest "sub" [("out", VFile "s3://bucket/pre/x.txt")]]>
                (files uploaded_x) /\
  commands r.1 = commands uploaded_x ++
    [["s3parcp"; "/run/outputs.s3.json"; "s3://bucket/pre/call-sub/outputs.s3.json"]] /\
  r.2 = inr tt.
Proof.
  assert (H1 : get_s3_put_prefix Sample.cfg = inr "s3://bucket/pre") by reflexivity.
  assert (H2 : forall p, p ∈ env_paths Sample.x_outputs ->
                 is_Some (ledger_uri Sample.world (uploaded_files uploaded_x) p)).
  { intros p Hp. apply list_elem_of_singleton in Hp. subst p. vm_compute. eauto. }
  split; [exact H1|]. split; [exact H2|].
  destruct (workflow_manifest_all_uploaded Sample.world Sample.cfg ["wf"; "call-sub"]
              "/run" "sub" Sample.x_outputs uploaded_x "s3://bucket/pre" H1 H2)
    as (Hf & Hc & _ & _ & Hr & _).
  split; [|split].
  - rewrite Hf. vm_compute. reflexivity.
  - rewrite Hc. vm_compute. reflexivity.
  - rewrite Hr. vm_compute. reflexivity.
Defined.

(** ** Uploading again *)

Section UploadAgain.
Variable world : World.
Variable cfg : Config.
Let fs := w_fs world.

(** X9: the hook never skips a copy for a file object it has already
    uploaded.  Whenever two uploads of paths to one file object both return,
    both command lines have run and the ledger keeps the destination of the
    second only, whatever the registry holds.  They do return when both copies
    succeed and the insert logic cannot raise on a pending insert. *)
Theorem reupload_last_write_wins a b u1 u2 id st :
  inode fs a = Some id ->
  inode fs b = Some id ->
  (forall st',
     run_uploads world cfg [(a, u1); (b, u2)] st = (st', inr tt) ->
     commands st' = commands st ++ [s3parcp_cmd a u1; s3parcp_cmd b u2] /\
     uploaded_files st' = <[id := u2]> (uploaded_files st)) /\
  (registry_runs world cfg st ->
   (w_run world (s3parcp_cmd a u1)).1 = 0 ->
   (w_run world (s3parcp_cmd b u2)).1 = 0 ->
   exists st', run_uploads world cfg [(a, u1); (b, u2)] st = (st', inr tt)).
Proof.
  intros Ha Hb. split.
  - intros st' Hrun.
    destruct (run_uploads_returns world cfg _ st st' Hrun) as (Hc & Hu & _).
    split; [exact Hc|].
    rewrite Hu. unfold record_uploads. cbn [fold_left fst snd]. fold fs.
    rewrite Ha, Hb. apply insert_insert_eq.
  - intros Hreg Hr1 Hr2.
    destruct (run_uploads_runs world cfg [(a, u1); (b, u2)] st Hreg)
      as (st' & Hrun & _).
    { intros u Hu. apply elem_of_cons in Hu as [->|Hu];
        [|apply list_elem_of_singleton in Hu as ->]; cbn [fst snd]; split; eauto. }
    exists st'. exact Hrun.
Qed.

Lemma all_resolved_insert uploaded outputs id uri :
  all_resolved world uploaded outputs = true ->
  all_resolved world (<[id := uri]> uploaded) outputs = true.
Proof.
  unfold all_resolved. rewrite !forallb_forall. intros H p Hp. specialize (H p Hp).
  unfold resolved in *. destruct (inode (w_fs world) p) as [idp|]; [|discriminate].
  apply bool_decide_eq_true_1 in H. apply bool_decide_eq_true_2.
  destruct (decide (id = idp)) as [->|Hne].
  - rewrite lookup_insert_eq. eauto.
  - rewrite lookup_insert_ne by exact Hne. exact H.
Qed.

Lemma all_resolved_paths_exist uploaded outputs :
  all_resolved world uploaded outputs = true -> paths_exist world outputs.
Proof.
  unfold all_resolved. rewrite forallb_forall. intros H p Hp.
  specialize (H p (proj1 (list_elem_of_In _ _) Hp)). unfold resolved in H.
  destruct (inode (w_fs world) p) as [idp|]; [eauto|discriminate].
Qed.

(** X10: a registry entry outlives its publication.  When the upload step
    records a file object whose registry entry is already complete, the
    entry's manifest is sent once more, with the destination just recorded
    (the manifest URI being plain URI text). *)
Theorem completed_insert_is_republished
    abs_fn s3uri id key outputs st s3prefix bucket objkey :
  cfg_call_cache_put cfg = true ->
  cfg_call_cache_backend cfg = backend_marker ->
  get_s3_put_prefix cfg = inr s3prefix ->
  plain_s3_uri (OsPath.join s3prefix ["cache"; key +:+ ".json"]) ->
  s3_object (OsPath.join s3prefix ["cache"; key +:+ ".json"]) = inr (bucket, objkey) ->
  (w_run world (s3parcp_cmd abs_fn s3uri)).1 = 0 ->
  inode fs abs_fn = Some id ->
  cached_files st !! id = Some (key, outputs) ->
  all_resolved world (uploaded_files st) outputs = true ->
  exists st',
    upload_file world cfg abs_fn s3uri st = (st', inr tt) /\
    cached_files st' = cached_files st /\
    s3_calls st' = s3_calls st ++
      [PutObject bucket objkey
         (map_env_paths (resolve_uri world (<[id := s3uri]> (uploaded_files st))) outputs);
       PutObjectTagging bucket objkey "swipe_temporary" "true"].
Proof.
  intros Hput Hbk Hpre _ Hobj Hrun Hid Hreg Hall.
  destruct (upload_file_step world cfg abs_fn s3uri id key outputs st s3prefix bucket objkey)
    as (st' & Hup & _ & Hc & Hs); try assumption.
  { exact (all_resolved_paths_exist _ _ Hall). }
  rewrite (all_resolved_insert _ _ id s3uri Hall) in Hs.
  exists st'. auto.
Qed.

(** The callback of [CallCache.put] stops at the first path that does not
    resolve. *)
Lemma run_CallCache_put_cache_gone key outputs ps cached :
  (exists p, p ∈ ps /\ inode fs p = None) ->
  exists p0 cached',
    p0 ∈ ps /\ inode fs p0 = None /\
    outcome (run_paths (CallCache_put_cache world key outputs) ps cached)
    = (cached', Some (OSError p0)).
Proof.
  revert cached. induction ps as [|p ps IH]; intros cached (q & Hq & Hnone);
    [inversion Hq|].
  cbn [run_paths]. unfold CallCache_put_cache at 1. fold fs.
  destruct (inode fs p) as [idp|] eqn:Hp.
  - apply elem_of_cons in Hq as [->|Hq]; [congruence|].
    destruct (IH (<[idp := (key, outputs)]> cached)) as (p0 & c' & Hp0 & Hn0 & Hrun);
      [eauto|].
    exists p0, c'. split; [right; exact Hp0|]. split; [exact Hn0|].
    destruct (run_paths _ ps _) as [c [e|qs]]; exact Hrun.
  - exists p, cached. split; [left|]. split; [exact Hp|reflexivity].
Qed.

(** X11: an insert whose bindings name a path that does not exist raises
    the [OSError] of the first such path while it is still registering: the
    insert logic is never reached, nothing is sent to S3 and the ledger is
    untouched. *)
Theorem put_missing_file_raises key outputs st :
  cfg_call_cache_put cfg = true ->
  (exists p, p ∈ env_paths outputs /\ inode fs p = None) ->
  exists p0 st',
    p0 ∈ env_paths outputs /\ inode fs p0 = None /\
    CallCache_put world cfg key outputs st = (st', inl (OSError p0)) /\
    s3_calls st' = s3_calls st /\
    uploaded_files st' = uploaded_files st /\
    log st' = log st.
Proof.
  intros Hput Hgone.
  destruct (run_CallCache_put_cache_gone key outputs (env_paths outputs) (cached_files st)
              Hgone) as (p0 & c' & Hp0 & Hn0 & Hrun).
  rewrite <- outcome_rewrite_env_paths in Hrun.
  exists p0. unfold CallCache_put. rewrite Hput. simpl. unfold_m. simpl.
  destruct (rewrite_env_paths _ outputs (cached_files st)) as [c [e|r]];
    unfold outcome in Hrun; simpl in Hrun; inversion Hrun; subst.
  eexists. repeat split; try reflexivity; assumption.
Qed.
End UploadAgain.

Lemma reupload_last_write_wins_witness :
  let ups := [("/work/x.txt", "s3://bucket/pre/x.txt");
              ("/work/hard.txt", "s3://bucket/pre/hard.txt")] in
  registry_runs Sample.world Sample.cfg pending_x /\
  inode Sample.fs "/work/x.txt" = Some (1, 15) /\
  inode Sample.fs "/work/hard.txt" = Some (1, 15) /\
  exists st',
    run_uploads Sample.world Sample.cfg ups pending_x = (st', inr tt) /\
    commands st' = commands pending_x ++
      [s3parcp_cmd "/work/x.txt" "s3://bucket/pre/x.txt";
       s3parcp_cmd "/work/hard.txt" "s3://bucket/pre/hard.txt"] /\
    uploaded_files st' =
      <[(1, 15) := "s3://bucket/pre/hard.txt"]> (uploaded_files pending_x).
Proof.
  pose proof pending_x_runs as H1.
  assert (H2 : inode Sample.fs "/work/x.txt" = Some (1, 15)) by (vm_compute; reflexivity).
  assert (H3 : inode Sample.fs "/work/hard.txt" = Some (1, 15)) by (vm_compute; reflexivity).
  split; [exact H1|]. split; [exact H2|]. split; [exact H3|].
  destruct (reupload_last_write_wins Sample.world Sample.cfg
              "/work/x.txt" "/work/hard.txt" "s3://bucket/pre/x.txt"
              "s3://bucket/pre/hard.txt" (1, 15) pending_x H2 H3) as [Hrec Hruns].
  destruct (Hruns H1 eq_refl eq_refl) as [st' Hrun].
  exists st'. split; [exact Hrun|]. exact (Hrec st' Hrun).
Defined.

Lemma completed_insert_is_republished_witness :
  let st := (upload_file Sample.world Sample.cfg "/work/x.txt" "s3://bucket/pre/x.txt"
               pending_x).1 in
  cached_files st !! (1, 15) = Some ("k", Sample.x_outputs) /\
  all_resolved Sample.world (uploaded_files st) Sample.x_outputs = true /\
  s3_calls st =
    [PutObject "bucket" "pre/cache/k.json" [("out", VFile "s3://bucket/pre/x.txt")];
     PutObjectTagging "bucket" "pre/cache/k.json" "swipe_temporary" "true"] /\
  exists st',
    upload_file Sample.world Sample.cfg "/work/hard.txt" "s3://bucket/pre/hard.txt" st
      = (st', inr tt) /\
    s3_calls st' = s3_calls st ++
      [PutObject "bucket" "pre/cache/k.json" [("out", VFile "s3://bucket/pre/hard.txt")];
       PutObjectTagging "bucket" "pre/cache/k.json" "swipe_temporary" "true"].
Proof.
  intros st.
  assert (H1 : cached_files st !! (1, 15) = Some ("k", Sample.x_outputs))
    by (vm_compute; reflexivity).
  assert (H2 : all_resolved Sample.world (uploaded_files st) Sample.x_outputs = true)
    by (vm_compute; reflexivity).
  assert (H3 : inode (w_fs Sample.world) "/work/hard.txt" = Some (1, 15))
    by (vm_compute; reflexivity).
  assert (H4 : plain_s3_uri (OsPath.join "s3://bucket/pre" ["cache"; "k" +:+ ".json"])).
  { exists "bucket", "pre/cache/k.json". split; [vm_compute; reflexivity|].
    split; reflexivity. }
  split; [exact H1|]. split; [exact H2|]. split; [vm_compute; reflexivity|].
  destruct (completed_insert_is_republished Sample.world Sample.cfg
              "/work/hard.txt" "s3://bucket/pre/hard.txt" (1, 15) "k" Sample.x_outputs st
              "s3://bucket/pre" "bucket" "pre/cache/k.json"
              eq_refl eq_refl eq_refl H4 eq_refl eq_refl H3 H1 H2)
    as (st' & Hup & _ & Hs).
  exists st'. split; [exact Hup|]. rewrite Hs. vm_compute. reflexivity.
Defined.

Lemma put_missing_file_raises_witness :
  cfg_call_cache_put Sample.cfg = true /\
  inode Sample.fs "/work/gone.txt" = None /\
  exists p0 st',
    p0 ∈ env_paths gone_outputs /\ inode Sample.fs p0 = None /\
    CallCache_put Sample.world Sample.cfg "k" gone_outputs initial_state
      = (st', inl (OSError p0)) /\
    s3_calls st' = s3_calls initial_state /\
    uploaded_files st' = uploaded_files initial_state /\
    log st' = log initial_state.
Proof.
  assert (H1 : cfg_call_cache_put Sample.cfg = true) by reflexivity.
  assert (H2 : inode Sample.fs "/work/gone.txt" = None) by (vm_compute; reflexivity).
  split; [exact H1|]. split; [exact H2|].
  apply (put_missing_file_raises Sample.world Sample.cfg "k" gone_outputs initial_state H1).
  exists "/work/gone.txt". split; [|exact H2].
  apply list_elem_of_In. simpl. auto.
Defined.

(** ** Directory outputs and the registry *)

Section DirectoryRecord.
Variable world : World.
Variable cfg : Config.
Let fs := w_fs world.

(** An upload the registry does not wait for. *)
Lemma upload_file_unregistered abs_fn s3uri st :
  unregistered world st [(abs_fn, s3uri)] ->
  (w_run world (s3parcp_cmd abs_fn s3uri)).1 = 0 ->
  is_Some (inode fs abs_fn) ->
  exists st',
    upload_file world cfg abs_fn s3uri st = (st', inr tt) /\
    uploads_done fs [(abs_fn, s3uri)] st st'.
Proof.
  intros Hun Hrun [id Hid].
  rewrite (upload_file_ok world cfg abs_fn s3uri id) by assumption.
  rewrite (s3cp_ok _ _ _ _ Hrun). cbn [fst]. simpl cached_files.
  assert (Hnone : cached_files st !! id = None).
  { apply (Hun (abs_fn, s3uri) id); [left|exact Hid]. }
  rewrite Hnone. unfold_m. eexists. split; [reflexivity|].
  unfold uploads_done, record_uploads. cbn. fold fs. rewrite Hid. repeat split.
Qed.

Lemma run_uploads_unregistered ups :
  forall st,
    unregistered world st ups -> uploads_ok world ups ->
    exists st',
      run_uploads world cfg ups st = (st', inr tt) /\ uploads_done fs ups st st'.
Proof.
  induction ups as [|u ups IH]; intros st Hun Hok.
  - exists st. split; [reflexivity|apply uploads_done_nil].
  - destruct (Hok u) as [Hrun Hid]; [left|].
    destruct (upload_file_unregistered u.1 u.2 st) as (st1 & Hup & Hdone1);
      [|exact Hrun|exact Hid|].
    { intros v id Hv Hi. apply list_elem_of_singleton in Hv. subst v.
      apply (Hun u id); [left|exact Hi]. }
    destruct (IH st1) as (st' & Hrest & Hdone).
    { destruct Hdone1 as (_ & _ & Hr & _). apply (unregistered_keeps world st); [exact Hr|].
      intros v id Hv Hi. apply (Hun v id); [right; exact Hv|exact Hi]. }
    { intros v Hv. apply Hok. right. exact Hv. }
    exists st'. split.
    + unfold run_uploads in *. cbn [for_each]. unfold_m. rewrite Hup. exact Hrest.
    + replace u with (u.1, u.2) at 1 by (destruct u; reflexivity).
      apply (uploads_done_app world [(u.1, u.2)] ups st st1 st'); assumption.
Qed.

(** The loop over [os.walk] when the registry waits for none of the files. *)
Lemma walk_loop_unregistered s3prefix abs_output dir items :
  (forall item, item ∈ items ->
     (String.eqb item.1.1 dir || Py.startswith (dir +:+ "/") item.1.1)%bool = true) ->
  forall st,
    let ups := flat_map (fun item : string * list string * list string =>
                 map (fun fn =>
                        let abs_fn := OsPath.join item.1.1 [fn] in
                        (abs_fn,
                         OsPath.join s3prefix
                           [OsPath.relpath (fs_cwd fs) abs_fn abs_output]))
                     item.2) items in
    unregistered world st ups ->
    uploads_ok world ups ->
    exists st',
      for_each items
        (fun '(dn, subdirs, files) =>
           assert (String.eqb dn dir || Py.startswith (dir +:+ "/") dn)%bool dn;;
           for_each files (fun fn =>
             let abs_fn := OsPath.join dn [fn] in
             let s3uri :=
               OsPath.join s3prefix [OsPath.relpath (fs_cwd fs) abs_fn abs_output] in
             upload_file world cfg abs_fn s3uri)) st = (st', inr tt) /\
      uploads_done fs ups st st'.
Proof.
  induction items as [|[[dn subdirs] files] items IH]; intros Hbelow st ups Hun Hok.
  - exists st. split; [reflexivity|apply uploads_done_nil].
  - subst ups. cbn [flat_map fst snd] in *.
    pose proof (Hbelow (dn, subdirs, files)) as Hdn. cbn [fst] in Hdn.
    apply unregistered_split in Hun as [Hun1 Hun2].
    destruct (run_uploads_unregistered
                (map (fun fn => (OsPath.join dn [fn],
                                 OsPath.join s3prefix
                                   [OsPath.relpath (fs_cwd fs) (OsPath.join dn [fn])
                                      abs_output])) files) st Hun1)
      as (st1 & Hrun1 & Hdone1).
    { intros u Hu. apply Hok, elem_of_app. left. exact Hu. }
    destruct (IH (fun item Hitem => Hbelow item (list_elem_of_further _ _ _ Hitem)) st1)
      as (st' & Hrest & Hdone).
    { destruct Hdone1 as (_ & _ & Hr & _). exact (unregistered_keeps world st st1 _ Hr Hun2). }
    { intros u Hu. apply Hok, elem_of_app. right. exact Hu. }
    exists st'. split; [|eapply uploads_done_app; eassumption].
    cbn [for_each]. unfold_m. rewrite Hdn by left. cbn [assert].
    unfold run_uploads in Hrun1. rewrite for_each_map in Hrun1. cbn [fst snd] in Hrun1.
    unfold_m. rewrite Hrun1. exact Hrest.
Qed.

(** Recording uploads leaves the ledger's entry of any other file object. *)
Lemma record_uploads_other ups id :
  (forall u, u ∈ ups -> inode fs u.1 ≠ Some id) ->
  forall uploaded, record_uploads fs ups uploaded !! id = uploaded !! id.
Proof.
  unfold record_uploads. induction ups as [|u ups IH]; intros Hne uploaded;
    [reflexivity|].
  cbn [fold_left]. rewrite IH by (intros v Hv; apply Hne; right; exact Hv).
  pose proof (Hne u (list_elem_of_here _ _)) as Hu.
  destruct (inode fs u.1) as [idu|]; [|reflexivity].
  apply lookup_insert_ne. congruence.
Qed.

(** X12: a directory-valued output is recorded without a look at the
    registry.  When no insert waits for a file below the directory, the task
    hook's work on the output uploads the files, records the directory's
    identity with its URI, and sends nothing to the cache: an insert that
    waits for the directory itself stays in the registry unpublished. *)
Theorem directory_output_publishes_nothing s3prefix links_dir output names st id :
  let abs_output := OsPath.join links_dir [output] in
  let output_contents := map (fun fn => OsPath.join abs_output [fn]) (not_hidden names) in
  let first := hd "" output_contents in
  let ups := dir_uploads fs s3prefix abs_output first in
  Os.isdir fs abs_output = true ->
  Os.listdir fs abs_output = Some names ->
  length output_contents = 1%nat ->
  Os.isdir fs first = true -> Os.islink fs first = true ->
  inode fs first = Some id ->
  unregistered world st ups ->
  uploads_ok world ups ->
  (forall u, u ∈ ups -> inode fs u.1 ≠ Some id) ->
  exists st',
    task_output world cfg s3prefix links_dir output st = (st', inr tt) /\
    commands st' = commands st ++ map (fun u => s3parcp_cmd u.1 u.2) ups /\
    uploaded_files st' !! id
      = Some (OsPath.join s3prefix [OsPath.basename first] +:+ "/") /\
    cached_files st' = cached_files st /\
    s3_calls st' = s3_calls st.
Proof.
  intros abs_output output_contents first ups Hisdir Hls Hlen Hdir Hlink Hid Hun Hok Hne.
  subst output_contents.
  destruct (not_hidden names) as [|d [|d' rest]] eqn:Hvis; try discriminate.
  assert (Hd : entry_name d).
  { apply (listdir_entry_name fs abs_output names d Hls).
    assert (Hin : d ∈ not_hidden names) by (rewrite Hvis; left).
    unfold not_hidden in Hin. apply list_elem_of_filter in Hin as [_ Hin]. exact Hin. }
  destruct (join2_ends_with_name abs_output d Hd) as [Hnonempty Hend].
  destruct (walk_loop_unregistered s3prefix abs_output first
              (Os.walk fs (length (fs_table fs)) first)
              (fun item Hitem => walk_below fs _ first item Hnonempty Hend Hitem)
              (set_uploaded_files
                 (<[id := OsPath.join s3prefix [OsPath.basename first] +:+ "/"]>
                    (uploaded_files st)) st))
    as (st' & Hloop & Hc & Hu & Hr & Hs).
  { apply (unregistered_keeps world st); [reflexivity|exact Hun]. }
  { exact Hok. }
  exists st'. split; [|split; [exact Hc|split; [|split; [exact Hr|exact Hs]]]].
  - unfold task_output. fold fs. fold abs_output. rewrite Hisdir.
    unfold listdir. fold fs. rewrite Hls. unfold assert at 1 2. unfold_m.
    rewrite Hvis. cbn [map hd length Nat.eqb andb].
    change (OsPath.join abs_output [d]) with first.
    rewrite Hdir, Hlink, Hid. cbn [andb]. exact Hloop.
  - rewrite Hu. fold ups (dir_uploads fs s3prefix abs_output first).
    rewrite (record_uploads_other _ id Hne). simpl. apply lookup_insert_eq.
Qed.
End DirectoryRecord.

Lemma directory_output_publishes_nothing_witness :
  let ups := dir_uploads Sample.fs "s3://bucket/pre" "/run/out/bam"
               "/run/out/bam/alignments" in
  cached_files pending_directory !! (1, 6)
    = Some ("kD", [("bam", VDirectory "/work/alignments")]) /\
  inode Sample.fs "/run/out/bam/alignments" = Some (1, 6) /\
  unregistered Sample.world pending_directory ups /\
  (exists st',
     task_output Sample.world Sample.cfg "s3://bucket/pre" "/run/out" "bam"
       pending_directory = (st', inr tt) /\
     uploaded_files st' !! (1, 6) = Some "s3://bucket/pre/alignments/" /\
     all_resolved Sample.world (uploaded_files st')
       [("bam", VDirectory "/work/alignments")] = true /\
     cached_files st' = cached_files pending_directory /\
     s3_calls st' = []).
Proof.
  intros ups.
  assert (Hups : ups =
            [("/run/out/bam/alignments/a.bam", "s3://bucket/pre/alignments/a.bam");
             ("/run/out/bam/alignments/b.bam", "s3://bucket/pre/alignments/b.bam")])
    by (vm_compute; reflexivity).
  assert (H0 : cached_files pending_directory !! (1, 6)
               = Some ("kD", [("bam", VDirectory "/work/alignments")]))
    by (vm_compute; reflexivity).
  assert (H1 : inode Sample.fs "/run/out/bam/alignments" = Some (1, 6))
    by (vm_compute; reflexivity).
  assert (H2 : unregistered Sample.world pending_directory ups).
  { apply unregistered_by_lookup. vm_compute. reflexivity. }
  split; [exact H0|]. split; [exact H1|]. split; [exact H2|].
  destruct (directory_output_publishes_nothing Sample.world Sample.cfg "s3://bucket/pre"
              "/run/out" "bam" ["alignments"] pending_directory (1, 6))
    as (st' & Hrun & _ & Hu & Hc & Hs).
  - vm_compute. reflexivity.
  - vm_compute. reflexivity.
  - reflexivity.
  - vm_compute. reflexivity.
  - vm_compute. reflexivity.
  - exact H1.
  - exact H2.
  - apply uploads_ok_check. vm_compute. reflexivity.
  - intros u Hu. change (u ∈ ups) in Hu. rewrite Hups in Hu.
    apply elem_of_cons in Hu as [->|Hu];
      [|apply list_elem_of_singleton in Hu as ->]; vm_compute; discriminate.
  - exists st'. split; [exact Hrun|]. split; [exact Hu|]. split; [|split].
    + unfold all_resolved, env_paths, resolved. simpl.
      replace (inode (w_fs Sample.world) "/work/alignments") with (Some (1, 6))
        by (vm_compute; reflexivity).
      rewrite andb_true_r. apply bool_decide_eq_true_2. rewrite Hu. eauto.
    + exact Hc.
    + rewrite Hs. vm_compute. reflexivity.
Defined.
